(** * llm-cron-app: the prompt execution pipeline

    A shallow embedding of the two orchestration handlers of the server,
    [server/src/handlers/execute_prompt.ts] (manual / scheduled trigger) and
    [server/src/handlers/webhook_execution.ts] (inbound webhook trigger), and
    of the template rendering each of them performs; and of the repository
    handlers that read and delete what they work on ([get_prompt.ts],
    [get_prompts.ts], [get_execution_history.ts]).

    Strings are byte strings; a JavaScript object is the list of its own
    enumerable properties in enumeration order; the database and the network
    are an explicit world threaded through a small exception-and-state monad
    that mirrors [async]/[await] with [try]/[catch].  Identifiers are the
    integer-valued numbers.  The database server refuses what its columns
    do not take: an integer outside 32 bits, a text that holds U+0000, a
    row whose prompt is not stored; and a [jsonb] column gives a value back
    in its own normal form.  Both are part of the model (class
    [Database]); the handlers rethrow the server's errors. *)

From Stdlib Require Import String Ascii List ZArith Lia Bool DecimalString.
From Stdlib Require Import Permutation.
Import ListNotations.

Local Open Scope string_scope.

Set Implicit Arguments.
Set Warnings "-register-all".

(* ===================================================================== *)
(** ** Completions: a value, or a thrown exception *)
(* ===================================================================== *)

(** What a [throw] carries.  [catch] clauses of the handlers test
    [error instanceof Error] and read [error.message]. *)
Inductive Exn : Type :=
| ErrorObject (name message : string)   (* an instance of Error *)
| Thrown (description : string).        (* any other thrown value *)

Inductive Completion (A : Type) : Type :=
| Normal (a : A)
| Throw (e : Exn).
Arguments Normal {A} a.
Arguments Throw {A} e.

Definition cbind {A B} (c : Completion A) (k : A -> Completion B) : Completion B :=
  match c with
  | Normal a => k a
  | Throw e => Throw e
  end.

Declare Scope completion_scope.
Delimit Scope completion_scope with completion.
Notation "x <-? c ;; k" :=
  (cbind c (fun x => k))
  (at level 61, c at next level, right associativity) : completion_scope.

(** A template literal [${n}] for an integer [n]: its decimal digits. *)
Definition Z_toString (z : Z) : string := NilZero.string_of_int (Z.to_int z).

(* ===================================================================== *)
(** ** The JavaScript engine: what the embedding leaves abstract *)
(* ===================================================================== *)

(** IEEE doubles, the source text of built-in functions, the wording of the
    engine's own TypeErrors and regular expressions other than the
    placeholder patterns are not modelled; every definition and theorem below
    is parametric in them. *)
Class Engine : Type := {
  number : Type;
  (** [String(n)] for a number. *)
  Number_toString : number -> string;
  (** [false] for [0], [-0] and [NaN]. *)
  Number_truthy : number -> bool;
  parseFloat : string -> number;
  (** [String(f)] for the built-in function found under the given member
      name of [Object.prototype]. *)
  Function_toString : string -> string;
  (** Message of the TypeError raised when an object has no primitive value. *)
  cannot_convert_message : string;
  (** Message of the TypeError raised by a property read on [null] or
      [undefined], from the text of the value and the key. *)
  cannot_read_message : string -> string -> string;
  (** Message of the TypeError raised by [Object.keys] on [null] or
      [undefined]. *)
  null_to_object_message : string;
  (** [new RegExp(source, 'g')] for a [source] outside the class of
      [isPlaceholderPattern] below: the SyntaxError of the constructor, or
      the expression as the function from a subject and a replacement string
      to [subject.replace(rx, replacement)]. *)
  RegExp_new : string -> Completion (string -> string -> Completion string)
}.

(* ===================================================================== *)
(** ** Values *)
(* ===================================================================== *)

Section Values.
Context {E : Engine}.

(** JSON values and [undefined]: what [z.record(z.any())] admits from the
    wire.  [JObj] lists own properties in enumeration order. *)
Inductive JSValue : Type :=
| JUndefined
| JNull
| JBool (b : bool)
| JNum (n : number)
| JStr (s : string)
| JArr (elements : list JSValue)
| JObj (properties : list (string * JSValue)).

(** [Record<string, any>] *)
Definition object : Type := list (string * JSValue).

Fixpoint ownProperty (o : object) (key : string) : option JSValue :=
  match o with
  | [] => None
  | (k, v) :: rest => if String.eqb k key then Some v else ownProperty rest key
  end.

Definition hasOwnProperty (o : object) (key : string) : bool :=
  match ownProperty o key with Some _ => true | None => false end.

Definition isUndefined (v : JSValue) : bool :=
  match v with JUndefined => true | _ => false end.

(** ToBoolean *)
Definition truthy (v : JSValue) : bool :=
  match v with
  | JUndefined | JNull => false
  | JBool b => b
  | JNum n => Number_truthy n
  | JStr s => negb (String.eqb s "")
  | JArr _ | JObj _ => true
  end.

Definition TypeError_cannot_convert : Exn :=
  ErrorObject "TypeError" cannot_convert_message.

(** [String(v)].  An array joins its elements with commas, [undefined] and
    [null] elements giving the empty string.  A plain object converts through
    [Object.prototype.toString], unless an own [toString] property shadows it:
    own properties of these values are never callable, so the conversion then
    finds no primitive and throws. *)
Fixpoint JS_String (v : JSValue) : Completion string :=
  match v with
  | JUndefined => Normal "undefined"
  | JNull => Normal "null"
  | JBool true => Normal "true"
  | JBool false => Normal "false"
  | JNum n => Normal (Number_toString n)
  | JStr s => Normal s
  | JArr elements =>
      let element (x : JSValue) : Completion string :=
        match x with
        | JUndefined | JNull => Normal ""
        | _ => JS_String x
        end in
      (fix join (xs : list JSValue) : Completion string :=
         match xs with
         | [] => Normal ""
         | [x] => element x
         | x :: rest =>
             cbind (element x) (fun a =>
             cbind (join rest) (fun b => Normal (a ++ "," ++ b)))
         end) elements
  | JObj properties =>
      if hasOwnProperty properties "toString"
      then Throw TypeError_cannot_convert
      else Normal "[object Object]"
  end.

(** Members every plain object inherits from [Object.prototype]. *)
Definition Object_prototype_functions : list string :=
  [ "constructor"; "hasOwnProperty"; "isPrototypeOf"; "propertyIsEnumerable";
    "toLocaleString"; "toString"; "valueOf";
    "__defineGetter__"; "__defineSetter__";
    "__lookupGetter__"; "__lookupSetter__" ].

Definition inheritedName (key : string) : bool :=
  existsb (String.eqb key) Object_prototype_functions
  || String.eqb key "__proto__".

(** The result of the property read [data[key]] on a plain object: an own
    property, else what the prototype chain supplies. *)
Inductive Reference : Type :=
| OwnValue (v : JSValue)
| BuiltinFunction (member : string)   (* a method of Object.prototype *)
| ObjectPrototype                     (* data["__proto__"] *)
| Missing.                            (* undefined *)

Definition Get (data : object) (key : string) : Reference :=
  match ownProperty data key with
  | Some v => OwnValue v
  | None =>
      if existsb (String.eqb key) Object_prototype_functions
      then BuiltinFunction key
      else if String.eqb key "__proto__" then ObjectPrototype
      else Missing
  end.

(** [ref !== undefined] *)
Definition isDefined (r : Reference) : bool :=
  match r with
  | OwnValue v => negb (isUndefined v)
  | BuiltinFunction _ | ObjectPrototype => true
  | Missing => false
  end.

Definition Reference_String (r : Reference) : Completion string :=
  match r with
  | OwnValue v => JS_String v
  | BuiltinFunction member => Normal (Function_toString member)
  | ObjectPrototype => Normal "[object Object]"
  | Missing => Normal "undefined"
  end.

End Values.

Arguments JSValue {E}.
Arguments object {E}.

(* ===================================================================== *)
(** ** String.prototype.replace with a global regular expression *)
(* ===================================================================== *)

Module Replace.

(** One match of a regular expression at the head of the remaining input:
    the matched text, its capture groups, and the input after the match. *)
Record Match : Type := mkMatch {
  matched : string;
  captures : list string;
  rest : string
}.

(** A regular expression, as the function that tries it at one position. *)
Definition RegExp : Type := string -> option Match.

(** The replace value: a callback, or a replacement template.  It receives
    the match, the input before it and the input after it. *)
Definition ReplaceValue : Type := Match -> string -> Completion string.

(** The scan of [subject.replace(rx, replaceValue)] for [rx] with the [g]
    flag: matches are taken left to right and do not overlap; text between
    matches is copied; the scan resumes after each match, and one character
    further after an empty one.  [before] is the input already consumed.
    Every step consumes at least one character, so [fuel] bounds the steps;
    [replace] supplies enough of it. *)
Fixpoint replaceLoop (fuel : nat) (rx : RegExp) (replaceValue : ReplaceValue)
    (before subject : string) : Completion string :=
  match fuel with
  | O => Normal subject
  | S fuel' =>
      match rx subject with
      | Some m =>
          if (String.length (rest m) <? String.length subject)%nat then
            cbind (replaceValue m before) (fun r =>
            cbind (replaceLoop fuel' rx replaceValue (before ++ matched m) (rest m))
                  (fun out => Normal (r ++ out)))
          else
            match subject with
            | EmptyString => replaceValue m before
            | String c later =>
                cbind (replaceValue m before) (fun r =>
                cbind (replaceLoop fuel' rx replaceValue
                                   (before ++ String c EmptyString) later)
                      (fun out => Normal (r ++ String c out)))
            end
      | None =>
          match subject with
          | EmptyString => Normal EmptyString
          | String c later =>
              cbind (replaceLoop fuel' rx replaceValue
                                 (before ++ String c EmptyString) later)
                    (fun out => Normal (String c out))
          end
      end
  end.

Definition replaceFrom (rx : RegExp) (replaceValue : ReplaceValue)
    (before subject : string) : Completion string :=
  replaceLoop (S (String.length subject)) rx replaceValue before subject.

Definition replace (subject : string) (rx : RegExp) (replaceValue : ReplaceValue)
  : Completion string :=
  replaceFrom rx replaceValue "" subject.

(** A regular expression that never matches the empty text. *)
Definition consuming (rx : RegExp) : Prop :=
  forall s m, rx s = Some m -> (String.length (rest m) < String.length s)%nat.

End Replace.

(* ===================================================================== *)
(** ** Template rendering *)
(* ===================================================================== *)

(** [\w]: ASCII letters, digits and the underscore. *)
Definition isDigit (c : ascii) : bool :=
  let n := N_of_ascii c in (48 <=? n)%N && (n <=? 57)%N.

Definition isWordChar (c : ascii) : bool :=
  let n := N_of_ascii c in
  ((97 <=? n)%N && (n <=? 122)%N)
  || ((65 <=? n)%N && (n <=? 90)%N)
  || isDigit c
  || (n =? 95)%N.

Fixpoint allChars (p : ascii -> bool) (s : string) : bool :=
  match s with
  | EmptyString => true
  | String c s' => p c && allChars p s'
  end.

(** A placeholder name: one or more word characters. *)
Definition isWord (s : string) : bool :=
  allChars isWordChar s && negb (String.eqb s "").

(** The greedy [\w+]: the longest run of word characters, and what follows. *)
Fixpoint takeWord (s : string) : string * string :=
  match s with
  | EmptyString => (EmptyString, EmptyString)
  | String c s' =>
      if isWordChar c
      then let (w, r) := takeWord s' in (String c w, r)
      else (EmptyString, s)
  end.

(** [stripPrefix p s] is what follows [p] in [s], when [s] starts with [p]. *)
Fixpoint stripPrefix (p s : string) : option string :=
  match p with
  | EmptyString => Some s
  | String a p' =>
      match s with
      | String b s' => if Ascii.eqb a b then stripPrefix p' s' else None
      | EmptyString => None
      end
  end.

(** The text of the placeholder for a key. *)
Definition placeholder (key : string) : string := "{{" ++ key ++ "}}".

(** The regular expression [/\{\{(\w+)\}\}/] tried at the head of [s]: two
    opening braces, the greedy run of word characters (the capture group),
    two closing braces.  A shorter run of word characters is followed by a
    word character, never by a brace, so backtracking finds no match that
    the greedy run misses. *)
Definition placeholderRegExp : Replace.RegExp := fun s =>
  match stripPrefix "{{" s with
  | Some s1 =>
      let (key, r) := takeWord s1 in
      match stripPrefix "}}" r with
      | Some after =>
          if String.eqb key "" then None
          else Some (Replace.mkMatch (placeholder key) [key] after)
      | None => None
      end
  | None => None
  end.

(** [occurs p s]: the text [p] stands somewhere in [s]. *)
Fixpoint occurs (p s : string) : bool :=
  match stripPrefix p s with
  | Some _ => true
  | None =>
      match s with
      | EmptyString => false
      | String _ s' => occurs p s'
      end
  end.

(** The template holds the placeholder of [key]. *)
Definition mentions (template key : string) : bool :=
  occurs (placeholder key) template.

Section Rendering.
Context {E : Engine}.

(** [execute_prompt.ts], lines 8-12:
<<
function renderTemplate(template: string, data: Record<string, any> = {}): string {
  return template.replace(/\{\{(\w+)\}\}/g, (match, key) => {
    return data[key] !== undefined ? String(data[key]) : match;
  });
}
>>
    The default parameter value turns an absent [data] into [{}]. *)
Definition renderCallback (data : object) : Replace.ReplaceValue := fun m _ =>
  let key := hd "" (Replace.captures m) in
  if isDefined (Get data key)
  then Reference_String (Get data key)
  else Normal (Replace.matched m).

(** [data = {}]: the object read when the argument is absent. *)
Definition dataOf (data : option object) : object :=
  match data with Some d => d | None => [] end.

Definition renderTemplate (template : string) (data : option object)
  : Completion string :=
  Replace.replace template placeholderRegExp (renderCallback (dataOf data)).

(** What the callback returns for the placeholder of [key]. *)
Definition substitution (data : object) (key : string) : Completion string :=
  if isDefined (Get data key)
  then Reference_String (Get data key)
  else Normal (placeholder key).

(** The two ways a placeholder standing between [pre] and [post] can come
    out: replaced by [String(v)], or kept as it is.  The text on either side
    is rendered on its own; a conversion that throws makes the rendering
    throw. *)
Definition substituted (data : option object) (pre : string) (v : JSValue)
    (post : string) : Completion string :=
  (pre' <-? renderTemplate pre data ;;
   s <-? JS_String v ;;
   post' <-? renderTemplate post data ;;
   Normal (pre' ++ s ++ post'))%completion.

Definition kept (data : option object) (pre key post : string)
  : Completion string :=
  (pre' <-? renderTemplate pre data ;;
   post' <-? renderTemplate post data ;;
   Normal (pre' ++ placeholder key ++ post'))%completion.

(** The names a plain object answers to: its keys that can stand in a
    placeholder, and the members it inherits. *)
Definition resolvable (data : object) : list string :=
  (filter isWord (map fst data) ++ Object_prototype_functions
   ++ ["__proto__"])%list.

(** The template mentions no name the mapping resolves. *)
Definition unresolved (template : string) (data : object) : bool :=
  forallb (fun key => negb (mentions template key)) (resolvable data).

End Rendering.

(* ===================================================================== *)
(** ** Replacement templates and the webhook handler's rendering loop *)
(* ===================================================================== *)

(** GetSubstitution for a match without capture groups: in a replacement
    string, [$$] is a dollar sign, [$&] the matched text, [$`] the input
    before the match and [$'] the input after it; a dollar sign before
    anything else (a digit included, there being no group to name) stands for
    itself. *)
Fixpoint GetSubstitution (matched before after template : string) : string :=
  match template with
  | EmptyString => EmptyString
  | String c t =>
      if Ascii.eqb c "$" then
        match t with
        | String d t' =>
            if Ascii.eqb d "$"
            then String "$" (GetSubstitution matched before after t')
            else if Ascii.eqb d "&"
            then matched ++ GetSubstitution matched before after t'
            else if Ascii.eqb d "`"
            then before ++ GetSubstitution matched before after t'
            else if Ascii.eqb d "'"
            then after ++ GetSubstitution matched before after t'
            else String c (GetSubstitution matched before after t)
        | EmptyString => String c EmptyString
        end
      else String c (GetSubstitution matched before after t)
  end.

(** A regular expression that matches exactly the text [pattern]. *)
Definition literalRegExp (pattern : string) : Replace.RegExp := fun s =>
  match stripPrefix pattern s with
  | Some after => Some (Replace.mkMatch pattern [] after)
  | None => None
  end.

(** The sources [{{key}}] that [new RegExp] reads as the literal text
    [{{key}}]: [key] is made of word characters, not all of them digits.
    (Braces that enclose no digit count are ordinary characters; around
    digits only they are a repetition count, and a key with other characters
    may hold regular expression syntax: both are left to the engine.) *)
Definition isPlaceholderPattern (source : string) : bool :=
  match stripPrefix "{{" source with
  | Some s1 =>
      let (key, r) := takeWord s1 in
      String.eqb r "}}" && negb (allChars isDigit key)
  | None => false
  end.

Section WebhookRendering.
Context {E : Engine}.

(** [subject.replace(rx, replacement)] for [rx] matching the text [pattern]. *)
Definition replaceLiteral (pattern subject replacement : string)
  : Completion string :=
  Replace.replace subject (literalRegExp pattern)
    (fun m before =>
       Normal (GetSubstitution (Replace.matched m) before (Replace.rest m)
                               replacement)).

(** [new RegExp(source, 'g')], as the function from a subject and a
    replacement string to [subject.replace(rx, replacement)]. *)
Definition new_RegExp (source : string)
  : Completion (string -> string -> Completion string) :=
  if isPlaceholderPattern source
  then Normal (replaceLiteral source)
  else RegExp_new source.

(** [webhook_execution.ts], lines 26-30:
<<
let renderedPrompt = prompt.prompt_text;
for (const [key, value] of Object.entries(input.payload)) {
  const placeholder = `{{${key}}}`;
  renderedPrompt = renderedPrompt.replace(new RegExp(placeholder, 'g'), String(value));
}
>> *)
Fixpoint renderPayload (entries : object) (renderedPrompt : string)
  : Completion string :=
  match entries with
  | [] => Normal renderedPrompt
  | (key, value) :: more =>
      (rx <-? new_RegExp (placeholder key) ;;
       replacement <-? JS_String value ;;
       renderedPrompt' <-? rx renderedPrompt replacement ;;
       renderPayload more renderedPrompt')%completion
  end.

End WebhookRendering.

(* ===================================================================== *)
(** ** Data model ([server/src/db/schema.ts], [server/src/schema.ts]) *)
(* ===================================================================== *)

Inductive triggerTypeEnum : Type := cron | webhook.
Inductive executionStatusEnum : Type := success | failed.

(** A row of [promptsTable].  The [numeric] columns are decimal text;
    timestamps are an opaque clock reading. *)
Module Prompt.
Record t : Type := mk {
  id : Z;
  name : string;
  description : option string;
  prompt_text : string;
  model : string;
  temperature : string;
  max_tokens : option Z;
  top_p : string;
  frequency_penalty : string;
  presence_penalty : string;
  destination_webhook_url : string;
  cron_schedule : option string;
  is_active : bool;
  created_at : Z;
  updated_at : Z
}.
End Prompt.

(** A row of [executionHistoryTable], as a query returns it; [None] is SQL
    [NULL].  The two [jsonb] columns hold whatever value was stored: the
    handlers cast them to [Record<string, any>] without a check. *)
Module ExecutionHistory.
Record t {E : Engine} : Type := mk {
  id : Z;
  prompt_id : Z;
  trigger_type : triggerTypeEnum;
  input_data : option JSValue;
  rendered_prompt : string;
  openai_response : JSValue;
  webhook_response_status : option Z;
  webhook_response_body : option string;
  execution_status : executionStatusEnum;
  error_message : option string;
  created_at : Z
}.
End ExecutionHistory.

Module ExecutePromptInput.
Record t {E : Engine} : Type := mk {
  prompt_id : Z;
  template_data : option object
}.
End ExecutePromptInput.

Module WebhookExecutionInput.
Record t {E : Engine} : Type := mk {
  prompt_id : Z;
  payload : object
}.
End WebhookExecutionInput.

(** The identifiers are the integer-valued numbers among those that
    [z.number()] admits; the columns that hold them are [integer]
    ([serial] for the keys), four bytes wide. *)
Definition int4 (z : Z) : bool :=
  (-2147483648 <=? z)%Z && (z <=? 2147483647)%Z.

(** U+0000, which no [text] column holds. *)
Definition hasNul (s : string) : bool :=
  negb (allChars (fun c => negb (Ascii.eqb c Ascii.zero)) s).

Definition nullOrClean (s : option string) : bool :=
  match s with
  | Some text => negb (hasNul text)
  | None => true
  end.

(* ===================================================================== *)
(** ** PostgreSQL: what the embedding leaves abstract *)
(* ===================================================================== *)

Section Rows.
Context {E : Engine}.

(** The columns an insert into [executionHistoryTable] supplies; [id] and
    [created_at] are defaults. *)
Record NewExecutionHistory : Type := mkNew {
  new_prompt_id : Z;
  new_trigger_type : triggerTypeEnum;
  new_input_data : option object;
  new_rendered_prompt : string;
  new_openai_response : JSValue;
  new_webhook_response_status : option Z;
  new_webhook_response_body : option string;
  new_execution_status : executionStatusEnum;
  new_error_message : option string
}.

End Rows.

(** The normal form in which a [jsonb] column keeps a value and the wording
    of the server's errors are not modelled; every definition and theorem
    below is parametric in them. *)
Class Database {E : Engine} : Type := {
  (** What a query reads back from a [jsonb] column for a value written to
      it through [JSON.stringify]: keys without a JSON value are gone, the
      keys of an object come in the column's own order.  [None] when the
      server refuses the value (a string that holds U+0000; [null] or
      [undefined] for a column that is [NOT NULL]). *)
  jsonb : JSValue -> option JSValue;
  (** The error of a query whose integer parameter is outside [int4]. *)
  integer_out_of_range : Z -> Exn;
  (** The error of an insert the server refuses, from the next value of
      the serial and the columns supplied. *)
  insert_refused : Z -> NewExecutionHistory -> Exn;
  (** Whether the refused insert has drawn the next value of the serial
      all the same: it has when the server formed the row and a constraint
      refused it, not when it refused a parameter. *)
  refusal_draws : Z -> NewExecutionHistory -> bool
}.

(* ===================================================================== *)
(** ** The world: database, configuration and network *)
(* ===================================================================== *)

Section World.
Context {E : Engine} {D : Database}.

(** The value handed to [JSON.stringify] for a request body.  In
    [max_tokens], [None] is a key left out and [Some None] is [null]. *)
Inductive RequestBody : Type :=
| ChatCompletion (model content : string) (temperature : number)
    (max_tokens : option (option Z))
    (top_p frequency_penalty presence_penalty : number)
| ManualDelivery (prompt_id : Z) (rendered_prompt : string)
    (openai_response : JSValue) (template_data : option object)
| WebhookDelivery (prompt_id : Z) (original_payload : object)
    (openai_response : JSValue) (execution_id : option Z).

(** A [fetch] call; every call of the handlers is a POST. *)
Record Request : Type := mkRequest {
  url : string;
  headers : list (string * string);
  body : RequestBody
}.

(** A [Response]: its status, and what [json()] and [text()] resolve to.
    A body parses to any JSON value, [null] included; the handlers cast it
    to [Record<string, any>] without a check. *)
Record Response : Type := mkResponse {
  status : Z;
  json : Completion JSValue;
  text : Completion string
}.

(** [response.ok] *)
Definition ok (r : Response) : bool :=
  (200 <=? status r)%Z && (status r <=? 299)%Z.

Record World : Type := mkWorld {
  promptsTable : list Prompt.t;
  executionHistoryTable : list ExecutionHistory.t;
  (** next value of the serial [execution_history.id] *)
  nextval : Z;
  (** [defaultNow()] *)
  now : Z;
  (** [process.env['OPENAI_API_KEY']] *)
  OPENAI_API_KEY : option string;
  (** what the n-th [fetch] of the process answers to a request: a
      response, or a rejection *)
  network : nat -> Request -> Completion Response;
  (** the [fetch] calls issued so far, oldest first *)
  requests : list Request
}.

(** The [let] variables the handlers assign inside [try] blocks and read
    after them. *)
Record Locals : Type := mkLocals {
  openaiResponse : JSValue;
  webhookResponseStatus : option Z;
  webhookResponseBody : option string;
  executionStatus : executionStatusEnum;
  errorMessage : option string
}.

Definition initialLocals : Locals :=
  mkLocals (JObj []) None None success None.

(** An [async] computation: it reads and writes the world and the local
    variables, and completes normally or throws; what it wrote before a
    throw stays written. *)
Definition Prog (A : Type) : Type :=
  World * Locals -> Completion A * (World * Locals).

Definition ret {A} (a : A) : Prog A := fun s => (Normal a, s).

Definition bind {A B} (p : Prog A) (k : A -> Prog B) : Prog B := fun s =>
  match p s with
  | (Normal a, s') => k a s'
  | (Throw e, s') => (Throw e, s')
  end.

Definition throw {A} (e : Exn) : Prog A := fun s => (Throw e, s).

(** [try { body } catch (error) { handler }] *)
Definition tryCatch {A} (body : Prog A) (handler : Exn -> Prog A) : Prog A :=
  fun s =>
    match body s with
    | (Normal a, s') => (Normal a, s')
    | (Throw e, s') => handler e s'
    end.

Definition lift {A} (c : Completion A) : Prog A := fun s => (c, s).

Definition getWorld : Prog World := fun s => (Normal (fst s), s).
Definition getLocals : Prog Locals := fun s => (Normal (snd s), s).
Definition assign (f : Locals -> Locals) : Prog unit :=
  fun s => (Normal tt, (fst s, f (snd s))).

Definition set_openaiResponse (v : JSValue) (l : Locals) : Locals :=
  mkLocals v (webhookResponseStatus l) (webhookResponseBody l)
           (executionStatus l) (errorMessage l).
Definition set_webhookResponseStatus (v : option Z) (l : Locals) : Locals :=
  mkLocals (openaiResponse l) v (webhookResponseBody l)
           (executionStatus l) (errorMessage l).
Definition set_webhookResponseBody (v : option string) (l : Locals) : Locals :=
  mkLocals (openaiResponse l) (webhookResponseStatus l) v
           (executionStatus l) (errorMessage l).
Definition set_executionStatus (v : executionStatusEnum) (l : Locals) : Locals :=
  mkLocals (openaiResponse l) (webhookResponseStatus l) (webhookResponseBody l)
           v (errorMessage l).
Definition set_errorMessage (v : option string) (l : Locals) : Locals :=
  mkLocals (openaiResponse l) (webhookResponseStatus l) (webhookResponseBody l)
           (executionStatus l) v.

(** [await fetch(url, { method: 'POST', headers, body: JSON.stringify(body) })] *)
Definition fetch (rq : Request) : Prog Response := fun s =>
  let w := fst s in
  let w' := mkWorld (promptsTable w) (executionHistoryTable w) (nextval w)
                    (now w) (OPENAI_API_KEY w) (network w)
                    (requests w ++ [rq]) in
  (network w (List.length (requests w)) rq, (w', snd s)).

(** [db.select().from(promptsTable).where(eq(promptsTable.id, id)).execute()]:
    the server refuses a parameter outside the type of the column. *)
Definition selectPrompts (id : Z) : Prog (list Prompt.t) := fun s =>
  if int4 id
  then (Normal (filter (fun p => Z.eqb (Prompt.id p) id) (promptsTable (fst s))), s)
  else (Throw (integer_out_of_range id), s).

(** What the two [jsonb] columns hold for the values of an insert:
    [input_data] is nullable, and SQL [NULL] for an absent mapping. *)
Definition jsonbInput (data : option object) : option (option JSValue) :=
  match data with
  | Some d =>
      match jsonb (JObj d) with
      | Some stored => Some (Some stored)
      | None => None
      end
  | None => Some None
  end.

(** The row the server writes for the columns of an insert, if it takes
    them: the serial has a value left, the integers fit their columns, the
    prompt referenced is stored (the foreign key), no text holds U+0000,
    and the [jsonb] columns accept their values.  The row has the next
    value of the serial, the time of the clock, and the [jsonb] values as
    the columns keep them. *)
Definition written (w : World) (v : NewExecutionHistory)
  : option ExecutionHistory.t :=
  if int4 (nextval w) && int4 (new_prompt_id v)
     && existsb (fun p => Z.eqb (Prompt.id p) (new_prompt_id v)) (promptsTable w)
     && match new_webhook_response_status v with
        | Some st => int4 st
        | None => true
        end
     && negb (hasNul (new_rendered_prompt v))
     && nullOrClean (new_webhook_response_body v)
     && nullOrClean (new_error_message v)
  then
    match jsonbInput (new_input_data v), jsonb (new_openai_response v) with
    | Some input, Some response =>
        Some (ExecutionHistory.mk (nextval w) (new_prompt_id v)
                (new_trigger_type v) input (new_rendered_prompt v) response
                (new_webhook_response_status v) (new_webhook_response_body v)
                (new_execution_status v) (new_error_message v) (now w))
    | _, _ => None
    end
  else None.

(** The world after an insert the server refused: nothing is written; a
    value of the serial may be gone. *)
Definition afterRefusal (w : World) (v : NewExecutionHistory) : World :=
  mkWorld (promptsTable w) (executionHistoryTable w)
          (if refusal_draws (nextval w) v then nextval w + 1 else nextval w)%Z
          (now w) (OPENAI_API_KEY w) (network w) (requests w).

(** [db.insert(executionHistoryTable).values(v).returning().execute()]:
    the row written, or the server's error and nothing written. *)
Definition insertExecutionHistory (v : NewExecutionHistory)
  : Prog (list ExecutionHistory.t) := fun s =>
  let w := fst s in
  match written w v with
  | Some row =>
      let w' := mkWorld (promptsTable w) (executionHistoryTable w ++ [row])
                        (nextval w + 1)%Z (now w) (OPENAI_API_KEY w) (network w)
                        (requests w) in
      (Normal [row], (w', snd s))
  | None => (Throw (insert_refused (nextval w) v), (afterRefusal w v, snd s))
  end.

End World.

Declare Scope prog_scope.
Delimit Scope prog_scope with prog.
Notation "x <- p ;; k" :=
  (bind p (fun x => k))
  (at level 61, p at next level, right associativity) : prog_scope.
Notation "p ;; k" :=
  (bind p (fun _ => k))
  (at level 61, right associativity) : prog_scope.

(* ===================================================================== *)
(** ** The two handlers *)
(* ===================================================================== *)

Section Handlers.
Context {E : Engine} {D : Database}.

Local Open Scope prog_scope.

(** [error instanceof Error ? error.message : fallback] *)
Definition messageOr (fallback : string) (error : Exn) : string :=
  match error with
  | ErrorObject _ message => message
  | Thrown _ => fallback
  end.

Definition Error (message : string) : Exn := ErrorObject "Error" message.

(** The property reads on the parsed completion body.  None of the names
    read ([error], [message], [choices], [content], index [0]) is a member of
    a built-in prototype, so own properties decide the result.
    [member v key] is [v?.[key]]. *)
Definition member (v : JSValue) (key : string) : JSValue :=
  match v with
  | JObj properties =>
      match ownProperty properties key with Some x => x | None => JUndefined end
  | _ => JUndefined
  end.

(** [v?.[0]] *)
Definition first (v : JSValue) : JSValue :=
  match v with
  | JArr (x :: _) => x
  | JStr (String c _) => JStr (String c EmptyString)
  | JObj properties =>
      match ownProperty properties "0" with Some x => x | None => JUndefined end
  | _ => JUndefined
  end.

(** [v[key]], which throws on [null] and [undefined]. *)
Definition property (v : JSValue) (key : string) : Completion JSValue :=
  match v with
  | JNull => Throw (ErrorObject "TypeError" (cannot_read_message "null" key))
  | JUndefined =>
      Throw (ErrorObject "TypeError" (cannot_read_message "undefined" key))
  | _ => Normal (member v key)
  end.

Definition TypeError_null_to_object : Exn :=
  ErrorObject "TypeError" null_to_object_message.

(** [Object.keys(v).length === 0]: a number or a boolean has no key, a
    string has its indices, an array its elements; [null] and [undefined]
    make [Object.keys] throw. *)
Definition hasNoKeys (v : JSValue) : Completion bool :=
  match v with
  | JUndefined | JNull => Throw TypeError_null_to_object
  | JBool _ | JNum _ => Normal true
  | JStr s => Normal (String.eqb s "")
  | JArr elements => Normal (List.length elements =? 0)%nat
  | JObj properties => Normal (List.length properties =? 0)%nat
  end.

(** [execute_prompt.ts], lines 14-126. *)
Definition executePrompt_async (input : ExecutePromptInput.t)
  : Prog ExecutionHistory.t :=
  let prompt_id := ExecutePromptInput.prompt_id input in
  let template_data := ExecutePromptInput.template_data input in
  tryCatch
    ((* Fetch the prompt *)
     prompts <- selectPrompts prompt_id ;;
     match prompts with
     | [] =>
         throw (Error ("Prompt with id " ++ Z_toString prompt_id ++ " not found"))
     | prompt :: _ =>
         if negb (Prompt.is_active prompt) then
           throw (Error ("Prompt with id " ++ Z_toString prompt_id
                         ++ " is not active"))
         else
           (* Render the prompt template *)
           renderedPrompt <-
             lift (renderTemplate (Prompt.prompt_text prompt) template_data) ;;
           (* Make OpenAI API call *)
           w <- getWorld ;;
           openaiResponse <-
             fetch (mkRequest "https://api.openai.com/v1/chat/completions"
                      [ ("Content-Type", "application/json");
                        ("Authorization",
                         "Bearer " ++ match OPENAI_API_KEY w with
                                      | Some key => key
                                      | None => "undefined"
                                      end) ]
                      (ChatCompletion (Prompt.model prompt) renderedPrompt
                         (parseFloat (Prompt.temperature prompt))
                         (Some (Prompt.max_tokens prompt))
                         (parseFloat (Prompt.top_p prompt))
                         (parseFloat (Prompt.frequency_penalty prompt))
                         (parseFloat (Prompt.presence_penalty prompt)))) ;;
           openaiResponseData <- lift (json openaiResponse) ;;
           (* Send to destination webhook *)
           tryCatch
             (webhookResponse <-
                fetch (mkRequest (Prompt.destination_webhook_url prompt)
                         [ ("Content-Type", "application/json") ]
                         (ManualDelivery prompt_id renderedPrompt
                            openaiResponseData template_data)) ;;
              assign (set_webhookResponseStatus (Some (status webhookResponse))) ;;
              responseText <- lift (text webhookResponse) ;;
              assign (set_webhookResponseBody (Some responseText)) ;;
              if negb (ok webhookResponse) then
                assign (set_executionStatus failed) ;;
                assign (set_errorMessage
                          (Some ("Webhook failed with status "
                                 ++ Z_toString (status webhookResponse))))
              else ret tt)
             (fun webhookError =>
                assign (set_executionStatus failed) ;;
                assign (set_errorMessage
                          (Some ("Webhook error: "
                                 ++ messageOr "Unknown error" webhookError)))) ;;
           (* Record execution history *)
           l <- getLocals ;;
           historyResult <-
             insertExecutionHistory
               (mkNew prompt_id cron template_data renderedPrompt
                      openaiResponseData
                      (webhookResponseStatus l) (webhookResponseBody l)
                      (executionStatus l) (errorMessage l)) ;;
           match historyResult with
           | result :: _ =>
               ret (ExecutionHistory.mk
                      (ExecutionHistory.id result)
                      (ExecutionHistory.prompt_id result)
                      (ExecutionHistory.trigger_type result)
                      (ExecutionHistory.input_data result)
                      (ExecutionHistory.rendered_prompt result)
                      (ExecutionHistory.openai_response result)
                      (ExecutionHistory.webhook_response_status result)
                      (ExecutionHistory.webhook_response_body result)
                      (ExecutionHistory.execution_status result)
                      (ExecutionHistory.error_message result)
                      (ExecutionHistory.created_at result))
           | [] => throw (ErrorObject "TypeError" (cannot_read_message "undefined" "id"))
           end
     end)
    (fun error => (* console.error, then *) throw error).

(** [webhook_execution.ts], lines 7-141. *)
Definition webhookExecution_async (input : WebhookExecutionInput.t)
  : Prog ExecutionHistory.t :=
  let prompt_id := WebhookExecutionInput.prompt_id input in
  let payload := WebhookExecutionInput.payload input in
  tryCatch
    ((* 1. Retrieve the prompt *)
     prompts <- selectPrompts prompt_id ;;
     match prompts with
     | [] =>
         throw (Error ("Prompt with ID " ++ Z_toString prompt_id ++ " not found"))
     | prompt :: _ =>
         if negb (Prompt.is_active prompt) then
           throw (Error ("Prompt with ID " ++ Z_toString prompt_id
                         ++ " is not active"))
         else
           (* 2. Render the prompt template with payload data *)
           renderedPrompt <-
             lift (renderPayload payload (Prompt.prompt_text prompt)) ;;
           tryCatch
             ((* 3. Call OpenAI API *)
              w <- getWorld ;;
              openaiResult <-
                fetch (mkRequest "https://api.openai.com/v1/chat/completions"
                         [ ("Content-Type", "application/json");
                           ("Authorization",
                            "Bearer " ++ match OPENAI_API_KEY w with
                                         | Some key => key
                                         | None => "undefined"
                                         end) ]
                         (ChatCompletion (Prompt.model prompt) renderedPrompt
                            (parseFloat (Prompt.temperature prompt))
                            match Prompt.max_tokens prompt with
                            | Some n => if Z.eqb n 0 then None else Some (Some n)
                            | None => None
                            end
                            (parseFloat (Prompt.top_p prompt))
                            (parseFloat (Prompt.frequency_penalty prompt))
                            (parseFloat (Prompt.presence_penalty prompt)))) ;;
              parsed <- lift (json openaiResult) ;;
              assign (set_openaiResponse parsed) ;;
              (if negb (ok openaiResult) then
                 error <- lift (property parsed "error") ;;
                 let message := member error "message" in
                 shown <- lift (JS_String (if truthy message then message
                                           else JStr "Unknown error")) ;;
                 throw (Error ("OpenAI API error: " ++ shown))
               else ret tt) ;;
              (* 4. Send result to destination webhook *)
              choices <- lift (property parsed "choices") ;;
              let content := member (member (first choices) "message") "content" in
              if truthy content then
                webhookResult <-
                  fetch (mkRequest (Prompt.destination_webhook_url prompt)
                           [ ("Content-Type", "application/json") ]
                           (WebhookDelivery prompt_id payload content None)) ;;
                assign (set_webhookResponseStatus (Some (status webhookResult))) ;;
                responseText <- lift (text webhookResult) ;;
                assign (set_webhookResponseBody (Some responseText)) ;;
                if negb (ok webhookResult) then
                  assign (set_executionStatus failed) ;;
                  assign (set_errorMessage
                            (Some ("Webhook delivery failed with status "
                                   ++ Z_toString (status webhookResult)
                                   ++ ": " ++ responseText)))
                else ret tt
              else
                assign (set_executionStatus failed) ;;
                assign (set_errorMessage
                          (Some "No content received from OpenAI API")))
             (fun error =>
                let message := messageOr "Unknown error occurred" error in
                assign (set_executionStatus failed) ;;
                assign (set_errorMessage (Some message)) ;;
                (* Set a default response if OpenAI call failed *)
                l <- getLocals ;;
                empty <- lift (hasNoKeys (openaiResponse l)) ;;
                if empty then
                  assign (set_openaiResponse (JObj [("error", JStr message)]))
                else ret tt) ;;
           (* 5. Record execution history *)
           l <- getLocals ;;
           executionResult <-
             insertExecutionHistory
               (mkNew prompt_id webhook (Some payload) renderedPrompt
                      (openaiResponse l)
                      (webhookResponseStatus l) (webhookResponseBody l)
                      (executionStatus l) (errorMessage l)) ;;
           match executionResult with
           | dbResult :: _ =>
               ret (ExecutionHistory.mk
                      (ExecutionHistory.id dbResult)
                      (ExecutionHistory.prompt_id dbResult)
                      (ExecutionHistory.trigger_type dbResult)
                      (ExecutionHistory.input_data dbResult)
                      (ExecutionHistory.rendered_prompt dbResult)
                      (ExecutionHistory.openai_response dbResult)
                      (ExecutionHistory.webhook_response_status dbResult)
                      (ExecutionHistory.webhook_response_body dbResult)
                      (ExecutionHistory.execution_status dbResult)
                      (ExecutionHistory.error_message dbResult)
                      (ExecutionHistory.created_at dbResult))
           | [] => throw (ErrorObject "TypeError" (cannot_read_message "undefined" "id"))
           end
     end)
    (fun error => (* console.error, then *) throw error).

(** One call of a handler in a world: the promise's settlement (resolved
    with a record, or rejected) and the world it leaves. *)
Definition run {A} (p : Prog A) (w : World) : Completion A * World :=
  let (r, s) := p (w, initialLocals) in (r, fst s).

Definition executePrompt (input : ExecutePromptInput.t) (w : World)
  : Completion ExecutionHistory.t * World :=
  run (executePrompt_async input) w.

Definition webhookExecution (input : WebhookExecutionInput.t) (w : World)
  : Completion ExecutionHistory.t * World :=
  run (webhookExecution_async input) w.

End Handlers.

(* ===================================================================== *)
(** ** Both entry points at once *)
(* ===================================================================== *)

Section EntryPoints.
Context {E : Engine} {D : Database}.

Inductive Invocation : Type :=
| Manual (input : ExecutePromptInput.t)
| Webhook (input : WebhookExecutionInput.t).

Definition invoke (i : Invocation) (w : World)
  : Completion ExecutionHistory.t * World :=
  match i with
  | Manual input => executePrompt input w
  | Webhook input => webhookExecution input w
  end.

Definition prompt_id_of (i : Invocation) : Z :=
  match i with
  | Manual input => ExecutePromptInput.prompt_id input
  | Webhook input => WebhookExecutionInput.prompt_id input
  end.

(** The rows the handlers' select returns for an identifier: those of the
    stored prompts that carry it, none when the server refuses it. *)
Definition selected (w : World) (id : Z) : list Prompt.t :=
  if int4 id
  then filter (fun p => Z.eqb (Prompt.id p) id) (promptsTable w)
  else [].

(** Step 2 of each handler. *)
Definition rendering (i : Invocation) (prompt : Prompt.t) : Completion string :=
  match i with
  | Manual input =>
      renderTemplate (Prompt.prompt_text prompt)
                     (ExecutePromptInput.template_data input)
  | Webhook input =>
      renderPayload (WebhookExecutionInput.payload input)
                    (Prompt.prompt_text prompt)
  end.

(** The completion call as it goes over the wire ([execute_prompt.ts]
    36-54, [webhook_execution.ts] 40-57): [executePrompt] sends
    [max_tokens] as stored, [null] included; [webhookExecution] leaves the
    key out when the stored value is [null] or 0. *)
Definition completionRequest (i : Invocation) (prompt : Prompt.t)
    (renderedPrompt : string) (w : World) : Request :=
  {| url := "https://api.openai.com/v1/chat/completions";
     headers :=
       [ ("Content-Type", "application/json");
         ("Authorization",
          "Bearer " ++ match OPENAI_API_KEY w with
                       | Some key => key
                       | None => "undefined"
                       end) ];
     body :=
       ChatCompletion (Prompt.model prompt) renderedPrompt
         (parseFloat (Prompt.temperature prompt))
         match i with
         | Manual _ => Some (Prompt.max_tokens prompt)
         | Webhook _ =>
             match Prompt.max_tokens prompt with
             | Some n => if Z.eqb n 0 then None else Some (Some n)
             | None => None
             end
         end
         (parseFloat (Prompt.top_p prompt))
         (parseFloat (Prompt.frequency_penalty prompt))
         (parseFloat (Prompt.presence_penalty prompt)) |}.

(** The generated text of a completion body,
    [choices?.[0]?.message?.content]. *)
Definition generatedContent (parsed : JSValue) : JSValue :=
  member (member (first (member parsed "choices")) "message") "content".

(** The delivery call as it goes over the wire after the completion body
    [parsed] ([execute_prompt.ts] 65-76, [webhook_execution.ts] 67-80). *)
Definition deliveryRequest (i : Invocation) (prompt : Prompt.t)
    (renderedPrompt : string) (parsed : JSValue) : Request :=
  {| url := Prompt.destination_webhook_url prompt;
     headers := [ ("Content-Type", "application/json") ];
     body :=
       match i with
       | Manual input =>
           ManualDelivery (ExecutePromptInput.prompt_id input) renderedPrompt
             parsed (ExecutePromptInput.template_data input)
       | Webhook input =>
           WebhookDelivery (WebhookExecutionInput.prompt_id input)
             (WebhookExecutionInput.payload input) (generatedContent parsed)
             None
       end |}.

(** The webhook handler delivers only a truthy generated text. *)
Definition deliverable (i : Invocation) (parsed : JSValue) : bool :=
  match i with
  | Manual _ => true
  | Webhook _ => truthy (generatedContent parsed)
  end.

(** The errors of the two early exits, and the message recorded when the
    destination answers with a status that is not [ok]. *)
Definition notFoundError (i : Invocation) : Exn :=
  Error ("Prompt with " ++ match i with Manual _ => "id" | Webhook _ => "ID" end
         ++ " " ++ Z_toString (prompt_id_of i) ++ " not found").

Definition notActiveError (i : Invocation) : Exn :=
  Error ("Prompt with " ++ match i with Manual _ => "id" | Webhook _ => "ID" end
         ++ " " ++ Z_toString (prompt_id_of i) ++ " is not active").

Definition deliveryFailureMessage (i : Invocation) (st : Z) (responseText : string)
  : string :=
  match i with
  | Manual _ => "Webhook failed with status " ++ Z_toString st
  | Webhook _ =>
      "Webhook delivery failed with status " ++ Z_toString st ++ ": "
      ++ responseText
  end.

End EntryPoints.

(* ===================================================================== *)
(** ** The repository handlers *)
(* ===================================================================== *)

(** [Prompt] of [server/src/schema.ts]: a stored prompt with its [numeric]
    columns converted to numbers. *)
Module ApiPrompt.
Record t {E : Engine} : Type := mk {
  id : Z;
  name : string;
  description : option string;
  prompt_text : string;
  model : string;
  temperature : number;
  max_tokens : option Z;
  top_p : number;
  frequency_penalty : number;
  presence_penalty : number;
  destination_webhook_url : string;
  cron_schedule : option string;
  is_active : bool;
  created_at : Z;
  updated_at : Z
}.
Arguments mk {E}.
End ApiPrompt.

Section Repository.
Context {E : Engine} {D : Database}.

Local Open Scope prog_scope.

(** [{ ...prompt, temperature: parseFloat(prompt.temperature), ... }] *)
Definition convertNumericFields (prompt : Prompt.t) : ApiPrompt.t :=
  ApiPrompt.mk (Prompt.id prompt) (Prompt.name prompt)
    (Prompt.description prompt) (Prompt.prompt_text prompt)
    (Prompt.model prompt)
    (parseFloat (Prompt.temperature prompt))
    (Prompt.max_tokens prompt)
    (parseFloat (Prompt.top_p prompt))
    (parseFloat (Prompt.frequency_penalty prompt))
    (parseFloat (Prompt.presence_penalty prompt))
    (Prompt.destination_webhook_url prompt) (Prompt.cron_schedule prompt)
    (Prompt.is_active prompt) (Prompt.created_at prompt)
    (Prompt.updated_at prompt).

(** [get_prompt.ts], lines 7-32. *)
Definition getPrompt_async (id : Z) : Prog (option ApiPrompt.t) :=
  tryCatch
    (results <- selectPrompts id ;;
     match results with
     | [] => ret None
     | prompt :: _ => ret (Some (convertNumericFields prompt))
     end)
    (fun error => (* console.error, then *) throw error).

(** [db.select().from(promptsTable).execute()] *)
Definition selectAllPrompts : Prog (list Prompt.t) := fun s =>
  (Normal (promptsTable (fst s)), s).

(** [get_prompts.ts], [getPrompts]. *)
Definition getPrompts_async : Prog (list ApiPrompt.t) :=
  tryCatch
    (results <- selectAllPrompts ;;
     ret (map convertNumericFields results))
    (fun error => throw error).

(** [db.delete(promptsTable).where(eq(promptsTable.id, id)).returning()]:
    the rows deleted.  [execution_history.prompt_id] references the prompt
    with [onDelete: 'cascade'], so the history rows of a deleted prompt go
    with it.  The server refuses a parameter outside the type of the
    column. *)
Definition deletePrompts (id : Z) : Prog (list Prompt.t) := fun s =>
  let w := fst s in
  let deleted := filter (fun p => Z.eqb (Prompt.id p) id) (promptsTable w) in
  let kept := filter (fun p => negb (Z.eqb (Prompt.id p) id)) (promptsTable w) in
  let history :=
    match deleted with
    | [] => executionHistoryTable w
    | _ :: _ =>
        filter (fun r => negb (Z.eqb (ExecutionHistory.prompt_id r) id))
               (executionHistoryTable w)
    end in
  if int4 id
  then (Normal deleted,
        (mkWorld kept history (nextval w) (now w) (OPENAI_API_KEY w)
                 (network w) (requests w),
         snd s))
  else (Throw (integer_out_of_range id), s).

(** [deletePrompt]: [{ success: result.length > 0 }]. *)
Definition deletePrompt_async (id : Z) : Prog bool :=
  tryCatch
    (result <- deletePrompts id ;;
     ret (0 <? List.length result)%nat)
    (fun error => throw error).

(** [.orderBy(desc(executionHistoryTable.created_at))]: newest first.  Rows
    of one timestamp come in the order the sort leaves them, which SQL does
    not fix; here a row goes after the rows that are not older. *)
Fixpoint insertByCreatedAtDesc (r : ExecutionHistory.t)
    (sorted : list ExecutionHistory.t) : list ExecutionHistory.t :=
  match sorted with
  | [] => [r]
  | x :: rest =>
      if (ExecutionHistory.created_at r <=? ExecutionHistory.created_at x)%Z
      then x :: insertByCreatedAtDesc r rest
      else r :: x :: rest
  end.

Fixpoint orderByCreatedAtDesc (rows : list ExecutionHistory.t)
  : list ExecutionHistory.t :=
  match rows with
  | [] => []
  | r :: rest => insertByCreatedAtDesc r (orderByCreatedAtDesc rest)
  end.

(** The two selects of [getExecutionHistory]; the server refuses a
    filter outside the type of the column. *)
Definition selectHistory (promptId : option Z)
  : Prog (list ExecutionHistory.t) := fun s =>
  match promptId with
  | Some id =>
      if int4 id
      then (Normal (orderByCreatedAtDesc
                      (filter (fun r => Z.eqb (ExecutionHistory.prompt_id r) id)
                              (executionHistoryTable (fst s)))), s)
      else (Throw (integer_out_of_range id), s)
  | None => (Normal (orderByCreatedAtDesc (executionHistoryTable (fst s))), s)
  end.

(** The filter of [getExecutionHistory] is one the server takes. *)
Definition filterInRange (promptId : option Z) : bool :=
  match promptId with
  | Some id => int4 id
  | None => true
  end.

(** [get_execution_history.ts], lines 7-31; the final [map] copies each
    record with its JSON columns cast. *)
Definition getExecutionHistory_async (promptId : option Z)
  : Prog (list ExecutionHistory.t) :=
  tryCatch
    (results <- selectHistory promptId ;;
     ret (map (fun record =>
                 ExecutionHistory.mk
                   (ExecutionHistory.id record)
                   (ExecutionHistory.prompt_id record)
                   (ExecutionHistory.trigger_type record)
                   (ExecutionHistory.input_data record)
                   (ExecutionHistory.rendered_prompt record)
                   (ExecutionHistory.openai_response record)
                   (ExecutionHistory.webhook_response_status record)
                   (ExecutionHistory.webhook_response_body record)
                   (ExecutionHistory.execution_status record)
                   (ExecutionHistory.error_message record)
                   (ExecutionHistory.created_at record))
              results))
    (fun error => throw error).

Definition getPrompt (id : Z) (w : World) : Completion (option ApiPrompt.t) * World :=
  run (getPrompt_async id) w.

Definition getPrompts (w : World) : Completion (list ApiPrompt.t) * World :=
  run getPrompts_async w.

Definition deletePrompt (id : Z) (w : World) : Completion bool * World :=
  run (deletePrompt_async id) w.

Definition getExecutionHistory (promptId : option Z) (w : World)
  : Completion (list ExecutionHistory.t) * World :=
  run (getExecutionHistory_async promptId) w.

(** Every history row belongs to a stored prompt: the foreign key of
    [execution_history.prompt_id]. *)
Definition foreignKeysHold (w : World) : Prop :=
  forall r, In r (executionHistoryTable w) ->
            exists p, In p (promptsTable w)
                      /\ Prompt.id p = ExecutionHistory.prompt_id r.

(** The serial [execution_history.id] is ahead of every stored row. *)
Definition serialIsFresh (w : World) : Prop :=
  forall r, In r (executionHistoryTable w) ->
            (ExecutionHistory.id r < nextval w)%Z.

(** Newest first. *)
Fixpoint newestFirst (rows : list ExecutionHistory.t) : Prop :=
  match rows with
  | [] => True
  | r :: rest =>
      (forall x, In x rest ->
                 (ExecutionHistory.created_at x <= ExecutionHistory.created_at r)%Z)
      /\ newestFirst rest
  end.

End Repository.

(* ===================================================================== *)
(** ** Conditions on mappings and templates *)
(* ===================================================================== *)

Section Conditions.
Context {E : Engine}.

(** [String(v)] does not throw. *)
Definition converts (v : JSValue) : bool :=
  match JS_String v with Normal _ => true | Throw _ => false end.

Definition allConvert (data : object) : bool :=
  forallb (fun kv => converts (snd kv)) data.

(** A text without dollar sign: as a replacement string it stands for
    itself. *)
Definition noDollar (s : string) : bool :=
  allChars (fun c => negb (Ascii.eqb c "$")) s.

(** A key whose placeholder [new RegExp] reads as literal text: word
    characters, not all of them digits. *)
Definition plainKey (key : string) : bool :=
  isWord key && negb (allChars isDigit key).

(** The template holds no placeholder of an inherited member other than
    [key]. *)
Definition noInheritedBut (key template : string) : bool :=
  forallb (fun name => String.eqb name key || negb (mentions template name))
          (Object_prototype_functions ++ ["__proto__"]).

Definition plainKeys (payload : object) : bool :=
  forallb (fun kv => plainKey (fst kv)) payload.

(** Every entry of the payload has a plain key that the template does not
    mention and a value that converts. *)
Definition unmentioned (payload : object) (template : string) : bool :=
  forallb (fun kv => plainKey (fst kv) && converts (snd kv)
                     && negb (mentions template (fst kv)))
          payload.

End Conditions.

(* ===================================================================== *)
(** ** Where the two entry points differ along a run *)
(* ===================================================================== *)

Section Paths.
Context {E : Engine} {D : Database}.

(** [executePrompt] never reads the status of the completion call;
    [webhookExecution] goes on only after an [ok] one. *)
Definition accepted (i : Invocation) (completion : Response) : bool :=
  match i with
  | Manual _ => true
  | Webhook _ => ok completion
  end.

(** The [trigger_type] and [input_data] each handler inserts. *)
Definition triggerOf (i : Invocation) : triggerTypeEnum :=
  match i with
  | Manual _ => cron
  | Webhook _ => webhook
  end.

Definition inputOf (i : Invocation) : option object :=
  match i with
  | Manual input => ExecutePromptInput.template_data input
  | Webhook input => Some (WebhookExecutionInput.payload input)
  end.

(** The message each handler records for an error caught around the
    delivery. *)
Definition caughtDeliveryMessage (i : Invocation) (error : Exn) : string :=
  match i with
  | Manual _ => "Webhook error: " ++ messageOr "Unknown error" error
  | Webhook _ => messageOr "Unknown error occurred" error
  end.

(** The message [webhookExecution] records for a completion call that is
    not [ok]: [OpenAI API error: ] and [error?.message || 'Unknown error']
    of the parsed body, or, when that has no string conversion, the message
    of the conversion's TypeError. *)
Definition apiErrorDetail (parsed : JSValue) : JSValue :=
  let message := member (member parsed "error") "message" in
  if truthy message then message else JStr "Unknown error".

Definition apiErrorMessage (parsed : JSValue) : string :=
  match JS_String (apiErrorDetail parsed) with
  | Normal shown => "OpenAI API error: " ++ shown
  | Throw e => messageOr "Unknown error occurred" e
  end.

(** The completion response the webhook handler stores after a caught
    error: the parsed body, or [{ error: message }] when it has no key. *)
Definition storedAfterError (parsed : JSValue) (empty : bool) (message : string)
  : JSValue :=
  if empty then JObj [("error", JStr message)] else parsed.

(** No text of the list holds U+0000. *)
Definition clean (texts : list string) : bool :=
  forallb (fun s => negb (hasNul s)) texts.

(** *** The run of a call, step by step

    Once the prompt is selected, found active and rendered, a call is the
    completion request, what the handler makes of the answer, at most one
    delivery request, and the insert.  The definitions below spell that run
    out as a function of the answers of the network; [invoke_settled]
    proves that the handlers compute it. *)

(** The world after the requests [issued] by a call. *)
Definition asked (w : World) (issued : list Request) : World :=
  mkWorld (promptsTable w) (executionHistoryTable w) (nextval w) (now w)
          (OPENAI_API_KEY w) (network w) (requests w ++ issued).

(** The last step of both handlers: the insert, and the row it returns. *)
Definition record (w : World) (v : NewExecutionHistory)
  : Completion ExecutionHistory.t * World :=
  match written w v with
  | Some row =>
      (Normal row,
       mkWorld (promptsTable w) (executionHistoryTable w ++ [row])
               (nextval w + 1)%Z (now w) (OPENAI_API_KEY w) (network w)
               (requests w))
  | None => (Throw (insert_refused (nextval w) v), afterRefusal w v)
  end.

(** What the handlers keep of a delivery for the record. *)
Record Delivery : Type := mkDelivery {
  receivedStatus : option Z;
  receivedBody : option string;
  outcome : executionStatusEnum;
  message : option string
}.

Definition notDelivered (error : string) : Delivery :=
  mkDelivery None None failed (Some error).

(** The delivery block of each handler, from the answer to the delivery
    request: a rejected request, a body that cannot be read, a status that
    is not [ok], or a success. *)
Definition afterDelivery (i : Invocation) (answer : Completion Response)
  : Delivery :=
  match answer with
  | Throw e => notDelivered (caughtDeliveryMessage i e)
  | Normal delivery =>
      match text delivery with
      | Throw e =>
          mkDelivery (Some (status delivery)) None failed
                     (Some (caughtDeliveryMessage i e))
      | Normal responseText =>
          if ok delivery
          then mkDelivery (Some (status delivery)) (Some responseText)
                          success None
          else mkDelivery (Some (status delivery)) (Some responseText) failed
                          (Some (deliveryFailureMessage i (status delivery)
                                                        responseText))
      end
  end.

(** The columns a handler inserts. *)
Definition rowOf (i : Invocation) (renderedPrompt : string)
    (response : JSValue) (d : Delivery) : NewExecutionHistory :=
  mkNew (prompt_id_of i) (triggerOf i) (inputOf i) renderedPrompt response
        (receivedStatus d) (receivedBody d) (outcome d) (message d).

(** The run of [executePrompt] after the rendering: a completion call
    that is rejected or does not parse rejects the call; any body that
    parses is delivered and recorded. *)
Definition settledManual (i : Invocation) (w : World) (prompt : Prompt.t)
    (renderedPrompt : string) : Completion ExecutionHistory.t * World :=
  let rq := completionRequest i prompt renderedPrompt w in
  match network w (List.length (requests w)) rq with
  | Throw e => (Throw e, asked w [rq])
  | Normal completion =>
      match json completion with
      | Throw e => (Throw e, asked w [rq])
      | Normal parsed =>
          let rq' := deliveryRequest i prompt renderedPrompt parsed in
          record (asked w [rq; rq'])
                 (rowOf i renderedPrompt parsed
                    (afterDelivery i
                       (network w (List.length (requests w) + 1) rq')))
      end
  end.

(** The run of [webhookExecution] after the rendering: a failure of the
    completion call is recorded, with [{ error: message }] for the body
    when there is none; a body that is [null] makes the handler throw in
    its own [catch]; a status that is not [ok], or a body without generated
    text, is recorded without a delivery. *)
Definition settledWebhook (i : Invocation) (w : World) (prompt : Prompt.t)
    (renderedPrompt : string) : Completion ExecutionHistory.t * World :=
  let rq := completionRequest i prompt renderedPrompt w in
  let uncompleted (e : Exn) :=
    let error := messageOr "Unknown error occurred" e in
    record (asked w [rq])
           (rowOf i renderedPrompt (JObj [("error", JStr error)])
                  (notDelivered error)) in
  match network w (List.length (requests w)) rq with
  | Throw e => uncompleted e
  | Normal completion =>
      match json completion with
      | Throw e => uncompleted e
      | Normal parsed =>
          match hasNoKeys parsed with
          | Throw e => (Throw e, asked w [rq])
          | Normal empty =>
              if negb (ok completion) then
                record (asked w [rq])
                       (rowOf i renderedPrompt
                          (storedAfterError parsed empty (apiErrorMessage parsed))
                          (notDelivered (apiErrorMessage parsed)))
              else if truthy (generatedContent parsed) then
                let rq' := deliveryRequest i prompt renderedPrompt parsed in
                record (asked w [rq; rq'])
                       (rowOf i renderedPrompt parsed
                          (afterDelivery i
                             (network w (List.length (requests w) + 1) rq')))
              else
                record (asked w [rq])
                       (rowOf i renderedPrompt parsed
                          (notDelivered "No content received from OpenAI API"))
          end
      end
  end.

Definition settled (i : Invocation) (w : World) (prompt : Prompt.t)
    (renderedPrompt : string) : Completion ExecutionHistory.t * World :=
  match i with
  | Manual _ => settledManual i w prompt renderedPrompt
  | Webhook _ => settledWebhook i w prompt renderedPrompt
  end.

(** How a call of an entry point comes to reject. *)
Inductive Rejection (i : Invocation) (w : World) : Exn -> World -> Prop :=
| QueryRefused :
    int4 (prompt_id_of i) = false ->
    Rejection i w (integer_out_of_range (prompt_id_of i)) w
| NotFound :
    int4 (prompt_id_of i) = true ->
    selected w (prompt_id_of i) = [] ->
    Rejection i w (notFoundError i) w
| NotActive prompt others :
    selected w (prompt_id_of i) = prompt :: others ->
    Prompt.is_active prompt = false ->
    Rejection i w (notActiveError i) w
| RenderingThrows prompt others e :
    selected w (prompt_id_of i) = prompt :: others ->
    Prompt.is_active prompt = true ->
    rendering i prompt = Throw e ->
    Rejection i w e w
| CompletionFails input prompt others renderedPrompt e :
    i = Manual input ->
    selected w (prompt_id_of i) = prompt :: others ->
    Prompt.is_active prompt = true ->
    rendering i prompt = Normal renderedPrompt ->
    (network w (List.length (requests w))
             (completionRequest i prompt renderedPrompt w) = Throw e
     \/ exists completion,
          network w (List.length (requests w))
                  (completionRequest i prompt renderedPrompt w)
          = Normal completion
          /\ json completion = Throw e) ->
    Rejection i w e (asked w [completionRequest i prompt renderedPrompt w])
| BodyWithoutKeys input prompt others renderedPrompt completion parsed :
    i = Webhook input ->
    selected w (prompt_id_of i) = prompt :: others ->
    Prompt.is_active prompt = true ->
    rendering i prompt = Normal renderedPrompt ->
    network w (List.length (requests w))
            (completionRequest i prompt renderedPrompt w) = Normal completion ->
    json completion = Normal parsed ->
    parsed = JNull \/ parsed = JUndefined ->
    Rejection i w TypeError_null_to_object
              (asked w [completionRequest i prompt renderedPrompt w])
| InsertRefused prompt others renderedPrompt response delivery issued :
    selected w (prompt_id_of i) = prompt :: others ->
    Prompt.is_active prompt = true ->
    rendering i prompt = Normal renderedPrompt ->
    written w (rowOf i renderedPrompt response delivery) = None ->
    (List.length issued <= 1)%nat ->
    Rejection i w
      (insert_refused (nextval w) (rowOf i renderedPrompt response delivery))
      (afterRefusal
         (asked w (completionRequest i prompt renderedPrompt w :: issued))
         (rowOf i renderedPrompt response delivery)).

End Paths.

(* ===================================================================== *)
(** ** Templates piece by piece *)
(* ===================================================================== *)





Section Filling.
Context {E : Engine}.





End Filling.


(* ===================================================================== *)
(** ** A reference engine for the closed examples *)
(* ===================================================================== *)

(** A number is carried as a decimal text that denotes it: [parseFloat]
    keeps the text of a [numeric] column, and [Number_toString] prints the
    text, which is exact for a number given in the form [String] prints
    ("3", "0.7").  Function objects print as V8 prints them.  Regular
    expressions outside the placeholder class are refused.  The examples
    below convert no parsed number and build no such expression. *)
Module ReferenceEngine.

#[export] Instance engine : Engine := {|
  number := string;
  Number_toString := fun n => n;
  Number_truthy := fun n => negb (String.eqb n "0" || String.eqb n "NaN");
  parseFloat := fun text => text;
  Function_toString := fun member =>
    "function "
    ++ (if String.eqb member "constructor" then "Object" else member)
    ++ "() { [native code] }";
  cannot_convert_message := "Cannot convert object to primitive value";
  cannot_read_message := fun value key =>
    "Cannot read properties of " ++ value ++ " (reading '" ++ key ++ "')";
  null_to_object_message := "Cannot convert undefined or null to object";
  RegExp_new := fun source =>
    Throw (ErrorObject "SyntaxError" ("Invalid regular expression: " ++ source))
|}.

End ReferenceEngine.

(* ===================================================================== *)
(** ** A reference database for the closed examples *)
(* ===================================================================== *)

(** The [jsonb] normal form of a value written through [JSON.stringify]
    and read back through [JSON.parse]: keys whose value is [undefined] are
    left out and [undefined] in an array is [null]; a number that is not
    finite is [null]; a string or key that holds U+0000 is refused; the keys
    of an object come shortest first and bytewise among equal lengths, and
    the object read back enumerates its array indices first.  A top-level
    [null] or [undefined] is SQL [NULL], which the [NOT NULL] column
    [openai_response] refuses. *)
Module ReferenceDatabase.
Import ReferenceEngine.

Definition isArrayIndex (key : string) : bool :=
  match key with
  | EmptyString => false
  | String c _ =>
      allChars isDigit key
      && (String.eqb key "0" || negb (Ascii.eqb c "0"))
      && ((String.length key <? 10)%nat
          || ((String.length key =? 10)%nat && String.leb key "4294967294"))
  end.

Definition keyBefore (a b : string) : bool :=
  (String.length a <? String.length b)%nat
  || ((String.length a =? String.length b)%nat && String.leb a b).

Fixpoint insertKey (entry : string * JSValue) (sorted : list (string * JSValue))
  : list (string * JSValue) :=
  match sorted with
  | [] => [entry]
  | x :: more =>
      if keyBefore (fst x) (fst entry)
      then x :: insertKey entry more
      else entry :: sorted
  end.

Definition keyOrder (entries : list (string * JSValue))
  : list (string * JSValue) :=
  let sorted := fold_right insertKey [] entries in
  (filter (fun kv => isArrayIndex (fst kv)) sorted
   ++ filter (fun kv => negb (isArrayIndex (fst kv))) sorted)%list.

Definition finite (n : string) : bool :=
  negb (String.eqb n "NaN" || String.eqb n "Infinity"
        || String.eqb n "-Infinity").

Fixpoint normalForm (v : JSValue) : option JSValue :=
  match v with
  | JUndefined => None
  | JNull => Some JNull
  | JBool b => Some (JBool b)
  | JNum n => Some (if finite n then JNum n else JNull)
  | JStr s => if hasNul s then None else Some (JStr s)
  | JArr elements =>
      match
        (fix each (xs : list JSValue) : option (list JSValue) :=
           match xs with
           | [] => Some []
           | x :: more =>
               match match x with
                     | JUndefined => Some JNull
                     | _ => normalForm x
                     end, each more with
               | Some a, Some b => Some (a :: b)
               | _, _ => None
               end
           end) elements
      with
      | Some stored => Some (JArr stored)
      | None => None
      end
  | JObj properties =>
      match
        (fix each (ps : list (string * JSValue))
           : option (list (string * JSValue)) :=
           match ps with
           | [] => Some []
           | (key, x) :: more =>
               match x with
               | JUndefined => each more
               | _ =>
                   if hasNul key then None
                   else match normalForm x, each more with
                        | Some a, Some b => Some ((key, a) :: b)
                        | _, _ => None
                        end
               end
           end) properties
      with
      | Some stored => Some (JObj (keyOrder stored))
      | None => None
      end
  end.

Definition quoted (s : string) : string :=
  String (Ascii.ascii_of_nat 34) (s ++ String (Ascii.ascii_of_nat 34) "").

#[export] Instance database : Database := {|
  jsonb := fun v =>
    match v with
    | JUndefined | JNull => None
    | _ => normalForm v
    end;
  integer_out_of_range := fun id =>
    ErrorObject "error"
      ("value " ++ quoted (Z_toString id) ++ " is out of range for type integer");
  insert_refused := fun _ _ =>
    ErrorObject "error" "the server refused the row";
  refusal_draws := fun next v =>
    int4 next
    && match new_openai_response v with
       | JUndefined | JNull => true
       | _ => false
       end
|}.

End ReferenceDatabase.

(* ===================================================================== *)
(** ** Worlds for the closed examples *)
(* ===================================================================== *)

(** The fixtures of [server/src/tests]: one stored prompt, a mocked [fetch]
    that answers by call count. *)
Module Examples.
Import ReferenceEngine ReferenceDatabase.

Definition promptWith (template : string) (active : bool) : Prompt.t :=
  Prompt.mk 1 "Test Prompt" (Some "A test prompt") template "gpt-3.5-turbo"
            "0.70" (Some 100%Z) "1.00" "0.00" "0.00"
            "https://example.com/webhook" (Some "0 9 * * *") active 0 0.

Definition testPrompt : Prompt.t :=
  promptWith "Hello {{name}}, how are you?" true.

(** [{ choices: [{ message: { content } }] }] *)
Definition generated (content : string) : object :=
  [("choices", JArr [JObj [("message", JObj [("content", JStr content)])]])].

(** [new Response(JSON.stringify(parsed), { status })] *)
Definition jsonResponse (st : Z) (parsed : object) : Response :=
  mkResponse st (Normal (JObj parsed)) (Normal "<serialized JSON>").

(** [new Response(text, { status })], the text being no JSON. *)
Definition textResponse (st : Z) (responseText : string) : Response :=
  mkResponse st
    (Throw (ErrorObject "SyntaxError" "Unexpected token in JSON"))
    (Normal responseText).

Definition mockFetch (answers : list (Completion Response))
  : nat -> Request -> Completion Response :=
  fun n _ => nth n answers (Throw (ErrorObject "Error" "Unexpected fetch call")).

Definition worldOf (prompt : Prompt.t) (answers : list (Completion Response))
  : World :=
  mkWorld [prompt] [] 1 1000 (Some "sk-test") (mockFetch answers) [].

Definition completed : Completion Response :=
  Normal (jsonResponse 200 (generated "Hello John, I am doing well!")).

Definition john : object := [("name", JStr "John")].

Definition manualJohn : Invocation :=
  Manual (ExecutePromptInput.mk 1 (Some john)).

Definition webhookJohn : Invocation :=
  Webhook (WebhookExecutionInput.mk 1 john).

(** The completion call is refused with 401; the destination answers 200. *)
Definition unauthorized : Response :=
  jsonResponse 401 [("error", JObj [("message", JStr "Invalid API key")])].

Definition world401 : World :=
  worldOf testPrompt [Normal unauthorized; Normal (textResponse 200 "OK")].

(** The completion call cannot be made, or answers with a body that is
    not JSON. *)
Definition fetchFailed : Exn := ErrorObject "TypeError" "fetch failed".

Definition worldOffline : World :=
  worldOf testPrompt [Throw fetchFailed; Normal (textResponse 200 "OK")].

Definition worldMalformed : World :=
  worldOf testPrompt
    [Normal (textResponse 502 "<html>Bad Gateway</html>");
     Normal (textResponse 200 "OK")].

(** Both calls succeed, or the destination answers 500. *)
Definition worldDelivered (prompt : Prompt.t) : World :=
  worldOf prompt [completed; Normal (textResponse 200 "OK")].

Definition worldDelivery500 : World :=
  worldOf testPrompt [completed; Normal (textResponse 500 "Internal Server Error")].

(** A value that holds a placeholder of another key. *)
Definition nested : object := [("a", JStr "{{b}}"); ("b", JStr "X")].

(** A key whose value is [undefined]. *)
Definition undefinedValue : object := [("a", JUndefined)].

End Examples.

(** Further worlds: a completion without generated text, a destination
    that cannot be reached or whose body cannot be read, and a database that
    already holds two prompts and their executions. *)
Module Scenarios.
Import ReferenceEngine ReferenceDatabase Examples.

Definition worldNoContent : World :=
  worldOf testPrompt [Normal (jsonResponse 200 [("choices", JArr [])])].

Definition worldUnreachable : World :=
  worldOf testPrompt [completed; Throw fetchFailed].

Definition bodyLost : Exn := ErrorObject "TypeError" "terminated".

Definition unreadable : Response :=
  mkResponse 200 (Throw bodyLost) (Throw bodyLost).

Definition worldUnreadable : World :=
  worldOf testPrompt [completed; Normal unreadable].

Definition worldDelivery204 : World :=
  worldOf testPrompt [completed; Normal (textResponse 204 "")].

Definition secondPrompt : Prompt.t :=
  Prompt.mk 2 "Second Prompt" None "Summarize {{text}}" "gpt-4"
            "1.00" None "1.00" "0.00" "0.00"
            "https://example.com/second" None true 5 5.

Definition earlier (id prompt_id created_at : Z) : ExecutionHistory.t :=
  ExecutionHistory.mk id prompt_id cron (Some (JObj john))
    "Hello John, how are you?"
    (JObj (generated "Hello John, I am doing well!")) (Some 200%Z) (Some "OK")
    success None created_at.

Definition worldStored : World :=
  mkWorld [testPrompt; secondPrompt]
          [earlier 1 1 10; earlier 2 2 20; earlier 3 1 30]
          4 1000 (Some "sk-test")
          (mockFetch [completed; Normal (textResponse 200 "OK")]) [].

(** A value without string conversion, under a key the template does not
    mention. *)
Definition shadowed : object :=
  [("name", JStr "John"); ("meta", JObj [("toString", JStr "shadow")])].

(** The first integer above the type of the identifier columns, which
    [z.number()] admits. *)
Definition aboveInteger : Z := 2147483648.

(** A destination whose answer holds U+0000, which no [text] column
    takes. *)
Definition withNul : string := String Ascii.zero "".

Definition worldDelivery500Nul : World :=
  worldOf testPrompt [completed; Normal (textResponse 500 withNul)].


(** The same character in the input mapping, and in the generated text. *)
Definition manualNul : Invocation :=
  Manual (ExecutePromptInput.mk 1 (Some [("name", JStr withNul)])).

Definition worldGeneratedNul (st : Z) : World :=
  worldOf testPrompt
    [Normal (jsonResponse 200 (generated withNul));
     Normal (textResponse st "OK")].

(** A serial that has no value left. *)
Definition serialSpent (w : World) : World :=
  mkWorld (promptsTable w) (executionHistoryTable w) aboveInteger (now w)
          (OPENAI_API_KEY w) (network w) (requests w).

(** A completion call that answers with the JSON text [null]. *)
Definition nullBody : Response :=
  mkResponse 200 (Normal JNull) (Normal "null").

Definition worldNullBody : World :=
  worldOf testPrompt [Normal nullBody; Normal (textResponse 200 "OK")].

End Scenarios.

(* ===================================================================== *)
(** * Properties *)
(* ===================================================================== *)

Unset Implicit Arguments.

(** ** Strings *)

Lemma append_nil_r (s : string) : s ++ "" = s.
Proof. induction s as [|c s IH]; simpl; [reflexivity | now rewrite IH]. Qed.

Lemma append_assoc (a b c : string) : (a ++ b) ++ c = a ++ (b ++ c).
Proof. induction a as [|x a IH]; simpl; [reflexivity | now rewrite IH]. Qed.

Lemma length_append (a b : string) :
  String.length (a ++ b) = (String.length a + String.length b)%nat.
Proof. induction a as [|x a IH]; simpl; [reflexivity | now rewrite IH]. Qed.

(** ** Completions *)

Lemma cbind_Normal_r {A} (c : Completion A) : cbind c Normal = c.
Proof. now destruct c. Qed.

(** ** The scan of a global replace *)

Module ReplaceFacts.
Import Replace.

(** More fuel than the subject has characters is always enough. *)
Lemma replaceLoop_fuel rx f :
  forall fuel fuel' before s,
    (String.length s < fuel)%nat -> (String.length s < fuel')%nat ->
    replaceLoop fuel rx f before s = replaceLoop fuel' rx f before s.
Proof.
  induction fuel as [|fuel IH]; intros fuel' before s H H'; [lia|].
  destruct fuel' as [|fuel']; [lia|].
  cbn [replaceLoop].
  destruct (rx s) as [m|].
  - destruct (Nat.ltb_spec (String.length (rest m)) (String.length s)).
    + now rewrite (IH fuel' (before ++ matched m) (rest m)) by lia.
    + destruct s as [|c s]; [reflexivity|]. simpl in H, H'.
      now rewrite (IH fuel' (before ++ String c "") s) by lia.
  - destruct s as [|c s]; [reflexivity|]. simpl in H, H'.
    now rewrite (IH fuel' (before ++ String c "") s) by lia.
Qed.

Lemma replaceFrom_empty rx f before :
  rx "" = None -> replaceFrom rx f before "" = Normal "".
Proof. intros H. unfold replaceFrom. cbn [replaceLoop]. now rewrite H. Qed.

Lemma replaceFrom_skip rx f before c s :
  rx (String c s) = None ->
  replaceFrom rx f before (String c s) =
  cbind (replaceFrom rx f (before ++ String c "") s)
        (fun out => Normal (String c out)).
Proof.
  intros H. unfold replaceFrom. cbn [replaceLoop]. rewrite H. reflexivity.
Qed.

Lemma replaceFrom_match rx f before c s m :
  rx (String c s) = Some m ->
  (String.length (rest m) < String.length (String c s))%nat ->
  replaceFrom rx f before (String c s) =
  cbind (f m before) (fun r =>
  cbind (replaceFrom rx f (before ++ matched m) (rest m))
        (fun out => Normal (r ++ out))).
Proof.
  intros H Hlt. unfold replaceFrom. cbn [replaceLoop]. rewrite H.
  destruct (Nat.ltb_spec (String.length (rest m)) (String.length (String c s)));
    [|lia].
  now rewrite (replaceLoop_fuel rx f (String.length (String c s))
                 (S (String.length (rest m)))) by lia.
Qed.

End ReplaceFacts.

(** ** The placeholder expression *)

Lemma stripPrefix_append (p s : string) : stripPrefix p (p ++ s) = Some s.
Proof.
  induction p as [|a p IH]; simpl; [reflexivity|].
  now rewrite Ascii.eqb_refl.
Qed.

Lemma stripPrefix_Some (p s r : string) :
  stripPrefix p s = Some r -> s = p ++ r.
Proof.
  revert s; induction p as [|a p IH]; simpl; intros s H.
  - now inversion H.
  - destruct s as [|b s]; [discriminate|].
    destruct (Ascii.eqb_spec a b) as [->|]; [|discriminate].
    now rewrite (IH _ H).
Qed.

Lemma takeWord_split (s : string) : fst (takeWord s) ++ snd (takeWord s) = s.
Proof.
  induction s as [|c s IH]; simpl; [reflexivity|].
  destruct (isWordChar c); [|reflexivity].
  destruct (takeWord s) as [w r]; simpl in *. now rewrite IH.
Qed.

Lemma takeWord_allWord (s : string) :
  allChars isWordChar (fst (takeWord s)) = true.
Proof.
  induction s as [|c s IH]; simpl; [reflexivity|].
  destruct (isWordChar c) eqn:Hc; [|reflexivity].
  destruct (takeWord s) as [w r]; simpl in *. now rewrite Hc.
Qed.

(** The greedy run stops at the first character that is not a word
    character, whatever follows it. *)
Lemma takeWord_append (s : string) (c : ascii) (x : string) :
  isWordChar c = false ->
  takeWord (s ++ String c x)
  = (fst (takeWord s), snd (takeWord s) ++ String c x).
Proof.
  intros Hc. induction s as [|d s IH]; simpl.
  - now rewrite Hc.
  - destruct (isWordChar d); [|reflexivity].
    rewrite IH. now destruct (takeWord s).
Qed.

Lemma takeWord_key (k : string) (c : ascii) (x : string) :
  allChars isWordChar k = true -> isWordChar c = false ->
  takeWord (k ++ String c x) = (k, String c x).
Proof.
  intros Hk Hc. induction k as [|d k IH]; simpl in *.
  - now rewrite Hc.
  - apply andb_prop in Hk as [Hd Hk]. rewrite Hd, (IH Hk). reflexivity.
Qed.

Lemma isWord_nonempty (k : string) : isWord k = true -> String.eqb k "" = false.
Proof.
  unfold isWord. intros H. apply andb_prop in H as [_ H].
  now apply negb_true_iff in H.
Qed.

Lemma isWord_allWord (k : string) :
  isWord k = true -> allChars isWordChar k = true.
Proof. unfold isWord. intros H. now apply andb_prop in H as [H _]. Qed.

(** At the head of a placeholder the expression matches it, capturing the
    key. *)
Lemma placeholderRegExp_here (k post : string) :
  isWord k = true ->
  placeholderRegExp (placeholder k ++ post)
  = Some (Replace.mkMatch (placeholder k) [k] post).
Proof.
  intros Hk. unfold placeholderRegExp, placeholder.
  rewrite append_assoc, stripPrefix_append, append_assoc.
  change ("}}" ++ post) with (String "}" (String "}" post)).
  rewrite takeWord_key by (auto using isWord_allWord).
  change (String "}" (String "}" post)) with ("}}" ++ post).
  rewrite stripPrefix_append, (isWord_nonempty k Hk). reflexivity.
Qed.

(** A match is a placeholder standing at the head of the input. *)
Lemma placeholderRegExp_sound (s : string) (m : Replace.Match) :
  placeholderRegExp s = Some m ->
  exists k, isWord k = true
            /\ m = Replace.mkMatch (placeholder k) [k] (Replace.rest m)
            /\ s = placeholder k ++ Replace.rest m.
Proof.
  unfold placeholderRegExp.
  destruct (stripPrefix "{{" s) as [s1|] eqn:H1; [|discriminate].
  pose proof (takeWord_split s1) as Hsplit.
  pose proof (takeWord_allWord s1) as Hword.
  destruct (takeWord s1) as [k r]; simpl in Hsplit, Hword.
  destruct (stripPrefix "}}" r) as [after|] eqn:H2; [|discriminate].
  destruct (String.eqb k "") eqn:Hne; [discriminate|].
  intros H. inversion H; subst m; clear H. simpl.
  exists k. split; [|split].
  - unfold isWord. now rewrite Hword, Hne.
  - reflexivity.
  - apply stripPrefix_Some in H1. apply stripPrefix_Some in H2.
    subst s r. unfold placeholder. rewrite <- Hsplit.
    now rewrite !append_assoc.
Qed.

Lemma placeholderRegExp_consuming : Replace.consuming placeholderRegExp.
Proof.
  intros s m H. destruct (placeholderRegExp_sound _ _ H) as (k & _ & _ & ->).
  unfold placeholder. rewrite !length_append. simpl. lia.
Qed.

(** Text that opens a placeholder, put after [pre], changes no match that
    starts inside [pre]: it only lengthens what remains after the match. *)
Lemma placeholderRegExp_append (c : ascii) (pre x : string) :
  placeholderRegExp (String c pre ++ "{{" ++ x)
  = match placeholderRegExp (String c pre) with
    | Some m => Some (Replace.mkMatch (Replace.matched m) (Replace.captures m)
                                      (Replace.rest m ++ "{{" ++ x))
    | None => None
    end.
Proof.
  unfold placeholderRegExp.
  change (String c pre ++ "{{" ++ x) with (String c (pre ++ "{{" ++ x)).
  cbn [stripPrefix].
  destruct (Ascii.eqb "{" c); [|reflexivity].
  destruct pre as [|d pre]; cbn [append stripPrefix].
  - (* the input is one brace: the appended braces are no word *)
    rewrite Ascii.eqb_refl. reflexivity.
  - destruct (Ascii.eqb "{" d); [|reflexivity].
    change ("{{" ++ x) with (String "{" (String "{" x)).
    rewrite takeWord_append by reflexivity.
    destruct (takeWord pre) as [k r]; cbn [fst snd].
    destruct r as [|r0 r]; cbn [append stripPrefix].
    + reflexivity.
    + destruct (Ascii.eqb "}" r0); [|reflexivity].
      destruct r as [|r1 r]; cbn [append stripPrefix].
      * reflexivity.
      * destruct (Ascii.eqb "}" r1); [|reflexivity].
        now destruct (String.eqb k "").
Qed.

(** ** renderTemplate *)

Section RenderFacts.
Context {E : Engine}.
Import Replace ReplaceFacts.

Lemma renderCallback_placeholder data k after before :
  renderCallback data (mkMatch (placeholder k) [k] after) before
  = substitution data k.
Proof. reflexivity. Qed.

(** The callback does not look at the position of the match. *)
Lemma scan_before data (s : string) :
  forall b b',
    replaceFrom placeholderRegExp (renderCallback data) b s
    = replaceFrom placeholderRegExp (renderCallback data) b' s.
Proof.
  remember (String.length s) as n eqn:Hn. revert s Hn.
  induction n as [n IH] using lt_wf_ind. intros s Hn b b'.
  destruct s as [|c s].
  - now rewrite !replaceFrom_empty.
  - destruct (placeholderRegExp (String c s)) as [m|] eqn:Hm.
    + pose proof (placeholderRegExp_consuming _ _ Hm) as Hlt.
      rewrite !(replaceFrom_match _ _ _ _ _ _ Hm Hlt).
      unfold renderCallback at 1 3.
      rewrite (IH (String.length (rest m)) ltac:(lia) (rest m) eq_refl
                  (b ++ matched m) (b' ++ matched m)).
      reflexivity.
    + rewrite !(replaceFrom_skip _ _ _ _ _ Hm).
      simpl in Hn.
      now rewrite (IH (String.length s) ltac:(lia) s eq_refl
                      (b ++ String c "") (b' ++ String c "")).
Qed.

(** Text that opens a placeholder splits the scan: what stands before it
    is rendered on its own. *)
Lemma replace_append data (pre x : string) :
  replace (pre ++ "{{" ++ x) placeholderRegExp (renderCallback data)
  = cbind (replace pre placeholderRegExp (renderCallback data)) (fun a =>
    cbind (replace ("{{" ++ x) placeholderRegExp (renderCallback data)) (fun b =>
    Normal (a ++ b))).
Proof.
  unfold replace.
  remember (String.length pre) as n eqn:Hn. revert pre Hn.
  induction n as [n IH] using lt_wf_ind. intros pre Hn.
  destruct pre as [|c pre].
  - rewrite (replaceFrom_empty _ _ _ eq_refl). cbn [append cbind].
    now rewrite cbind_Normal_r.
  - pose proof (placeholderRegExp_append c pre x) as Happ.
    destruct (placeholderRegExp (String c pre)) as [m|] eqn:Hm.
    + pose proof (placeholderRegExp_consuming _ _ Hm) as Hlt.
      rewrite (replaceFrom_match _ _ _ _ _ _ Happ).
      2:{ cbn [rest]. simpl. rewrite !length_append. simpl in Hlt |- *. lia. }
      rewrite (replaceFrom_match _ _ _ _ _ _ Hm Hlt).
      cbn [rest matched].
      rewrite (scan_before data (rest m ++ "{{" ++ x) ("" ++ matched m) "").
      rewrite (IH (String.length (rest m)) ltac:(lia) (rest m) eq_refl).
      rewrite (scan_before data (rest m) ("" ++ matched m) "").
      unfold renderCallback at 1 4. cbn [captures matched].
      destruct (if isDefined _ then _ else _) as [r|e]; cbn [cbind]; [|reflexivity].
      destruct (replaceFrom _ _ "" (rest m)) as [a|e]; cbn [cbind]; [|reflexivity].
      destruct (replaceFrom _ _ "" ("{{" ++ x)) as [b|e]; cbn [cbind]; [|reflexivity].
      now rewrite append_assoc.
    + change (String c pre ++ "{{" ++ x) with (String c (pre ++ "{{" ++ x)) in *.
      rewrite (replaceFrom_skip _ _ _ _ _ Happ), (replaceFrom_skip _ _ _ _ _ Hm).
      rewrite (scan_before data (pre ++ "{{" ++ x) ("" ++ String c "") "").
      simpl in Hn.
      rewrite (IH (String.length pre) ltac:(lia) pre eq_refl).
      rewrite (scan_before data pre ("" ++ String c "") "").
      destruct (replaceFrom _ _ "" pre) as [a|e]; cbn [cbind]; [|reflexivity].
      destruct (replaceFrom _ _ "" ("{{" ++ x)) as [b|e]; cbn [cbind]; reflexivity.
Qed.

(** Every occurrence of a placeholder is rendered by the callback, and the
    text on either side of it is rendered independently. *)
Lemma renderTemplate_placeholder (data : option object) (pre k post : string) :
  isWord k = true ->
  renderTemplate (pre ++ placeholder k ++ post) data
  = (pre' <-? renderTemplate pre data ;;
     s <-? substitution (dataOf data) k ;;
     post' <-? renderTemplate post data ;;
     Normal (pre' ++ s ++ post'))%completion.
Proof.
  intros Hk. unfold renderTemplate.
  assert (Hopen : placeholder k ++ post = "{{" ++ (k ++ "}}" ++ post)).
  { unfold placeholder. now rewrite !append_assoc. }
  rewrite Hopen, replace_append, <- Hopen.
  destruct (replace pre _ _) as [pre'|e]; cbn [cbind]; [|reflexivity].
  unfold replace.
  pose proof (placeholderRegExp_here k post Hk) as Hm.
  destruct (placeholder k ++ post) as [|c s] eqn:Hs; [discriminate|].
  rewrite (replaceFrom_match _ _ _ _ _ _ Hm).
  2:{ cbn [rest]. rewrite <- Hs. unfold placeholder.
      rewrite !length_append. simpl. lia. }
  rewrite renderCallback_placeholder. cbn [rest matched].
  rewrite (scan_before (dataOf data) post ("" ++ placeholder k) "").
  destruct (substitution (dataOf data) k) as [r|e]; cbn [cbind]; [|reflexivity].
  destruct (replaceFrom _ _ "" post) as [out|e]; cbn [cbind]; reflexivity.
Qed.

(** A template none of whose placeholders names a defined property is
    returned as it is. *)
Lemma renderTemplate_verbatim (data : option object) (template : string) :
  (forall pre k post,
      isWord k = true -> template = pre ++ placeholder k ++ post ->
      isDefined (Get (dataOf data) k) = false) ->
  renderTemplate template data = Normal template.
Proof.
  intros H. unfold renderTemplate, replace.
  enough (G : forall n s done, String.length s = n -> template = done ++ s ->
                replaceFrom placeholderRegExp (renderCallback (dataOf data)) "" s
                = Normal s)
    by (apply (G _ template "" eq_refl eq_refl)).
  induction n as [n IH] using lt_wf_ind. intros s done Hn Ht.
  destruct s as [|c s].
  - now rewrite replaceFrom_empty.
  - destruct (placeholderRegExp (String c s)) as [m|] eqn:Hm.
    + pose proof (placeholderRegExp_consuming _ _ Hm) as Hlt.
      destruct (placeholderRegExp_sound _ _ Hm) as (k & Hk & Hmk & Hs).
      rewrite (replaceFrom_match _ _ _ _ _ _ Hm Hlt), Hmk, renderCallback_placeholder.
      cbn [rest matched]. unfold substitution.
      rewrite (H done k (rest m) Hk) by (now rewrite Ht, Hs).
      cbn [cbind]. rewrite (scan_before (dataOf data) (rest m) ("" ++ placeholder k) "").
      rewrite (IH (String.length (rest m)) ltac:(lia) (rest m)
                  (done ++ placeholder k) eq_refl).
      * cbn [cbind]. now rewrite Hs.
      * now rewrite Ht, Hs, append_assoc.
    + rewrite (replaceFrom_skip _ _ _ _ _ Hm).
      rewrite (scan_before (dataOf data) s ("" ++ String c "") "").
      simpl in Hn.
      rewrite (IH (String.length s) ltac:(lia) s (done ++ String c "") eq_refl).
      * reflexivity.
      * now rewrite Ht, append_assoc.
Qed.


Lemma substitution_own (data : object) (k : string) (v : JSValue) :
  ownProperty data k = Some v -> v <> JUndefined ->
  substitution data k = JS_String v.
Proof.
  intros Hown Hv. unfold substitution, Get. rewrite Hown. cbn [isDefined].
  destruct v; try reflexivity. now contradiction Hv.
Qed.

Lemma substitution_unknown (data : object) (k : string) :
  (ownProperty data k = None /\ inheritedName k = false)
  \/ ownProperty data k = Some JUndefined ->
  isDefined (Get data k) = false.
Proof.
  unfold Get, inheritedName. intros [[Hown Hinh]| Hown]; rewrite Hown.
  - apply orb_false_elim in Hinh as [H1 H2]. now rewrite H1, H2.
  - reflexivity.
Qed.

Lemma occurs_append (p pre post : string) : occurs p (pre ++ p ++ post) = true.
Proof.
  induction pre as [|c pre IH]; cbn [append].
  - destruct (p ++ post) eqn:Hs; cbn [occurs];
      rewrite <- Hs, stripPrefix_append; reflexivity.
  - cbn [occurs]. now destruct (stripPrefix p (String c (pre ++ p ++ post))).
Qed.

Lemma ownProperty_In (data : object) (k : string) (v : JSValue) :
  ownProperty data k = Some v -> In k (map fst data).
Proof.
  induction data as [|[k' v'] data IH]; cbn; [discriminate|].
  destruct (String.eqb_spec k' k) as [->|_]; [now left | right; auto].
Qed.

(** A word that reads as defined on the object is one of its resolvable
    names. *)
Lemma Get_defined_resolvable (data : object) (k : string) :
  isWord k = true -> isDefined (Get data k) = true -> In k (resolvable data).
Proof.
  intros Hk. unfold Get, resolvable.
  destruct (ownProperty data k) as [v|] eqn:Hown.
  - intros _. apply in_or_app. left. apply filter_In. split; [|exact Hk].
    eapply ownProperty_In; eassumption.
  - destruct (existsb _ _) eqn:Hfun.
    + intros _. apply existsb_exists in Hfun as (x & Hx & Heq).
      apply String.eqb_eq in Heq. subst x.
      apply in_or_app. right. apply in_or_app. now left.
    + destruct (String.eqb_spec k "__proto__") as [->|_]; [|discriminate].
      intros _. apply in_or_app. right. apply in_or_app. right. now left.
Qed.

Lemma unresolved_verbatim (data : option object) (template : string) :
  unresolved template (dataOf data) = true ->
  renderTemplate template data = Normal template.
Proof.
  intros H. apply renderTemplate_verbatim. intros pre k post Hk Ht.
  destruct (isDefined (Get (dataOf data) k)) eqn:Hdef; [|reflexivity].
  pose proof (Get_defined_resolvable _ _ Hk Hdef) as Hin.
  unfold unresolved in H. rewrite forallb_forall in H.
  specialize (H k Hin). unfold mentions in H.
  now rewrite Ht, occurs_append in H.
Qed.

(** C3 (as amended): for every template and every mapping (absent meaning
    empty), each occurrence of a placeholder [{{k}}], [k] made of word
    characters, whose name is a key of the mapping with a value other than
    [undefined] is replaced by [String] of that value, the text before and
    after it being rendered on its own; a placeholder whose name is no key
    of the mapping and no member inherited from [Object.prototype], or is a
    key whose value is [undefined], stays as it is; and a template that
    mentions no key of the mapping and no inherited member, in particular
    any such template under an empty or absent mapping, is returned
    unchanged. *)
Theorem renderTemplate_substitutes_defined_keys :
  (forall (data : option object) (pre k post : string) (v : JSValue),
      isWord k = true ->
      ownProperty (dataOf data) k = Some v -> v <> JUndefined ->
      renderTemplate (pre ++ placeholder k ++ post) data
      = substituted data pre v post)
  /\ (forall (data : option object) (pre k post : string),
      isWord k = true ->
      (ownProperty (dataOf data) k = None /\ inheritedName k = false)
      \/ ownProperty (dataOf data) k = Some JUndefined ->
      renderTemplate (pre ++ placeholder k ++ post) data
      = kept data pre k post)
  /\ (forall (data : option object) (template : string),
      unresolved template (dataOf data) = true ->
      renderTemplate template data = Normal template)
  /\ (forall template : string,
      unresolved template [] = true ->
      renderTemplate template None = Normal template
      /\ renderTemplate template (Some []) = Normal template).
Proof.
  repeat split.
  - intros data pre k post v Hk Hown Hv. unfold substituted.
    rewrite (renderTemplate_placeholder data pre k post Hk).
    now rewrite (substitution_own _ _ _ Hown Hv).
  - intros data pre k post Hk Hunknown. unfold kept.
    rewrite (renderTemplate_placeholder data pre k post Hk).
    unfold substitution. now rewrite (substitution_unknown _ _ Hunknown).
  - intros data template H. now apply unresolved_verbatim.
  - now apply unresolved_verbatim.
  - now apply unresolved_verbatim.
Qed.

(** The slip the amended statement leaves aside: a placeholder that names
    a member every object inherits is replaced although the mapping has no
    such key, here under an absent mapping. *)
Example renderTemplate_inherited_member :
  renderTemplate "{{__proto__}}" None = Normal "[object Object]"
  /\ renderTemplate "{{toString}}" (Some [])
     = Normal (Function_toString "toString").
Proof.
  split; vm_compute; [reflexivity | f_equal; apply append_nil_r].
Qed.

End RenderFacts.

(* ===================================================================== *)
(** ** More on the two renderings *)
(* ===================================================================== *)

Module ScanFacts.
Import Replace ReplaceFacts.

(** The scan depends on the replace value only through its results. *)
Lemma replaceLoop_ext rx f g :
  (forall m b, f m b = g m b) ->
  forall fuel b s, replaceLoop fuel rx f b s = replaceLoop fuel rx g b s.
Proof.
  intros Hfg. induction fuel as [|fuel IH]; intros b s; [reflexivity|].
  cbn [replaceLoop]. destruct (rx s) as [m|].
  - rewrite Hfg. destruct (_ <? _)%nat.
    + now rewrite IH.
    + destruct s as [|c s]; [reflexivity|]. now rewrite IH.
  - destruct s as [|c s]; [reflexivity|]. now rewrite IH.
Qed.

(** A replace value that does not look at the position of the match makes
    the scan independent of it. *)
Lemma replaceLoop_before rx f :
  (forall m b b', f m b = f m b') ->
  forall fuel b b' s, replaceLoop fuel rx f b s = replaceLoop fuel rx f b' s.
Proof.
  intros Hf. induction fuel as [|fuel IH]; intros b b' s; [reflexivity|].
  cbn [replaceLoop]. destruct (rx s) as [m|].
  - rewrite (Hf m b b'). destruct (_ <? _)%nat.
    + now rewrite (IH (b ++ matched m) (b' ++ matched m)).
    + destruct s as [|c s]; [reflexivity|].
      now rewrite (IH (b ++ String c "") (b' ++ String c "")).
  - destruct s as [|c s]; [reflexivity|].
    now rewrite (IH (b ++ String c "") (b' ++ String c "")).
Qed.

Lemma replaceFrom_ext rx f g b s :
  (forall m b, f m b = g m b) -> replaceFrom rx f b s = replaceFrom rx g b s.
Proof. intros H. unfold replaceFrom. now apply replaceLoop_ext. Qed.

Lemma replaceFrom_before rx f b b' s :
  (forall m b b', f m b = f m b') ->
  replaceFrom rx f b s = replaceFrom rx f b' s.
Proof. intros H. unfold replaceFrom. now apply replaceLoop_before. Qed.

(** A scan whose replace value never throws does not throw. *)
Lemma replaceLoop_total rx f :
  (forall m b, exists r, f m b = Normal r) ->
  forall fuel b s, exists out, replaceLoop fuel rx f b s = Normal out.
Proof.
  intros Hf. induction fuel as [|fuel IH]; intros b s; [cbn; eauto|].
  cbn [replaceLoop]. destruct (rx s) as [m|].
  - destruct (Hf m b) as [r ->]. cbn [cbind]. destruct (_ <? _)%nat.
    + destruct (IH (b ++ matched m) (rest m)) as [out ->]. cbn [cbind]. eauto.
    + destruct s as [|c s]; [eauto|].
      destruct (IH (b ++ String c "") s) as [out ->]. cbn [cbind]. eauto.
  - destruct s as [|c s]; [eauto|].
    destruct (IH (b ++ String c "") s) as [out ->]. cbn [cbind]. eauto.
Qed.

End ScanFacts.

Lemma GetSubstitution_noDollar (matched before after s : string) :
  noDollar s = true -> GetSubstitution matched before after s = s.
Proof.
  unfold noDollar. induction s as [|c s IH]; cbn [allChars GetSubstitution];
    [reflexivity|].
  intros H. apply andb_prop in H as [Hc Hs].
  apply negb_true_iff in Hc. rewrite Hc. now rewrite (IH Hs).
Qed.

Lemma plainKey_isWord (k : string) : plainKey k = true -> isWord k = true.
Proof. unfold plainKey. intros H. now apply andb_prop in H as [H _]. Qed.

(** [new RegExp] reads the placeholder of a plain key as literal text. *)
Lemma plainKey_pattern (k : string) :
  plainKey k = true -> isPlaceholderPattern (placeholder k) = true.
Proof.
  unfold plainKey. intros H. apply andb_prop in H as [Hw Hd].
  unfold isPlaceholderPattern, placeholder.
  rewrite stripPrefix_append.
  change ("}}") with (String "}" (String "}" "")).
  rewrite takeWord_key by (auto using isWord_allWord).
  now rewrite String.eqb_refl.
Qed.

Lemma placeholder_nonempty (k : string) : placeholder k <> "".
Proof. discriminate. Qed.

Lemma occurs_tail (p : string) (c : ascii) (s : string) :
  occurs p (String c s) = false ->
  stripPrefix p (String c s) = None /\ occurs p s = false.
Proof.
  cbn [occurs]. destruct (stripPrefix p (String c s)); [discriminate | auto].
Qed.

Section LiteralFacts.
Import Replace ReplaceFacts ScanFacts.

Lemma literalRegExp_None (p s : string) :
  stripPrefix p s = None -> literalRegExp p s = None.
Proof. unfold literalRegExp. now intros ->. Qed.


(** Where the pattern does not occur, the literal replace changes nothing. *)
Lemma literal_no_occurrence (k : string) (f : ReplaceValue) :
  forall s b,
    occurs (placeholder k) s = false ->
    replaceFrom (literalRegExp (placeholder k)) f b s = Normal s.
Proof.
  induction s as [|c s IH]; intros b H.
  - apply replaceFrom_empty. reflexivity.
  - apply occurs_tail in H as [Hhere Hlater].
    rewrite (replaceFrom_skip _ _ _ _ _ (literalRegExp_None _ _ Hhere)).
    now rewrite (IH _ Hlater).
Qed.

End LiteralFacts.

Section RenderMore.
Context {E : Engine}.
Import Replace ReplaceFacts ScanFacts.

Lemma replaceLiteral_unmentioned (k template replacement : string) :
  mentions template k = false ->
  replaceLiteral (placeholder k) template replacement = Normal template.
Proof.
  intros H. unfold replaceLiteral, replace. now apply literal_no_occurrence.
Qed.

(** X1: the webhook handler's rendering loop returns the template as it
    is when the template mentions none of the payload's keys, the keys
    being plain (word characters, not all digits) and the values
    convertible to strings. *)
Theorem renderPayload_unmentioned (payload : object) (template : string) :
  unmentioned payload template = true ->
  renderPayload payload template = Normal template.
Proof.
  unfold unmentioned. induction payload as [|[k v] payload IH];
    cbn [forallb renderPayload fst snd]; [reflexivity|].
  intros H. apply andb_prop in H as [Hkv Hrest].
  apply andb_prop in Hkv as [Hkv Hmention].
  apply andb_prop in Hkv as [Hkey Hconv].
  apply negb_true_iff in Hmention.
  unfold new_RegExp. rewrite (plainKey_pattern k Hkey). cbn [cbind].
  unfold converts in Hconv.
  destruct (JS_String v) as [s|e]; [|discriminate]. cbn [cbind].
  rewrite (replaceLiteral_unmentioned k template s Hmention). cbn [cbind].
  exact (IH Hrest).
Qed.

(** A word character is no brace. *)
Lemma wordChar_not_open (c : ascii) :
  isWordChar c = true -> Ascii.eqb "{" c = false.
Proof.
  intros H. destruct (Ascii.eqb_spec "{" c) as [<-|]; [|reflexivity].
  vm_compute in H. discriminate H.
Qed.

Lemma wordChar_not_close (c : ascii) :
  isWordChar c = true -> Ascii.eqb c "}" = false.
Proof.
  intros H. destruct (Ascii.eqb_spec c "}") as [->|]; [|reflexivity].
  vm_compute in H. discriminate H.
Qed.

(** Two words followed by closing braces: one is a prefix of the other only
    if they are equal. *)
Lemma word_prefix (k : string) :
  forall k' rest after,
    allChars isWordChar k = true -> allChars isWordChar k' = true ->
    stripPrefix (k ++ "}}") (k' ++ "}}" ++ rest) = Some after -> k = k'.
Proof.
  induction k as [|a k IH]; intros k' rest after Hk Hk' H.
  - destruct k' as [|a' k']; [reflexivity|].
    cbn [append stripPrefix allChars] in Hk', H. apply andb_prop in Hk' as [Ha' _].
    destruct (Ascii.eqb_spec "}" a') as [<-|]; [|discriminate H].
    vm_compute in Ha'. discriminate Ha'.
  - cbn [allChars] in Hk. apply andb_prop in Hk as [Ha Hk].
    destruct k' as [|a' k'].
    + cbn [append stripPrefix] in H. rewrite (wordChar_not_close a Ha) in H. discriminate H.
    + cbn [append stripPrefix allChars] in Hk', H. apply andb_prop in Hk' as [_ Hk'].
      destruct (Ascii.eqb_spec a a') as [->|]; [|discriminate H].
      f_equal. exact (IH k' rest after Hk Hk' H).
Qed.

(** The literal scan copies text that holds no opening brace. *)
Lemma literal_skip (k : string) (sv : string) (u : string) :
  forall rest b,
    allChars (fun c => negb (Ascii.eqb "{" c)) u = true ->
    replaceFrom (literalRegExp (placeholder k)) (fun _ _ => Normal sv) b (u ++ rest)
    = cbind (replaceFrom (literalRegExp (placeholder k)) (fun _ _ => Normal sv)
                         "" rest)
            (fun out => Normal (u ++ out)).
Proof.
  induction u as [|c u IH]; intros rest b H.
  - cbn [append]. rewrite cbind_Normal_r.
    now apply replaceFrom_before.
  - cbn [allChars] in H. apply andb_prop in H as [Hc Hu].
    apply negb_true_iff in Hc.
    cbn [append].
    rewrite replaceFrom_skip.
    2:{ unfold literalRegExp, placeholder. cbn [append stripPrefix].
        now rewrite Hc. }
    rewrite (IH rest _ Hu).
    now destruct (replaceFrom _ _ "" rest).
Qed.

Lemma allWord_no_open (k : string) :
  allChars isWordChar k = true ->
  allChars (fun c => negb (Ascii.eqb "{" c)) (k ++ "}}") = true.
Proof.
  induction k as [|c k IH]; cbn [append allChars]; [reflexivity|].
  intros H. apply andb_prop in H as [Hc Hk].
  now rewrite (wordChar_not_open c Hc), (IH Hk).
Qed.

(** The literal scan for one key passes over the placeholder of another. *)
Lemma literal_other_placeholder (k k' sv rest b : string) :
  isWord k = true -> isWord k' = true -> k <> k' ->
  replaceFrom (literalRegExp (placeholder k)) (fun _ _ => Normal sv) b
              (placeholder k' ++ rest)
  = cbind (replaceFrom (literalRegExp (placeholder k)) (fun _ _ => Normal sv)
                       "" rest)
          (fun out => Normal (placeholder k' ++ out)).
Proof.
  intros Hk Hk' Hne.
  pose proof (isWord_allWord k Hk) as Hkw.
  pose proof (isWord_allWord k' Hk') as Hkw'.
  unfold placeholder at 2 4. rewrite !append_assoc.
  change ("{{" ++ k' ++ "}}" ++ rest) with (String "{" (String "{" (k' ++ "}}" ++ rest))).
  (* no match at the first brace: the keys differ *)
  rewrite replaceFrom_skip.
  2:{ unfold literalRegExp, placeholder. cbn [append stripPrefix].
      rewrite !Ascii.eqb_refl.
      destruct (stripPrefix (k ++ "}}") _) as [after|] eqn:H; [|reflexivity].
      exfalso. apply Hne. exact (word_prefix k k' rest after Hkw Hkw' H). }
  (* none at the second: a word character follows it *)
  rewrite replaceFrom_skip.
  2:{ unfold literalRegExp, placeholder. cbn [append stripPrefix].
      rewrite Ascii.eqb_refl.
      destruct k' as [|c k']; [discriminate Hk'|].
      cbn [append]. cbn [allChars] in Hkw'.
      apply andb_prop in Hkw' as [Hc _].
      now rewrite (wordChar_not_open c Hc). }
  rewrite <- append_assoc.
  rewrite (literal_skip k sv (k' ++ "}}") rest _ (allWord_no_open k' Hkw')).
  destruct (replaceFrom _ _ "" rest) as [out|e]; cbn [cbind]; [|reflexivity].
  now rewrite !append_assoc.
Qed.

Lemma noInheritedBut_spec (k template name : string) :
  noInheritedBut k template = true ->
  inheritedName name = true -> mentions template name = true -> name = k.
Proof.
  unfold noInheritedBut, inheritedName. intros H Hinh Hm.
  rewrite forallb_forall in H.
  assert (Hin : In name (Object_prototype_functions ++ ["__proto__"])).
  { apply orb_prop in Hinh as [Hf|Hp].
    - apply existsb_exists in Hf as (x & Hx & Heq).
      apply String.eqb_eq in Heq. subst x. apply in_or_app. now left.
    - apply String.eqb_eq in Hp. subst name. apply in_or_app. right. now left. }
  specialize (H name Hin). rewrite Hm in H. cbn in H.
  rewrite orb_false_r in H. now apply String.eqb_eq in H.
Qed.

(** What a one-key mapping answers for another name that is no inherited
    member. *)
Lemma Get_other_key (k k' : string) (v : JSValue) :
  k <> k' -> inheritedName k' = false ->
  isDefined (Get [(k, v)] k') = false.
Proof.
  intros Hne Hinh. unfold Get. cbn [ownProperty].
  destruct (String.eqb_spec k k') as [Heq|_]; [contradiction|].
  unfold inheritedName in Hinh. apply orb_false_elim in Hinh as [H1 H2].
  now rewrite H1, H2.
Qed.

(** X2: for a mapping with one plain key whose value is not [undefined] and
    converts to a text without dollar sign, and a template that holds no
    placeholder of an inherited member, the webhook handler's loop and
    [renderTemplate] render the same text. *)
Theorem renderers_agree_on_one_key (k : string) (v : JSValue) (sv template : string) :
  plainKey k = true ->
  v <> JUndefined ->
  JS_String v = Normal sv ->
  noDollar sv = true ->
  noInheritedBut k template = true ->
  renderPayload [(k, v)] template = renderTemplate template (Some [(k, v)]).
Proof.
  intros Hkey Hv Hsv Hdollar Hinh.
  pose proof (plainKey_isWord k Hkey) as Hk.
  cbn [renderPayload]. unfold new_RegExp.
  rewrite (plainKey_pattern k Hkey). cbn [cbind]. rewrite Hsv. cbn [cbind].
  rewrite cbind_Normal_r.
  unfold replaceLiteral, renderTemplate, replace. cbn [dataOf].
  rewrite (replaceFrom_ext _ _ (fun _ _ => Normal sv))
    by (intros m b; now rewrite GetSubstitution_noDollar).
  enough (G : forall n s done,
             String.length s = n -> template = done ++ s ->
             replaceFrom (literalRegExp (placeholder k)) (fun _ _ => Normal sv) "" s
             = replaceFrom placeholderRegExp (renderCallback [(k, v)]) "" s)
    by (apply (G _ template "" eq_refl eq_refl)).
  induction n as [n IH] using lt_wf_ind. intros s done Hn Ht.
  destruct s as [|c s].
  - now rewrite !replaceFrom_empty.
  - destruct (placeholderRegExp (String c s)) as [m|] eqn:Hm.
    + pose proof (placeholderRegExp_consuming _ _ Hm) as Hlt.
      destruct (placeholderRegExp_sound _ _ Hm) as (k' & Hk' & Hmk & Hs).
      rewrite (replaceFrom_match _ _ _ _ _ _ Hm Hlt), Hmk,
        renderCallback_placeholder.
      cbn [rest matched].
      rewrite (scan_before [(k, v)] (rest m) ("" ++ placeholder k') "").
      rewrite <- (IH (String.length (rest m)) ltac:(lia) (rest m)
                     (done ++ placeholder k') eq_refl)
        by (now rewrite Ht, Hs, append_assoc).
      rewrite Hs.
      destruct (String.eqb_spec k k') as [<-|Hne].
      * (* the key of the mapping: both substitute and go on after it *)
        rewrite (substitution_own [(k, v)] k v) by (cbn; now rewrite ?String.eqb_refl).
        rewrite Hsv.
        assert (Hlit : literalRegExp (placeholder k) (placeholder k ++ rest m)
                       = Some (mkMatch (placeholder k) [] (rest m))).
        { unfold literalRegExp. now rewrite stripPrefix_append. }
        destruct (placeholder k ++ rest m) as [|c0 s0] eqn:Hp; [discriminate|].
        rewrite (replaceFrom_match _ _ _ _ _ _ Hlit).
        2:{ cbn [rest]. rewrite <- Hp. unfold placeholder.
            rewrite !length_append. simpl. lia. }
        cbn [rest matched cbind].
        now rewrite (replaceFrom_before _ _ ("" ++ placeholder k) "" (rest m)).
      * (* another name: the mapping does not resolve it *)
        assert (Hinh' : inheritedName k' = false).
        { destruct (inheritedName k') eqn:Hi; [|reflexivity].
          exfalso. apply Hne. symmetry.
          apply (noInheritedBut_spec k template k' Hinh Hi).
          unfold mentions. now rewrite Ht, Hs, occurs_append. }
        unfold substitution. rewrite (Get_other_key k k' v Hne Hinh').
        cbn [cbind].
        now rewrite (literal_other_placeholder k k' sv (rest m) "" Hk Hk' Hne).
    + assert (Hlit : literalRegExp (placeholder k) (String c s) = None).
      { unfold literalRegExp.
        destruct (stripPrefix (placeholder k) (String c s)) as [after|] eqn:Hp;
          [|reflexivity].
        apply stripPrefix_Some in Hp.
        rewrite Hp, (placeholderRegExp_here k after Hk) in Hm. discriminate Hm. }
      rewrite (replaceFrom_skip _ _ _ _ _ Hlit), (replaceFrom_skip _ _ _ _ _ Hm).
      rewrite (replaceFrom_before _ _ ("" ++ String c "") "" s) by reflexivity.
      rewrite (scan_before [(k, v)] s ("" ++ String c "") "").
      simpl in Hn.
      now rewrite (IH (String.length s) ltac:(lia) s (done ++ String c "") eq_refl)
        by (now rewrite Ht, append_assoc).
Qed.

(** [String] throws nothing but the TypeError of an object that has no
    primitive value. *)
Lemma JS_String_throws :
  forall (v : JSValue) (e : Exn),
    JS_String v = Throw e -> e = TypeError_cannot_convert.
Proof.
  fix IH 1. intros [| |[|]|n|s|elements|properties];
    try (intros e; cbn [JS_String]; discriminate).
  - cbn [JS_String]. revert elements. fix IHl 1. intros [|x xs] e.
    + discriminate.
    + pose proof (IH x) as Hx. pose proof (IHl xs) as Hxs.
      assert (Hel : forall e', match x with
                               | JUndefined | JNull => Normal ""
                               | _ => JS_String x
                               end = Throw e' -> e' = TypeError_cannot_convert).
      { intros e'. destruct x; try discriminate; apply Hx. }
      clear Hx. destruct xs as [|y ys]; [apply Hel|].
      destruct (match x with JUndefined | JNull => Normal "" | _ => JS_String x end)
        as [a|e'] eqn:Hhead.
      * cbn [cbind].
        match goal with
        | |- cbind ?c _ = _ -> _ => destruct c as [b|e''] eqn:Hrest
        end; cbn [cbind]; [discriminate|].
        intros [= <-]. now apply Hxs.
      * cbn [cbind]. intros [= <-]. now apply Hel.
  - intros e. cbn [JS_String].
    destruct (hasOwnProperty properties "toString"); [|discriminate].
    now intros [= <-].
Qed.

Lemma ownProperty_converts (data : object) (k : string) (v : JSValue) :
  allConvert data = true -> ownProperty data k = Some v -> converts v = true.
Proof.
  unfold allConvert. induction data as [|[k' v'] data IH];
    cbn [forallb ownProperty snd]; [discriminate|].
  intros H. apply andb_prop in H as [Hv Hrest].
  destruct (String.eqb k' k); [now intros [= <-] | now apply IH].
Qed.

Lemma Reference_String_throws (data : object) (k : string) (e : Exn) :
  Reference_String (Get data k) = Throw e -> e = TypeError_cannot_convert.
Proof.
  unfold Get. destruct (ownProperty data k) as [v|].
  - apply JS_String_throws.
  - destruct (existsb _ _); [discriminate|].
    destruct (String.eqb k "__proto__"); discriminate.
Qed.

Lemma substitution_throws (data : object) (k : string) (e : Exn) :
  substitution data k = Throw e -> e = TypeError_cannot_convert.
Proof.
  unfold substitution. destruct (isDefined _); [|discriminate].
  apply Reference_String_throws.
Qed.

Lemma substitution_converts (data : object) (k : string) :
  allConvert data = true -> exists s, substitution data k = Normal s.
Proof.
  intros Hall. unfold substitution, Get.
  destruct (ownProperty data k) as [v|] eqn:Hown.
  - pose proof (ownProperty_converts data k v Hall Hown) as Hv.
    unfold converts in Hv. cbn [isDefined Reference_String].
    destruct (negb (isUndefined v)); [|eauto].
    destruct (JS_String v) as [s|e]; [eauto | discriminate].
  - destruct (existsb _ _); cbn [isDefined Reference_String]; [eauto|].
    destruct (String.eqb k "__proto__"); cbn [isDefined Reference_String]; eauto.
Qed.

(** X3: [renderTemplate] throws nothing but the TypeError of a value that
    has no string conversion, and it throws nothing at all when every value
    of the mapping converts (an absent mapping included). *)
Theorem renderTemplate_throws_only_TypeError (template : string)
    (data : option object) :
  (forall e, renderTemplate template data = Throw e ->
             e = TypeError_cannot_convert)
  /\ (allConvert (dataOf data) = true ->
      exists out, renderTemplate template data = Normal out).
Proof.
  unfold renderTemplate, replace.
  assert (G : forall n s,
             String.length s = n ->
             (forall e, replaceFrom placeholderRegExp (renderCallback (dataOf data)) "" s
                        = Throw e -> e = TypeError_cannot_convert)
             /\ (allConvert (dataOf data) = true ->
                 exists out, replaceFrom placeholderRegExp
                               (renderCallback (dataOf data)) "" s = Normal out)).
  { induction n as [n IH] using lt_wf_ind. intros s Hn.
    destruct s as [|c s].
    - rewrite replaceFrom_empty by reflexivity. split; [discriminate | eauto].
    - destruct (placeholderRegExp (String c s)) as [m|] eqn:Hm.
      + pose proof (placeholderRegExp_consuming _ _ Hm) as Hlt.
        destruct (placeholderRegExp_sound _ _ Hm) as (k & Hk & Hmk & Hs).
        rewrite (replaceFrom_match _ _ _ _ _ _ Hm Hlt), Hmk,
          renderCallback_placeholder.
        cbn [rest matched].
        rewrite (scan_before (dataOf data) (rest m) ("" ++ placeholder k) "").
        destruct (IH (String.length (rest m)) ltac:(lia) (rest m) eq_refl)
          as [IHthrow IHtotal].
        split.
        * intros e. destruct (substitution (dataOf data) k) as [r|e'] eqn:Hsub;
            cbn [cbind].
          -- destruct (replaceFrom _ _ "" (rest m)) as [out|e'']; cbn [cbind];
               [discriminate|].
             intros [= <-]. now apply IHthrow.
          -- intros [= <-]. now apply (substitution_throws _ _ _ Hsub).
        * intros Hall.
          destruct (substitution_converts (dataOf data) k Hall) as [r ->].
          destruct (IHtotal Hall) as [out ->]. cbn [cbind]. eauto.
      + rewrite (replaceFrom_skip _ _ _ _ _ Hm).
        rewrite (scan_before (dataOf data) s ("" ++ String c "") "").
        simpl in Hn.
        destruct (IH (String.length s) ltac:(lia) s eq_refl)
          as [IHthrow IHtotal].
        split.
        * intros e. destruct (replaceFrom _ _ "" s) as [out|e']; cbn [cbind];
            [discriminate|].
          intros [= <-]. now apply IHthrow.
        * intros Hall. destruct (IHtotal Hall) as [out ->]. cbn [cbind]. eauto. }
  exact (G _ template eq_refl).
Qed.

Lemma replaceLiteral_total (pattern subject replacement : string) :
  exists out, replaceLiteral pattern subject replacement = Normal out.
Proof.
  unfold replaceLiteral, Replace.replace, Replace.replaceFrom.
  apply ScanFacts.replaceLoop_total. intros m b. eauto.
Qed.

(** X4: under a payload of plain keys, the rendering loop of the webhook
    handler completes exactly when every value of the payload has a string
    conversion; otherwise it throws the TypeError of the conversion, and it
    does so whether or not the template mentions the key: the loop converts
    every value before it looks for the placeholder. *)
Theorem renderPayload_converts_every_value (payload : object)
    (template : string) :
  plainKeys payload = true ->
  (allConvert payload = true ->
   exists out, renderPayload payload template = Normal out)
  /\ (allConvert payload = false ->
      renderPayload payload template = Throw TypeError_cannot_convert).
Proof.
  unfold plainKeys, allConvert. revert template.
  induction payload as [|[k v] payload IH]; intros template;
    cbn [forallb fst snd renderPayload].
  - intros _. split; [eauto | discriminate].
  - intros Hkeys. apply andb_prop in Hkeys as [Hk Hkeys].
    unfold new_RegExp. rewrite (plainKey_pattern k Hk). cbn [cbind].
    unfold converts at 1 3.
    destruct (JS_String v) as [sv|e] eqn:Hv; cbn [cbind andb].
    + destruct (replaceLiteral_total (placeholder k) template sv) as [out ->].
      cbn [cbind]. exact (IH out Hkeys).
    + split; [discriminate|]. intros _.
      now rewrite (JS_String_throws v e Hv).
Qed.

End RenderMore.

(** ** The rendering loop on a template of pieces *)

Section PieceFacts.
Context {E : Engine}.
Import Replace ReplaceFacts ScanFacts.







End PieceFacts.

(** ** The record store *)

Lemma hasNul_append (a b : string) : hasNul (a ++ b) = hasNul a || hasNul b.
Proof.
  unfold hasNul. induction a as [|c a IH]; cbn [append allChars]; [reflexivity|].
  destruct (Ascii.eqb c Ascii.zero); cbn [negb andb orb]; [reflexivity | exact IH].
Qed.

Lemma hasNul_digits (d : Decimal.uint) :
  hasNul (NilEmpty.string_of_uint d) = false.
Proof.
  unfold hasNul.
  induction d as [|d IH|d IH|d IH|d IH|d IH|d IH|d IH|d IH|d IH|d IH];
    cbn [NilEmpty.string_of_uint allChars]; [reflexivity|..];
    (apply negb_false_iff in IH; rewrite IH; reflexivity).
Qed.

(** The decimal digits of an integer hold no U+0000. *)
Lemma hasNul_Z_toString (z : Z) : hasNul (Z_toString z) = false.
Proof.
  unfold Z_toString, NilZero.string_of_int, NilZero.string_of_uint.
  destruct (Z.to_int z) as [d|d].
  - destruct d; try reflexivity; apply hasNul_digits.
  - change (hasNul ("-" ++ match d with
                           | Decimal.Nil => "0"
                           | _ => NilEmpty.string_of_uint d
                           end) = false).
    rewrite hasNul_append. cbn [orb].
    destruct d; try reflexivity; apply hasNul_digits.
Qed.

Lemma nth_error_after {A} (l l' : list A) (n : nat) :
  nth_error (l ++ l') (List.length l + n) = nth_error l' n.
Proof.
  rewrite nth_error_app2 by lia. f_equal. lia.
Qed.

Lemma nth_error_self_1 {A} (l : list A) : nth_error l (List.length l + 1) = None.
Proof. apply nth_error_None. lia. Qed.

Section StoreFacts.
Context {E : Engine} {D : Database}.

(** A select that returns a row was accepted, and the row is stored. *)
Lemma selected_cons (w : World) (id : Z) (prompt : Prompt.t)
    (others : list Prompt.t) :
  selected w id = prompt :: others ->
  int4 id = true
  /\ filter (fun p => Z.eqb (Prompt.id p) id) (promptsTable w) = prompt :: others
  /\ existsb (fun p => Z.eqb (Prompt.id p) id) (promptsTable w) = true.
Proof.
  unfold selected. destruct (int4 id); [|discriminate].
  intros H. split; [reflexivity|]. split; [exact H|].
  apply existsb_exists. exists prompt.
  assert (Hin : In prompt (filter (fun p => Z.eqb (Prompt.id p) id)
                                  (promptsTable w)))
    by (rewrite H; now left).
  now apply filter_In in Hin.
Qed.

(** The row written, when the server takes the columns. *)
Lemma written_Some (w : World) (v : NewExecutionHistory)
    (input : option JSValue) (response : JSValue) :
  int4 (nextval w) = true ->
  int4 (new_prompt_id v) = true ->
  existsb (fun p => Z.eqb (Prompt.id p) (new_prompt_id v)) (promptsTable w)
  = true ->
  match new_webhook_response_status v with
  | Some st => int4 st
  | None => true
  end = true ->
  hasNul (new_rendered_prompt v) = false ->
  nullOrClean (new_webhook_response_body v) = true ->
  nullOrClean (new_error_message v) = true ->
  jsonbInput (new_input_data v) = Some input ->
  jsonb (new_openai_response v) = Some response ->
  written w v
  = Some (ExecutionHistory.mk (nextval w) (new_prompt_id v)
            (new_trigger_type v) input (new_rendered_prompt v) response
            (new_webhook_response_status v) (new_webhook_response_body v)
            (new_execution_status v) (new_error_message v) (now w)).
Proof.
  intros H1 H2 H3 H4 H5 H6 H7 H8 H9. unfold written.
  now rewrite H1, H2, H3, H4, H5, H6, H7, H8, H9.
Qed.

(** What a written row holds. *)
Lemma written_row (w : World) (v : NewExecutionHistory)
    (row : ExecutionHistory.t) :
  written w v = Some row ->
  exists input response,
    jsonbInput (new_input_data v) = Some input
    /\ jsonb (new_openai_response v) = Some response
    /\ existsb (fun p => Z.eqb (Prompt.id p) (new_prompt_id v)) (promptsTable w)
       = true
    /\ row = ExecutionHistory.mk (nextval w) (new_prompt_id v)
               (new_trigger_type v) input (new_rendered_prompt v) response
               (new_webhook_response_status v) (new_webhook_response_body v)
               (new_execution_status v) (new_error_message v) (now w).
Proof.
  unfold written.
  destruct (int4 (nextval w)); [|discriminate].
  destruct (int4 (new_prompt_id v)); [|discriminate].
  destruct (existsb _ _); [|discriminate].
  destruct (match new_webhook_response_status v with
            | Some st => int4 st
            | None => true
            end); [|discriminate].
  destruct (negb (hasNul _)); [|discriminate].
  destruct (nullOrClean (new_webhook_response_body v)); [|discriminate].
  destruct (nullOrClean (new_error_message v)); [|discriminate].
  cbn [andb].
  destruct (jsonbInput _) as [input|]; [|discriminate].
  destruct (jsonb _) as [response|]; [|discriminate].
  intros [= <-]. now exists input, response.
Qed.

Lemma clean_2 (a b : string) :
  clean [a; b] = true -> hasNul a = false /\ hasNul b = false.
Proof.
  unfold clean. cbn [forallb]. intros H.
  apply andb_prop in H as [Ha H]. apply andb_prop in H as [Hb _].
  now apply negb_true_iff in Ha, Hb.
Qed.

Lemma clean_1 (a : string) : clean [a] = true -> hasNul a = false.
Proof.
  unfold clean. cbn [forallb]. intros H.
  apply andb_prop in H as [Ha _]. now apply negb_true_iff in Ha.
Qed.

(** A body with a truthy generated text is an object, and has a key. *)
Lemma deliverable_body (parsed : JSValue) :
  truthy (generatedContent parsed) = true ->
  property parsed "choices" = Normal (member parsed "choices")
  /\ hasNoKeys parsed = Normal false.
Proof.
  destruct parsed as [| | | | | |properties]; try discriminate.
  destruct properties; [discriminate|]. now split.
Qed.

Lemma property_Normal (v x : JSValue) (key : string) :
  property v key = Normal x -> x = member v key.
Proof. destruct v; cbn [property]; congruence. Qed.

(** The insert reads the prompts, the serial and the clock only. *)
Lemma written_frame (w w' : World) (v : NewExecutionHistory) :
  promptsTable w' = promptsTable w -> nextval w' = nextval w ->
  now w' = now w ->
  written w' v = written w v.
Proof. unfold written. now intros -> -> ->. Qed.

(** A property read throws on [null] and [undefined] only, where
    [Object.keys] throws as well. *)
Lemma body_cases (parsed : JSValue) :
  ((parsed = JNull \/ parsed = JUndefined)
   /\ (forall key, exists e, property parsed key = Throw e)
   /\ hasNoKeys parsed = Throw TypeError_null_to_object)
  \/ ((forall key, property parsed key = Normal (member parsed key))
      /\ exists empty, hasNoKeys parsed = Normal empty).
Proof.
  destruct parsed;
    try (right; split; [reflexivity | cbn [hasNoKeys]; eauto]);
    left; (split; [auto|]); (split; [cbn [property]; eauto | reflexivity]).
Qed.

(** The insert of a row, settled either way. *)
Lemma record_Normal (w w' : World) (v : NewExecutionHistory)
    (r : ExecutionHistory.t) :
  record w v = (Normal r, w') ->
  written w v = Some r
  /\ w' = mkWorld (promptsTable w) (executionHistoryTable w ++ [r])
                  (nextval w + 1)%Z (now w) (OPENAI_API_KEY w) (network w)
                  (requests w).
Proof.
  unfold record. destruct (written w v) as [row|]; [|discriminate].
  now intros [= <- <-].
Qed.

Lemma record_Throw (w w' : World) (v : NewExecutionHistory) (e : Exn) :
  record w v = (Throw e, w') ->
  written w v = None /\ e = insert_refused (nextval w) v
  /\ w' = afterRefusal w v.
Proof.
  unfold record. destruct (written w v) as [row|]; [discriminate|].
  now intros [= <- <-].
Qed.

Lemma written_asked (w : World) (issued : list Request)
    (v : NewExecutionHistory) :
  written (asked w issued) v = written w v.
Proof. now apply written_frame. Qed.

Lemma record_asked_Throw (w w' : World) (issued : list Request)
    (v : NewExecutionHistory) (e : Exn) :
  record (asked w issued) v = (Throw e, w') ->
  written w v = None /\ e = insert_refused (nextval w) v
  /\ w' = afterRefusal (asked w issued) v.
Proof.
  intros H. apply record_Throw in H as (Hwritten & -> & ->).
  rewrite written_asked in Hwritten. auto.
Qed.

Lemma record_asked_Normal (w w' : World) (issued : list Request)
    (v : NewExecutionHistory) (r : ExecutionHistory.t) :
  record (asked w issued) v = (Normal r, w') ->
  written w v = Some r
  /\ w' = mkWorld (promptsTable w) (executionHistoryTable w ++ [r])
                  (nextval w + 1)%Z (now w) (OPENAI_API_KEY w) (network w)
                  (requests w ++ issued).
Proof.
  intros H. apply record_Normal in H as (Hwritten & ->).
  rewrite written_asked in Hwritten. auto.
Qed.

(** The requests of a call that settles before or at the insert. *)
Lemma requests_record (w : World) (v : NewExecutionHistory) :
  requests (snd (record w v)) = requests w.
Proof. unfold record. now destruct (written w v). Qed.

(** Whatever the delivery, the record has a message exactly when it has
    failed. *)
Lemma afterDelivery_message (i : Invocation) (answer : Completion Response) :
  message (afterDelivery i answer) <> None
  <-> outcome (afterDelivery i answer) = failed.
Proof.
  unfold afterDelivery, notDelivered.
  destruct answer as [delivery|e]; [|now split].
  destruct (text delivery) as [responseText|e]; [|now split].
  destruct (ok delivery); cbn [message outcome]; split;
    congruence || discriminate.
Qed.

End StoreFacts.

(** ** Tactics for the runs of the handlers *)

Ltac unfold_handler :=
  unfold invoke, executePrompt, webhookExecution, run,
         executePrompt_async, webhookExecution_async,
         tryCatch, bind, selectPrompts, throw, ret, lift;
  cbn [fst snd].

Ltac project :=
  cbn [fst snd negb network requests promptsTable executionHistoryTable
       nextval now OPENAI_API_KEY
       ExecutionHistory.id ExecutionHistory.prompt_id
       ExecutionHistory.trigger_type ExecutionHistory.input_data
       ExecutionHistory.rendered_prompt ExecutionHistory.openai_response
       ExecutionHistory.webhook_response_status
       ExecutionHistory.webhook_response_body
       ExecutionHistory.execution_status ExecutionHistory.error_message
       ExecutionHistory.created_at
       new_prompt_id new_trigger_type new_input_data new_rendered_prompt
       new_openai_response new_webhook_response_status
       new_webhook_response_body new_execution_status new_error_message].

Ltac unfold_effects :=
  unfold fetch, getWorld, getLocals, assign, insertExecutionHistory,
         tryCatch, bind, throw, ret, lift;
  project.

Ltac read_locals :=
  cbn [openaiResponse webhookResponseStatus webhookResponseBody
       executionStatus errorMessage
       set_openaiResponse set_webhookResponseStatus set_webhookResponseBody
       set_executionStatus set_errorMessage initialLocals].

(** The second [fetch] of a call is numbered after the first. *)
Ltac second_fetch := rewrite List.length_app; cbn [List.length].

(** The select of a call that found [prompt]. *)
Ltac select_found Hsel Hact :=
  let Hint4 := fresh "Hint4" in
  let Hfilter := fresh "Hfilter" in
  let Hstored := fresh "Hstored" in
  destruct (selected_cons _ _ _ _ Hsel) as (Hint4 & Hfilter & Hstored);
  unfold_handler; rewrite Hint4, Hfilter, Hact; project.

(** The columns of a row, and of the delivery it is built from. *)
Ltac columns_of_row :=
  unfold rowOf, asked, notDelivered;
  cbn [receivedStatus receivedBody outcome message];
  project.

(** The side conditions of [written_Some] on the columns a handler
    supplies. *)
Ltac columns :=
  columns_of_row; cbn [nullOrClean];
  repeat match goal with
         | H : hasNul ?s = false |- context [hasNul ?s] => rewrite H
         end;
  rewrite ?hasNul_append, ?hasNul_Z_toString;
  repeat match goal with
         | H : hasNul ?s = false |- context [hasNul ?s] => rewrite H
         end;
  first [ assumption | reflexivity ].

(** The insert of a row the server takes. *)
Ltac insert_row storedInput storedResponse :=
  unfold record;
  rewrite (written_Some _ _ storedInput storedResponse); [| columns ..].

(** The cases of a run spelled out in hypothesis [H]. *)
Ltac walk H :=
  repeat match type of H with
         | context [match network ?w ?n ?rq with _ => _ end] =>
             let Hc := fresh "Hanswer" in
             destruct (network w n rq) as [?completion|?e] eqn:Hc
         | context [match json ?a with _ => _ end] =>
             let Hj := fresh "Hjson" in
             destruct (json a) as [?parsed|?e] eqn:Hj
         | context [match hasNoKeys ?v with _ => _ end] =>
             let Hk := fresh "Hkeys" in
             destruct (hasNoKeys v) as [?empty|?e] eqn:Hk
         | context [if negb (ok ?a) then _ else _] =>
             let Ho := fresh "Hok" in
             destruct (ok a) eqn:Ho; cbn [negb] in H
         | context [if truthy ?v then _ else _] =>
             let Ht := fresh "Hcontent" in
             destruct (truthy v) eqn:Ht
         end.

(** A call that has issued one request has no second one. *)
Ltac one_request :=
  rewrite ?requests_record; cbn [snd asked requests];
  rewrite nth_error_after; cbn [nth_error];
  let H := fresh in intros H; discriminate H.

(** ** The handlers *)

Section HandlerFacts.
Context {E : Engine} {D : Database}.

Lemma selected_none (w : World) (id : Z) :
  (forall p, In p (promptsTable w) -> Prompt.id p <> id) ->
  filter (fun p => Z.eqb (Prompt.id p) id) (promptsTable w) = [].
Proof.
  induction (promptsTable w) as [|p ps IH]; intros H.
  - reflexivity.
  - simpl. destruct (Z.eqb_spec (Prompt.id p) id) as [Heq|_].
    + exfalso. apply (H p); [now left | exact Heq].
    + apply IH. intros q Hq. apply H. now right.
Qed.

(** *** The early exits *)

Lemma invoke_refused (i : Invocation) (w : World) :
  int4 (prompt_id_of i) = false ->
  invoke i w = (Throw (integer_out_of_range (prompt_id_of i)), w).
Proof.
  intros H. destruct i as [input|input]; unfold_handler;
    cbn [prompt_id_of] in H; now rewrite H.
Qed.

Lemma invoke_unselected (i : Invocation) (w : World) :
  int4 (prompt_id_of i) = true ->
  selected w (prompt_id_of i) = [] ->
  invoke i w = (Throw (notFoundError i), w).
Proof.
  unfold selected. intros H Hsel. rewrite H in Hsel.
  destruct i as [input|input]; unfold_handler;
    cbn [prompt_id_of] in H, Hsel; now rewrite H, Hsel.
Qed.

Lemma invoke_inactive (i : Invocation) (w : World)
    (prompt : Prompt.t) (others : list Prompt.t) :
  selected w (prompt_id_of i) = prompt :: others ->
  Prompt.is_active prompt = false ->
  invoke i w = (Throw (notActiveError i), w).
Proof.
  intros Hsel Hact.
  destruct i as [input|input]; cbn [prompt_id_of] in Hsel;
    select_found Hsel Hact; reflexivity.
Qed.

Lemma invoke_unrendered (i : Invocation) (w : World)
    (prompt : Prompt.t) (others : list Prompt.t) (e : Exn) :
  selected w (prompt_id_of i) = prompt :: others ->
  Prompt.is_active prompt = true ->
  rendering i prompt = Throw e ->
  invoke i w = (Throw e, w).
Proof.
  intros Hsel Hact Hrender.
  destruct i as [input|input]; cbn [prompt_id_of rendering] in Hsel, Hrender;
    select_found Hsel Hact; now rewrite Hrender.
Qed.

(** *** The run after the rendering *)

Ltac stored :=
  rewrite <- ?List.app_assoc; cbn [List.app];
  match goal with
  | |- context [match written ?w ?v with _ => _ end] =>
      destruct (written w v) as [[]|]
  end; reflexivity.

Lemma executePrompt_settled (input : ExecutePromptInput.t) (w : World)
    (prompt : Prompt.t) (others : list Prompt.t) (renderedPrompt : string) :
  selected w (ExecutePromptInput.prompt_id input) = prompt :: others ->
  Prompt.is_active prompt = true ->
  rendering (Manual input) prompt = Normal renderedPrompt ->
  executePrompt input w = settledManual (Manual input) w prompt renderedPrompt.
Proof.
  intros Hsel Hact Hrender.
  unfold settledManual, afterDelivery, record, rowOf, asked, notDelivered,
         rendering, completionRequest, deliveryRequest, caughtDeliveryMessage,
         deliveryFailureMessage, prompt_id_of, triggerOf, inputOf in *.
  cbv zeta.
  select_found Hsel Hact. rewrite Hrender.
  unfold_effects.
  destruct (network w _ _) as [completion|e]; project; [|reflexivity].
  destruct (json completion) as [parsed|e]; project; [|reflexivity].
  second_fetch.
  destruct (network w _ _) as [delivery|e]; project; read_locals;
    cbn [receivedStatus receivedBody outcome message]; [|stored].
  destruct (text delivery) as [responseText|e]; project; read_locals;
    cbn [receivedStatus receivedBody outcome message]; [|stored].
  destruct (ok delivery); project; read_locals;
    cbn [receivedStatus receivedBody outcome message]; stored.
Qed.

Lemma webhookExecution_settled (input : WebhookExecutionInput.t) (w : World)
    (prompt : Prompt.t) (others : list Prompt.t) (renderedPrompt : string) :
  selected w (WebhookExecutionInput.prompt_id input) = prompt :: others ->
  Prompt.is_active prompt = true ->
  rendering (Webhook input) prompt = Normal renderedPrompt ->
  webhookExecution input w
  = settledWebhook (Webhook input) w prompt renderedPrompt.
Proof.
  intros Hsel Hact Hrender.
  unfold settledWebhook, afterDelivery, record, rowOf, asked, notDelivered,
         rendering, completionRequest, deliveryRequest, caughtDeliveryMessage,
         deliveryFailureMessage, prompt_id_of, triggerOf, inputOf,
         apiErrorMessage, apiErrorDetail, storedAfterError in *.
  cbv zeta.
  select_found Hsel Hact. rewrite Hrender.
  unfold_effects.
  destruct (network w _ _) as [completion|e]; project; read_locals;
    cbn [hasNoKeys List.length Nat.eqb receivedStatus receivedBody outcome
         message]; project; read_locals; [|stored].
  destruct (json completion) as [parsed|e]; project; read_locals;
    cbn [hasNoKeys List.length Nat.eqb receivedStatus receivedBody outcome
         message]; project; read_locals; [|stored].
  destruct (body_cases parsed)
    as [(Hnull & Hread & Hkeys) | (Hread & empty & Hkeys)]; rewrite Hkeys.
  - (* a body that is null: every path ends in the catch, which throws *)
    destruct (Hread "error") as [e1 He1]. destruct (Hread "choices") as [e2 He2].
    rewrite He1, He2.
    destruct (ok completion); project; read_locals; rewrite Hkeys; reflexivity.
  - rewrite !Hread.
    destruct (ok completion); project.
    + fold (generatedContent parsed).
      destruct (truthy (generatedContent parsed)) eqn:Hcontent; project;
        read_locals; cbn [receivedStatus receivedBody outcome message];
        [|stored].
      destruct (deliverable_body parsed Hcontent) as [_ Hfull].
      rewrite Hkeys in Hfull. injection Hfull as ->.
      second_fetch.
      destruct (network w _ _) as [delivery|e]; project; read_locals;
        cbn [receivedStatus receivedBody outcome message];
        [|rewrite Hkeys; project; read_locals; stored].
      destruct (text delivery) as [responseText|e]; project; read_locals;
        cbn [receivedStatus receivedBody outcome message];
        [|rewrite Hkeys; project; read_locals; stored].
      destruct (ok delivery); project; read_locals;
        cbn [receivedStatus receivedBody outcome message]; stored.
    + destruct (JS_String _) as [shown|e]; project; read_locals;
        cbn [messageOr Error]; rewrite Hkeys; project;
        destruct empty; project; read_locals;
        cbn [receivedStatus receivedBody outcome message]; stored.
Qed.

(** Both entry points compute the run spelled out in [settled]. *)
Lemma invoke_settled (i : Invocation) (w : World)
    (prompt : Prompt.t) (others : list Prompt.t) (renderedPrompt : string) :
  selected w (prompt_id_of i) = prompt :: others ->
  Prompt.is_active prompt = true ->
  rendering i prompt = Normal renderedPrompt ->
  invoke i w = settled i w prompt renderedPrompt.
Proof.
  destruct i as [input|input]; cbn [invoke settled prompt_id_of].
  - apply executePrompt_settled.
  - apply webhookExecution_settled.
Qed.

(** Every call is one of the early exits, or the run after the
    rendering. *)
Lemma invoke_cases (i : Invocation) (w : World) :
  (int4 (prompt_id_of i) = false
   /\ invoke i w = (Throw (integer_out_of_range (prompt_id_of i)), w))
  \/ (int4 (prompt_id_of i) = true
      /\ selected w (prompt_id_of i) = []
      /\ invoke i w = (Throw (notFoundError i), w))
  \/ exists prompt others,
       selected w (prompt_id_of i) = prompt :: others
       /\ ((Prompt.is_active prompt = false
            /\ invoke i w = (Throw (notActiveError i), w))
           \/ (Prompt.is_active prompt = true
               /\ ((exists e, rendering i prompt = Throw e
                              /\ invoke i w = (Throw e, w))
                   \/ exists renderedPrompt,
                        rendering i prompt = Normal renderedPrompt
                        /\ invoke i w = settled i w prompt renderedPrompt))).
Proof.
  destruct (int4 (prompt_id_of i)) eqn:Hint4.
  2:{ left. split; [reflexivity|]. now apply invoke_refused. }
  right.
  destruct (selected w (prompt_id_of i)) as [|prompt others] eqn:Hsel.
  { left. split; [reflexivity|]. split; [reflexivity|].
    now apply invoke_unselected. }
  right. exists prompt, others. split; [reflexivity|].
  destruct (Prompt.is_active prompt) eqn:Hact.
  2:{ left. split; [reflexivity|]. now apply (invoke_inactive i w prompt others). }
  right. split; [reflexivity|].
  destruct (rendering i prompt) as [renderedPrompt|e] eqn:Hrender.
  - right. exists renderedPrompt. split; [reflexivity|].
    now apply (invoke_settled i w prompt others).
  - left. exists e. split; [reflexivity|].
    now apply (invoke_unrendered i w prompt others).
Qed.

Lemma hasNoKeys_Throw (v : JSValue) (e : Exn) :
  hasNoKeys v = Throw e ->
  (v = JNull \/ v = JUndefined) /\ e = TypeError_null_to_object.
Proof.
  destruct v; cbn [hasNoKeys]; try discriminate; intros [= <-]; auto.
Qed.

(** A run that resolves has inserted the row it resolves with, after one
    or two requests. *)
Lemma settled_Normal (i : Invocation) (w w' : World) (prompt : Prompt.t)
    (renderedPrompt : string) (r : ExecutionHistory.t) :
  settled i w prompt renderedPrompt = (Normal r, w') ->
  exists issued response d,
    written w (rowOf i renderedPrompt response d) = Some r
    /\ w' = mkWorld (promptsTable w) (executionHistoryTable w ++ [r])
                    (nextval w + 1)%Z (now w) (OPENAI_API_KEY w) (network w)
                    (requests w
                     ++ completionRequest i prompt renderedPrompt w :: issued)
    /\ (List.length issued <= 1)%nat
    /\ (message d <> None <-> outcome d = failed).
Proof.
  intros H.
  destruct i as [input|input];
    unfold settled, settledManual, settledWebhook in H; cbv zeta in H;
    walk H; try discriminate H;
    apply record_asked_Normal in H as [Hwritten ->];
    do 3 eexists; (split; [exact Hwritten|]);
    (split; [reflexivity|]);
    (split; [cbn [List.length]; lia|]);
    first [ apply afterDelivery_message
          | cbn [notDelivered message outcome]; split; congruence ].
Qed.

(** A run that rejects has inserted nothing. *)
Lemma settled_Throw (i : Invocation) (w w' : World) (prompt : Prompt.t)
    (others : list Prompt.t) (renderedPrompt : string) (e : Exn) :
  selected w (prompt_id_of i) = prompt :: others ->
  Prompt.is_active prompt = true ->
  rendering i prompt = Normal renderedPrompt ->
  settled i w prompt renderedPrompt = (Throw e, w') ->
  Rejection i w e w'.
Proof.
  intros Hsel Hact Hrender H.
  destruct i as [input|input];
    unfold settled, settledManual, settledWebhook in H; cbv zeta in H;
    walk H;
    first
      [ apply record_asked_Throw in H as (Hwritten & -> & ->);
        eapply InsertRefused;
        [ exact Hsel | exact Hact | exact Hrender | exact Hwritten
        | cbn [List.length]; lia ]
      | apply hasNoKeys_Throw in Hkeys as [Hnull ->]; injection H as <- <-;
        eapply BodyWithoutKeys; eauto
      | injection H as <- <-; eapply CompletionFails; eauto ].
Qed.

End HandlerFacts.

(** ** The claims on both entry points *)

Section ClaimFacts.
Context {E : Engine} {D : Database}.

(** C5: for every prompt whose active flag is false, both entry points
    reject the call with the inactive error; the world is left as it was, so
    no execution record is written and no [fetch] (completion or delivery)
    is issued. *)
Theorem inactive_prompt_is_rejected (i : Invocation) (w : World)
    (prompt : Prompt.t) (others : list Prompt.t) :
  selected w (prompt_id_of i) = prompt :: others ->
  Prompt.is_active prompt = false ->
  invoke i w = (Throw (notActiveError i), w)
  /\ executionHistoryTable (snd (invoke i w)) = executionHistoryTable w
  /\ requests (snd (invoke i w)) = requests w.
Proof.
  intros Hsel Hact.
  rewrite (invoke_inactive i w prompt others Hsel Hact). auto.
Qed.

(** C6 (as amended): for every prompt identifier that no row of the
    repository carries, both entry points reject the call and leave the
    world as it was, so no execution record is written: with the not-found
    error when the identifier is within the range of the identifier column,
    and with the error of the refused query when it is outside. *)
Theorem unknown_prompt_is_rejected (i : Invocation) (w : World) :
  (forall p, In p (promptsTable w) -> Prompt.id p <> prompt_id_of i) ->
  (int4 (prompt_id_of i) = true ->
   invoke i w = (Throw (notFoundError i), w))
  /\ (int4 (prompt_id_of i) = false ->
      invoke i w = (Throw (integer_out_of_range (prompt_id_of i)), w))
  /\ executionHistoryTable (snd (invoke i w)) = executionHistoryTable w
  /\ requests (snd (invoke i w)) = requests w.
Proof.
  intros H. apply selected_none in H.
  destruct (int4 (prompt_id_of i)) eqn:Hint4.
  - assert (G : invoke i w = (Throw (notFoundError i), w)).
    { apply invoke_unselected; [exact Hint4|].
      unfold selected. now rewrite Hint4. }
    rewrite G. repeat split; auto. discriminate.
  - rewrite (invoke_refused i w Hint4). repeat split; auto. discriminate.
Qed.

(** The run of a call whose completion call succeeded and whose delivery
    was answered. *)
Lemma delivered_run (i : Invocation) (w : World)
    (prompt : Prompt.t) (others : list Prompt.t) (renderedPrompt : string)
    (completion : Response) (parsed : JSValue) :
  selected w (prompt_id_of i) = prompt :: others ->
  Prompt.is_active prompt = true ->
  rendering i prompt = Normal renderedPrompt ->
  network w (List.length (requests w))
          (completionRequest i prompt renderedPrompt w) = Normal completion ->
  accepted i completion = true ->
  json completion = Normal parsed ->
  deliverable i parsed = true ->
  invoke i w
  = record (asked w [completionRequest i prompt renderedPrompt w;
                     deliveryRequest i prompt renderedPrompt parsed])
           (rowOf i renderedPrompt parsed
              (afterDelivery i
                 (network w (List.length (requests w) + 1)
                          (deliveryRequest i prompt renderedPrompt parsed)))).
Proof.
  intros Hsel Hact Hrender Hc Hok Hjson Hdeliverable.
  rewrite (invoke_settled i w prompt others renderedPrompt Hsel Hact Hrender).
  destruct i as [input|input];
    unfold settled, settledManual, settledWebhook; cbv zeta;
    rewrite Hc, Hjson; [reflexivity|].
  cbn [accepted deliverable] in Hok, Hdeliverable.
  destruct (deliverable_body parsed Hdeliverable) as [_ ->].
  now rewrite Hok, Hdeliverable.
Qed.

(** C7 (as amended): for both entry points, when the completion call
    succeeds and the delivery call that follows answers HTTP 500, and the
    record store takes the row (the serial has a value left, the rendered
    prompt and the delivery body hold no U+0000, and the [jsonb] columns
    accept the input mapping and the completion body), the call resolves
    with the record it persisted, whose status is [failed], whose
    [webhook_response_status] is 500, whose [webhook_response_body] is the
    text of the delivery response, and whose [error_message] is the
    handler's delivery-failure message for that status. *)
Theorem delivery_500_is_recorded (i : Invocation) (w : World)
    (prompt : Prompt.t) (others : list Prompt.t) (renderedPrompt : string)
    (completion : Response) (parsed : JSValue)
    (delivery : Response) (responseText : string)
    (storedInput : option JSValue) (storedResponse : JSValue) :
  selected w (prompt_id_of i) = prompt :: others ->
  Prompt.is_active prompt = true ->
  rendering i prompt = Normal renderedPrompt ->
  network w (List.length (requests w))
          (completionRequest i prompt renderedPrompt w) = Normal completion ->
  ok completion = true ->
  json completion = Normal parsed ->
  deliverable i parsed = true ->
  network w (List.length (requests w) + 1)
          (deliveryRequest i prompt renderedPrompt parsed) = Normal delivery ->
  status delivery = 500%Z ->
  text delivery = Normal responseText ->
  int4 (nextval w) = true ->
  clean [renderedPrompt; responseText] = true ->
  jsonbInput (inputOf i) = Some storedInput ->
  jsonb parsed = Some storedResponse ->
  exists r w',
    invoke i w = (Normal r, w')
    /\ executionHistoryTable w' = (executionHistoryTable w ++ [r])%list
    /\ ExecutionHistory.execution_status r = failed
    /\ ExecutionHistory.webhook_response_status r = Some 500%Z
    /\ ExecutionHistory.webhook_response_body r = Some responseText
    /\ ExecutionHistory.error_message r
       = Some (deliveryFailureMessage i 500 responseText).
Proof.
  intros Hsel Hact Hrender Hc Hok Hjson Hdeliverable Hd Hstatus Htext
         Hnext Hclean Hinput Hresponse.
  apply clean_2 in Hclean as [Hprompt Hbody].
  destruct (selected_cons _ _ _ _ Hsel) as (Hint4 & _ & Hstored).
  assert (Haccepted : accepted i completion = true) by (now destruct i).
  rewrite (delivered_run i w prompt others renderedPrompt completion parsed
             Hsel Hact Hrender Hc Haccepted Hjson Hdeliverable).
  rewrite Hd. unfold afterDelivery. rewrite Htext.
  unfold ok. rewrite Hstatus. cbn [Z.leb Z.compare Pos.compare
    Pos.compare_cont andb].
  assert (Hmessage : hasNul (deliveryFailureMessage i 500 responseText) = false).
  { destruct i; cbn [deliveryFailureMessage];
      now rewrite ?hasNul_append, ?hasNul_Z_toString, ?Hbody. }
  insert_row storedInput storedResponse.
  do 2 eexists. repeat split; reflexivity.
Qed.

(** C9: every execution record either entry point resolves with is the
    row it appended to the history table, and its [error_message] is
    non-null exactly when its status is [failed]. *)
Theorem error_message_iff_failed (i : Invocation) (w w' : World)
    (r : ExecutionHistory.t) :
  invoke i w = (Normal r, w') ->
  (ExecutionHistory.error_message r <> None
   <-> ExecutionHistory.execution_status r = failed)
  /\ executionHistoryTable w' = (executionHistoryTable w ++ [r])%list.
Proof.
  intros H.
  destruct (invoke_cases i w)
    as [[_ G] | [(_ & _ & G)
       | (prompt & others & Hsel
          & [[_ G] | (Hact & [(e & _ & G) | (renderedPrompt & Hrender & G)])])]];
    rewrite G in H; try discriminate H.
  apply settled_Normal in H
    as (issued & response & d & Hwritten & -> & _ & Hmessage).
  apply written_row in Hwritten as (input & stored & _ & _ & _ & ->).
  split; [exact Hmessage | reflexivity].
Qed.

(** C10: in the webhook-invoked entry point, the second [fetch] of a call,
    when there is one, is the delivery: the completion call of that
    invocation answered with a body holding a truthy generated text, and
    the request is a POST of JSON to the destination of the selected prompt
    whose payload holds the prompt identifier, the caller's original
    payload, that generated text, and [execution_id: null]. *)
Theorem webhook_delivery_payload (input : WebhookExecutionInput.t) (w : World)
    (rq : Request) :
  nth_error (requests (snd (webhookExecution input w)))
            (List.length (requests w) + 1) = Some rq ->
  exists prompt others renderedPrompt completion parsed,
    selected w (WebhookExecutionInput.prompt_id input) = prompt :: others
    /\ rendering (Webhook input) prompt = Normal renderedPrompt
    /\ network w (List.length (requests w))
               (completionRequest (Webhook input) prompt renderedPrompt w)
       = Normal completion
    /\ json completion = Normal parsed
    /\ truthy (member (member (first (member parsed "choices")) "message")
                      "content") = true
    /\ url rq = Prompt.destination_webhook_url prompt
    /\ headers rq = [("Content-Type", "application/json")]
    /\ body rq
       = WebhookDelivery
           (WebhookExecutionInput.prompt_id input)
           (WebhookExecutionInput.payload input)
           (member (member (first (member parsed "choices")) "message")
                   "content")
           None.
Proof.
  change (webhookExecution input w) with (invoke (Webhook input) w).
  destruct (invoke_cases (Webhook input) w)
    as [[_ G] | [(_ & _ & G)
       | (prompt & others & Hsel
          & [[_ G] | (Hact & [(e & _ & G) | (renderedPrompt & Hrender & G)])])]];
    rewrite G; cbn [snd];
    try (rewrite nth_error_self_1; discriminate).
  unfold settled, settledWebhook. cbv zeta.
  destruct (network w _ _) as [completion|e] eqn:Hc; [|one_request].
  destruct (json completion) as [parsed|e] eqn:Hjson; [|one_request].
  destruct (hasNoKeys parsed) as [empty|e]; [|one_request].
  destruct (ok completion); cbn [negb]; [|one_request].
  destruct (truthy (generatedContent parsed)) eqn:Hcontent; [|one_request].
  rewrite requests_record. cbn [snd asked requests].
  rewrite nth_error_after. cbn [nth_error].
  intros [= <-].
  exists prompt, others, renderedPrompt, completion, parsed.
  repeat split; assumption || reflexivity.
Qed.


(** The run of the webhook-invoked entry point whose completion call is
    not answered with a body. *)
Lemma uncompleted_run (input : WebhookExecutionInput.t) (w : World)
    (prompt : Prompt.t) (others : list Prompt.t) (renderedPrompt : string)
    (error : Exn) :
  selected w (WebhookExecutionInput.prompt_id input) = prompt :: others ->
  Prompt.is_active prompt = true ->
  rendering (Webhook input) prompt = Normal renderedPrompt ->
  (let answer :=
     network w (List.length (requests w))
             (completionRequest (Webhook input) prompt renderedPrompt w) in
   answer = Throw error
   \/ exists completion,
        answer = Normal completion /\ json completion = Throw error) ->
  webhookExecution input w
  = record (asked w [completionRequest (Webhook input) prompt renderedPrompt w])
           (rowOf (Webhook input) renderedPrompt
              (JObj [("error",
                      JStr (messageOr "Unknown error occurred" error))])
              (notDelivered (messageOr "Unknown error occurred" error))).
Proof.
  intros Hsel Hact Hrender Hc. cbv zeta in Hc.
  change (webhookExecution input w) with (invoke (Webhook input) w).
  rewrite (invoke_settled (Webhook input) w prompt others renderedPrompt Hsel Hact Hrender).
  unfold settled, settledWebhook. cbv zeta.
  destruct Hc as [Hc | (completion & Hc & Hjson)]; rewrite Hc;
    [|rewrite Hjson]; reflexivity.
Qed.

(** The run of the webhook-invoked entry point whose completion call is
    answered with a status that is not [ok]. *)
Lemma refused_run (input : WebhookExecutionInput.t) (w : World)
    (prompt : Prompt.t) (others : list Prompt.t) (renderedPrompt : string)
    (completion : Response) (parsed : JSValue) (empty : bool) :
  selected w (WebhookExecutionInput.prompt_id input) = prompt :: others ->
  Prompt.is_active prompt = true ->
  rendering (Webhook input) prompt = Normal renderedPrompt ->
  network w (List.length (requests w))
          (completionRequest (Webhook input) prompt renderedPrompt w)
  = Normal completion ->
  ok completion = false ->
  json completion = Normal parsed ->
  hasNoKeys parsed = Normal empty ->
  webhookExecution input w
  = record (asked w [completionRequest (Webhook input) prompt renderedPrompt w])
           (rowOf (Webhook input) renderedPrompt
              (storedAfterError parsed empty (apiErrorMessage parsed))
              (notDelivered (apiErrorMessage parsed))).
Proof.
  intros Hsel Hact Hrender Hc Hok Hjson Hkeys.
  change (webhookExecution input w) with (invoke (Webhook input) w).
  rewrite (invoke_settled (Webhook input) w prompt others renderedPrompt Hsel Hact Hrender).
  unfold settled, settledWebhook. cbv zeta.
  now rewrite Hc, Hjson, Hkeys, Hok.
Qed.

(** The webhook-invoked handler alone meets C1: a completion call that
    answers with a status that is not [ok] and a body other than [null] is
    recorded as a failed execution when the record store takes the row, and
    no delivery is attempted. *)
Lemma webhookExecution_records_completion_status
    (input : WebhookExecutionInput.t) (w : World)
    (prompt : Prompt.t) (others : list Prompt.t) (renderedPrompt : string)
    (completion : Response) (parsed : JSValue) (empty : bool)
    (storedInput : option JSValue) (storedResponse : JSValue) :
  selected w (WebhookExecutionInput.prompt_id input) = prompt :: others ->
  Prompt.is_active prompt = true ->
  rendering (Webhook input) prompt = Normal renderedPrompt ->
  network w (List.length (requests w))
          (completionRequest (Webhook input) prompt renderedPrompt w)
  = Normal completion ->
  ok completion = false ->
  json completion = Normal parsed ->
  hasNoKeys parsed = Normal empty ->
  int4 (nextval w) = true ->
  clean [renderedPrompt; apiErrorMessage parsed] = true ->
  jsonbInput (Some (WebhookExecutionInput.payload input)) = Some storedInput ->
  jsonb (storedAfterError parsed empty (apiErrorMessage parsed))
  = Some storedResponse ->
  exists r w',
    webhookExecution input w = (Normal r, w')
    /\ executionHistoryTable w' = (executionHistoryTable w ++ [r])%list
    /\ List.length (requests w') = (List.length (requests w) + 1)%nat
    /\ ExecutionHistory.execution_status r = failed
    /\ ExecutionHistory.webhook_response_status r = None
    /\ ExecutionHistory.webhook_response_body r = None
    /\ ExecutionHistory.error_message r = Some (apiErrorMessage parsed).
Proof.
  intros Hsel Hact Hrender Hc Hok Hjson Hkeys Hnext Hclean Hinput Hresponse.
  apply clean_2 in Hclean as [Hprompt Hmessage].
  destruct (selected_cons _ _ _ _ Hsel) as (Hint4 & _ & Hstored).
  rewrite (refused_run input w prompt others renderedPrompt completion parsed
             empty Hsel Hact Hrender Hc Hok Hjson Hkeys).
  insert_row storedInput storedResponse.
  do 2 eexists. (split; [reflexivity|]). columns_of_row.
  rewrite List.length_app. repeat split; reflexivity.
Qed.

(** The webhook-invoked handler alone meets C2: when the completion call
    is rejected, or its body cannot be parsed, the error is caught and a
    failed execution is recorded with the error's message, when the record
    store takes the row. *)
Lemma webhookExecution_records_transport_failure
    (input : WebhookExecutionInput.t) (w : World)
    (prompt : Prompt.t) (others : list Prompt.t) (renderedPrompt : string)
    (error : Exn) (storedInput : option JSValue) (storedResponse : JSValue) :
  selected w (WebhookExecutionInput.prompt_id input) = prompt :: others ->
  Prompt.is_active prompt = true ->
  rendering (Webhook input) prompt = Normal renderedPrompt ->
  (let answer :=
     network w (List.length (requests w))
             (completionRequest (Webhook input) prompt renderedPrompt w) in
   answer = Throw error
   \/ exists completion,
        answer = Normal completion /\ json completion = Throw error) ->
  int4 (nextval w) = true ->
  clean [renderedPrompt; messageOr "Unknown error occurred" error] = true ->
  jsonbInput (Some (WebhookExecutionInput.payload input)) = Some storedInput ->
  jsonb (JObj [("error", JStr (messageOr "Unknown error occurred" error))])
  = Some storedResponse ->
  exists r w',
    webhookExecution input w = (Normal r, w')
    /\ executionHistoryTable w' = (executionHistoryTable w ++ [r])%list
    /\ ExecutionHistory.execution_status r = failed
    /\ ExecutionHistory.error_message r
       = Some (messageOr "Unknown error occurred" error)
    /\ ExecutionHistory.webhook_response_status r = None.
Proof.
  intros Hsel Hact Hrender Hc Hnext Hclean Hinput Hresponse.
  apply clean_2 in Hclean as [Hprompt Hmessage].
  destruct (selected_cons _ _ _ _ Hsel) as (Hint4 & _ & Hstored).
  rewrite (uncompleted_run input w prompt others renderedPrompt error
             Hsel Hact Hrender Hc).
  insert_row storedInput storedResponse.
  do 2 eexists. repeat split; reflexivity.
Qed.

(** [executePrompt] on the other hand never reads the status of the
    completion call: whatever it is, the delivery is attempted, and the
    record's status is decided by the delivery alone. *)
Lemma executePrompt_ignores_completion_status
    (input : ExecutePromptInput.t) (w : World)
    (prompt : Prompt.t) (others : list Prompt.t) (renderedPrompt : string)
    (completion : Response) (parsed : JSValue)
    (delivery : Response) (responseText : string)
    (storedInput : option JSValue) (storedResponse : JSValue) :
  selected w (ExecutePromptInput.prompt_id input) = prompt :: others ->
  Prompt.is_active prompt = true ->
  rendering (Manual input) prompt = Normal renderedPrompt ->
  network w (List.length (requests w))
          (completionRequest (Manual input) prompt renderedPrompt w)
  = Normal completion ->
  json completion = Normal parsed ->
  network w (List.length (requests w) + 1)
          (deliveryRequest (Manual input) prompt renderedPrompt parsed)
  = Normal delivery ->
  text delivery = Normal responseText ->
  int4 (nextval w) = true ->
  int4 (status delivery) = true ->
  clean [renderedPrompt; responseText] = true ->
  jsonbInput (ExecutePromptInput.template_data input) = Some storedInput ->
  jsonb parsed = Some storedResponse ->
  exists r w',
    executePrompt input w = (Normal r, w')
    /\ executionHistoryTable w' = (executionHistoryTable w ++ [r])%list
    /\ List.length (requests w') = (List.length (requests w) + 2)%nat
    /\ ExecutionHistory.webhook_response_status r = Some (status delivery)
    /\ ExecutionHistory.webhook_response_body r = Some responseText
    /\ ExecutionHistory.execution_status r
       = (if ok delivery then success else failed)
    /\ (ok delivery = true -> ExecutionHistory.error_message r = None).
Proof.
  intros Hsel Hact Hrender Hc Hjson Hd Htext Hnext Hstatus Hclean Hinput
         Hresponse.
  apply clean_2 in Hclean as [Hprompt Hbody].
  destruct (selected_cons _ _ _ _ Hsel) as (Hint4 & _ & Hstored).
  change (executePrompt input w) with (invoke (Manual input) w).
  rewrite (delivered_run (Manual input) w prompt others renderedPrompt
             completion parsed Hsel Hact Hrender Hc eq_refl Hjson eq_refl).
  rewrite Hd. unfold afterDelivery. rewrite Htext.
  destruct (ok delivery); cbn [deliveryFailureMessage];
    insert_row storedInput storedResponse;
    do 2 eexists; (split; [reflexivity|]); columns_of_row;
    rewrite !List.length_app; cbn [List.length];
    repeat split; try reflexivity; try lia; discriminate.
Qed.

(** And it lets a failure of the completion call escape: the call rejects
    with the error, and the history table is left as it was. *)
Lemma executePrompt_rethrows_transport_failure
    (input : ExecutePromptInput.t) (w : World)
    (prompt : Prompt.t) (others : list Prompt.t) (renderedPrompt : string)
    (error : Exn) :
  selected w (ExecutePromptInput.prompt_id input) = prompt :: others ->
  Prompt.is_active prompt = true ->
  rendering (Manual input) prompt = Normal renderedPrompt ->
  (let answer :=
     network w (List.length (requests w))
             (completionRequest (Manual input) prompt renderedPrompt w) in
   answer = Throw error
   \/ exists completion,
        answer = Normal completion /\ json completion = Throw error) ->
  exists w',
    executePrompt input w = (Throw error, w')
    /\ executionHistoryTable w' = executionHistoryTable w.
Proof.
  intros Hsel Hact Hrender Hc. cbv zeta in Hc.
  change (executePrompt input w) with (invoke (Manual input) w).
  rewrite (invoke_settled (Manual input) w prompt others renderedPrompt Hsel Hact Hrender).
  unfold settled, settledManual. cbv zeta.
  destruct Hc as [Hc | (completion & Hc & Hjson)]; rewrite Hc;
    [|rewrite Hjson]; eexists; split; reflexivity.
Qed.

End ClaimFacts.

(** ** Every run of the entry points *)

Section RunFacts.
Context {E : Engine} {D : Database}.

(** A call that rejects does so for one of the causes of [Rejection]. *)
Lemma invoke_Throw (i : Invocation) (w w' : World) (e : Exn) :
  invoke i w = (Throw e, w') -> Rejection i w e w'.
Proof.
  intros H.
  destruct (invoke_cases i w)
    as [[Hint4 G] | [(Hint4 & Hsel & G)
       | (prompt & others & Hsel
          & [[Hact G] | (Hact & [(e' & Hrender & G)
                                | (renderedPrompt & Hrender & G)])])]];
    rewrite G in H.
  - injection H as <- <-. now apply QueryRefused.
  - injection H as <- <-. now apply NotFound.
  - injection H as <- <-. eapply NotActive; eassumption.
  - injection H as <- <-. eapply RenderingThrows; eassumption.
  - now apply (settled_Throw i w w' prompt others renderedPrompt).
Qed.

(** A call that resolves has selected an active prompt, rendered it, sent
    the completion request and at most one more, and inserted the row it
    resolves with. *)
Lemma invoke_Normal (i : Invocation) (w w' : World) (r : ExecutionHistory.t) :
  invoke i w = (Normal r, w') ->
  exists prompt others renderedPrompt issued response d,
    selected w (prompt_id_of i) = prompt :: others
    /\ Prompt.is_active prompt = true
    /\ rendering i prompt = Normal renderedPrompt
    /\ written w (rowOf i renderedPrompt response d) = Some r
    /\ w' = mkWorld (promptsTable w) (executionHistoryTable w ++ [r])
                    (nextval w + 1)%Z (now w) (OPENAI_API_KEY w) (network w)
                    (requests w
                     ++ completionRequest i prompt renderedPrompt w :: issued)
    /\ (List.length issued <= 1)%nat
    /\ (message d <> None <-> outcome d = failed).
Proof.
  intros H.
  destruct (invoke_cases i w)
    as [[_ G] | [(_ & _ & G)
       | (prompt & others & Hsel
          & [[_ G] | (Hact & [(e & _ & G) | (renderedPrompt & Hrender & G)])])]];
    rewrite G in H; try discriminate H.
  apply settled_Normal in H as (issued & response & d & H).
  exists prompt, others, renderedPrompt, issued, response, d. auto.
Qed.

(** A call that rejects has at most sent requests and drawn a value of
    the serial. *)
Lemma Rejection_asked (i : Invocation) (w w' : World) (e : Exn) :
  Rejection i w e w' ->
  exists issued next,
    w' = mkWorld (promptsTable w) (executionHistoryTable w) next (now w)
                 (OPENAI_API_KEY w) (network w) (requests w ++ issued)
    /\ (List.length issued <= 2)%nat
    /\ (nextval w <= next <= nextval w + 1)%Z.
Proof.
  assert (Hw : w = mkWorld (promptsTable w) (executionHistoryTable w)
                           (nextval w) (now w) (OPENAI_API_KEY w) (network w)
                           (requests w ++ []))
    by (destruct w; cbn; now rewrite List.app_nil_r).
  intros [ | | | | | | ];
    try (exists [], (nextval w); split; [exact Hw | cbn; lia]);
    try (eexists; exists (nextval w);
         split; [reflexivity | cbn [List.length]; lia]).
  unfold afterRefusal, asked. project.
  eexists. eexists. split; [reflexivity|]. split; [cbn [List.length]; lia|].
  destruct (refusal_draws _ _); lia.
Qed.

(** X5: whatever a call of either entry point does, it leaves the stored
    prompts, the clock, the API key and the network as they were, and it adds
    at most two requests after those issued before. *)
Theorem invoke_frame (i : Invocation) (w : World) :
  promptsTable (snd (invoke i w)) = promptsTable w
  /\ now (snd (invoke i w)) = now w
  /\ OPENAI_API_KEY (snd (invoke i w)) = OPENAI_API_KEY w
  /\ network (snd (invoke i w)) = network w
  /\ exists issued,
       requests (snd (invoke i w)) = (requests w ++ issued)%list
       /\ (List.length issued <= 2)%nat.
Proof.
  destruct (invoke i w) as [[r|e] w'] eqn:H; cbn [snd].
  - apply invoke_Normal in H
      as (prompt & others & renderedPrompt & issued & response & d
          & _ & _ & _ & _ & -> & Hissued & _).
    project. repeat (split; [reflexivity|]).
    eexists. split; [reflexivity|]. cbn [List.length]. lia.
  - apply invoke_Throw, Rejection_asked in H
      as (issued & next & -> & Hissued & _).
    project. repeat (split; [reflexivity|]).
    now exists issued.
Qed.

(** X6: a call that rejects has written no execution record, and it
    rejects for one of the causes of [Rejection]: the server refuses the
    identifier of the select; no prompt has it; the prompt is inactive; the
    rendering throws; in [executePrompt], the completion call is rejected or
    its body does not parse; in [webhookExecution], the completion body is
    [null], on which the handler throws inside its own [catch]; or the
    server refuses the insert.  The first four leave the world as it was;
    the others have sent the completion request and at most one more, and
    only a refused insert may have drawn a value of the serial. *)
Theorem rejection_causes (i : Invocation) (w w' : World) (e : Exn) :
  invoke i w = (Throw e, w') ->
  executionHistoryTable w' = executionHistoryTable w
  /\ (nextval w <= nextval w' <= nextval w + 1)%Z
  /\ Rejection i w e w'.
Proof.
  intros H. apply invoke_Throw in H.
  destruct (Rejection_asked i w w' e H) as (issued & next & -> & _ & Hnext).
  now repeat split.
Qed.

(** X7: a record a call resolves with carries the next identifier of the
    serial, which the call advances by one, and the time of the clock; its
    [prompt_id] and [trigger_type] are those of the call ([executePrompt]
    always writes [cron]) and its [input_data] is the call's input as the
    [jsonb] column gives it back; and it stems from an active stored prompt
    of that identifier, whose rendering is the record's [rendered_prompt]
    and was sent in the first request of the call, the completion request:
    a POST to the chat completions endpoint whose one message is that
    rendered prompt, for the model of the prompt. *)
Theorem record_provenance (i : Invocation) (w w' : World)
    (r : ExecutionHistory.t) :
  invoke i w = (Normal r, w') ->
  ExecutionHistory.id r = nextval w
  /\ nextval w' = (nextval w + 1)%Z
  /\ ExecutionHistory.created_at r = now w
  /\ ExecutionHistory.prompt_id r = prompt_id_of i
  /\ ExecutionHistory.trigger_type r = triggerOf i
  /\ jsonbInput (inputOf i) = Some (ExecutionHistory.input_data r)
  /\ exists prompt others rq,
       selected w (prompt_id_of i) = prompt :: others
       /\ Prompt.is_active prompt = true
       /\ rendering i prompt = Normal (ExecutionHistory.rendered_prompt r)
       /\ nth_error (requests w') (List.length (requests w)) = Some rq
       /\ rq = completionRequest i prompt
                  (ExecutionHistory.rendered_prompt r) w
       /\ url rq = "https://api.openai.com/v1/chat/completions"
       /\ exists temperature max_tokens top_p frequency_penalty
                 presence_penalty,
            body rq
            = ChatCompletion (Prompt.model prompt)
                (ExecutionHistory.rendered_prompt r)
                temperature max_tokens top_p frequency_penalty
                presence_penalty.
Proof.
  intros H.
  apply invoke_Normal in H
    as (prompt & others & renderedPrompt & issued & response & d
        & Hsel & Hact & Hrender & Hwritten & -> & _ & _).
  apply written_row in Hwritten as (input & stored & Hinput & _ & _ & ->).
  columns_of_row.
  repeat (split; [first [reflexivity | assumption]|]).
  exists prompt, others. eexists. repeat (split; [assumption|]).
  split.
  { rewrite <- (Nat.add_0_r (List.length (requests w))) at 1.
    now rewrite nth_error_after. }
  split; [reflexivity|]. split; [reflexivity|].
  do 5 eexists. reflexivity.
Qed.

(** X8: in the manual / scheduled entry point, the second [fetch] of a
    call, when there is one, is the delivery: a POST of JSON to the
    destination of the selected prompt whose payload holds the prompt
    identifier, the rendered prompt, the whole parsed body of the completion
    call, whatever its status was, and the caller's template data. *)
Theorem manual_delivery_payload (input : ExecutePromptInput.t) (w : World)
    (rq : Request) :
  nth_error (requests (snd (executePrompt input w)))
            (List.length (requests w) + 1) = Some rq ->
  exists prompt others renderedPrompt completion parsed,
    selected w (ExecutePromptInput.prompt_id input) = prompt :: others
    /\ Prompt.is_active prompt = true
    /\ rendering (Manual input) prompt = Normal renderedPrompt
    /\ network w (List.length (requests w))
               (completionRequest (Manual input) prompt renderedPrompt w)
       = Normal completion
    /\ json completion = Normal parsed
    /\ url rq = Prompt.destination_webhook_url prompt
    /\ headers rq = [("Content-Type", "application/json")]
    /\ body rq
       = ManualDelivery (ExecutePromptInput.prompt_id input) renderedPrompt
                        parsed (ExecutePromptInput.template_data input).
Proof.
  change (executePrompt input w) with (invoke (Manual input) w).
  destruct (invoke_cases (Manual input) w)
    as [[_ G] | [(_ & _ & G)
       | (prompt & others & Hsel
          & [[_ G] | (Hact & [(e & _ & G) | (renderedPrompt & Hrender & G)])])]];
    rewrite G; cbn [snd];
    try (rewrite nth_error_self_1; discriminate).
  unfold settled, settledManual. cbv zeta.
  destruct (network w _ _) as [completion|e] eqn:Hc; [|one_request].
  destruct (json completion) as [parsed|e] eqn:Hjson; [|one_request].
  rewrite requests_record. cbn [snd asked requests].
  rewrite nth_error_after. cbn [nth_error].
  intros [= <-].
  exists prompt, others, renderedPrompt, completion, parsed.
  repeat split; assumption || reflexivity.
Qed.

(** X9: when the completion call of the webhook-invoked entry point
    answers [ok] with a body other than [null] that holds no truthy
    generated text, nothing is delivered: the call issues that one request
    and, when the record store takes the row, resolves with a [failed]
    record that keeps the parsed body as the [jsonb] column gives it back,
    has no delivery status or body, and says that no content was
    received. *)
Theorem webhook_without_content_is_failed
    (input : WebhookExecutionInput.t) (w : World)
    (prompt : Prompt.t) (others : list Prompt.t) (renderedPrompt : string)
    (completion : Response) (parsed : JSValue) (empty : bool)
    (storedInput : option JSValue) (storedResponse : JSValue) :
  selected w (WebhookExecutionInput.prompt_id input) = prompt :: others ->
  Prompt.is_active prompt = true ->
  rendering (Webhook input) prompt = Normal renderedPrompt ->
  network w (List.length (requests w))
          (completionRequest (Webhook input) prompt renderedPrompt w)
  = Normal completion ->
  ok completion = true ->
  json completion = Normal parsed ->
  hasNoKeys parsed = Normal empty ->
  truthy (generatedContent parsed) = false ->
  int4 (nextval w) = true ->
  clean [renderedPrompt] = true ->
  jsonbInput (Some (WebhookExecutionInput.payload input)) = Some storedInput ->
  jsonb parsed = Some storedResponse ->
  exists r w',
    webhookExecution input w = (Normal r, w')
    /\ executionHistoryTable w' = (executionHistoryTable w ++ [r])%list
    /\ requests w'
       = (requests w
          ++ [completionRequest (Webhook input) prompt renderedPrompt w])%list
    /\ ExecutionHistory.execution_status r = failed
    /\ ExecutionHistory.error_message r
       = Some "No content received from OpenAI API"
    /\ ExecutionHistory.webhook_response_status r = None
    /\ ExecutionHistory.webhook_response_body r = None
    /\ ExecutionHistory.openai_response r = storedResponse.
Proof.
  intros Hsel Hact Hrender Hc Hok Hjson Hkeys Hcontent Hnext Hclean Hinput
         Hresponse.
  apply clean_1 in Hclean.
  destruct (selected_cons _ _ _ _ Hsel) as (Hint4 & _ & Hstored).
  change (webhookExecution input w) with (invoke (Webhook input) w).
  rewrite (invoke_settled (Webhook input) w prompt others renderedPrompt
             Hsel Hact Hrender).
  unfold settled, settledWebhook. cbv zeta.
  rewrite Hc, Hjson, Hkeys, Hok, Hcontent. cbn [negb].
  insert_row storedInput storedResponse.
  do 2 eexists. repeat split; reflexivity.
Qed.

(** X10: for both entry points, when the delivery call itself is rejected
    (the destination cannot be reached), the error is caught: when the
    record store takes the row, the call resolves with a [failed] record
    that keeps the parsed completion body as the [jsonb] column gives it
    back, has neither delivery status nor body, and carries the handler's
    message for the caught error. *)
Theorem delivery_rejection_is_recorded (i : Invocation) (w : World)
    (prompt : Prompt.t) (others : list Prompt.t) (renderedPrompt : string)
    (completion : Response) (parsed : JSValue) (error : Exn)
    (storedInput : option JSValue) (storedResponse : JSValue) :
  selected w (prompt_id_of i) = prompt :: others ->
  Prompt.is_active prompt = true ->
  rendering i prompt = Normal renderedPrompt ->
  network w (List.length (requests w))
          (completionRequest i prompt renderedPrompt w) = Normal completion ->
  accepted i completion = true ->
  json completion = Normal parsed ->
  deliverable i parsed = true ->
  network w (List.length (requests w) + 1)
          (deliveryRequest i prompt renderedPrompt parsed) = Throw error ->
  int4 (nextval w) = true ->
  clean [renderedPrompt; caughtDeliveryMessage i error] = true ->
  jsonbInput (inputOf i) = Some storedInput ->
  jsonb parsed = Some storedResponse ->
  exists r w',
    invoke i w = (Normal r, w')
    /\ executionHistoryTable w' = (executionHistoryTable w ++ [r])%list
    /\ ExecutionHistory.execution_status r = failed
    /\ ExecutionHistory.webhook_response_status r = None
    /\ ExecutionHistory.webhook_response_body r = None
    /\ ExecutionHistory.error_message r = Some (caughtDeliveryMessage i error)
    /\ ExecutionHistory.openai_response r = storedResponse.
Proof.
  intros Hsel Hact Hrender Hc Hok Hjson Hdeliverable Hd Hnext Hclean Hinput
         Hresponse.
  apply clean_2 in Hclean as [Hprompt Hmessage].
  destruct (selected_cons _ _ _ _ Hsel) as (Hint4 & _ & Hstored).
  rewrite (delivered_run i w prompt others renderedPrompt completion parsed
             Hsel Hact Hrender Hc Hok Hjson Hdeliverable).
  rewrite Hd. unfold afterDelivery.
  insert_row storedInput storedResponse.
  do 2 eexists. repeat split; reflexivity.
Qed.

(** X11: for both entry points, when the destination answers but its body
    cannot be read, the status it answered with is kept: when the record
    store takes the row, the record is [failed] with that
    [webhook_response_status], no [webhook_response_body], and the handler's
    message for the caught error. *)
Theorem delivery_body_failure_keeps_status (i : Invocation) (w : World)
    (prompt : Prompt.t) (others : list Prompt.t) (renderedPrompt : string)
    (completion : Response) (parsed : JSValue)
    (delivery : Response) (error : Exn)
    (storedInput : option JSValue) (storedResponse : JSValue) :
  selected w (prompt_id_of i) = prompt :: others ->
  Prompt.is_active prompt = true ->
  rendering i prompt = Normal renderedPrompt ->
  network w (List.length (requests w))
          (completionRequest i prompt renderedPrompt w) = Normal completion ->
  accepted i completion = true ->
  json completion = Normal parsed ->
  deliverable i parsed = true ->
  network w (List.length (requests w) + 1)
          (deliveryRequest i prompt renderedPrompt parsed) = Normal delivery ->
  text delivery = Throw error ->
  int4 (nextval w) = true ->
  int4 (status delivery) = true ->
  clean [renderedPrompt; caughtDeliveryMessage i error] = true ->
  jsonbInput (inputOf i) = Some storedInput ->
  jsonb parsed = Some storedResponse ->
  exists r w',
    invoke i w = (Normal r, w')
    /\ executionHistoryTable w' = (executionHistoryTable w ++ [r])%list
    /\ ExecutionHistory.execution_status r = failed
    /\ ExecutionHistory.webhook_response_status r = Some (status delivery)
    /\ ExecutionHistory.webhook_response_body r = None
    /\ ExecutionHistory.error_message r = Some (caughtDeliveryMessage i error).
Proof.
  intros Hsel Hact Hrender Hc Hok Hjson Hdeliverable Hd Htext Hnext Hstatus
         Hclean Hinput Hresponse.
  apply clean_2 in Hclean as [Hprompt Hmessage].
  destruct (selected_cons _ _ _ _ Hsel) as (Hint4 & _ & Hstored).
  rewrite (delivered_run i w prompt others renderedPrompt completion parsed
             Hsel Hact Hrender Hc Hok Hjson Hdeliverable).
  rewrite Hd. unfold afterDelivery. rewrite Htext.
  insert_row storedInput storedResponse.
  do 2 eexists. repeat split; reflexivity.
Qed.

(** X12: for both entry points, once the delivery call has answered and
    its body is read, the answer alone decides the record the store takes:
    the status is [success] exactly when the delivery status is in 200..299,
    the delivery status and body are stored as received, the error message
    is null on success and the handler's delivery-failure message otherwise,
    the completion body is stored as the [jsonb] column gives it back, and
    the call has issued exactly the completion and the delivery request. *)
Theorem delivery_answer_decides_status (i : Invocation) (w : World)
    (prompt : Prompt.t) (others : list Prompt.t) (renderedPrompt : string)
    (completion : Response) (parsed : JSValue)
    (delivery : Response) (responseText : string)
    (storedInput : option JSValue) (storedResponse : JSValue) :
  selected w (prompt_id_of i) = prompt :: others ->
  Prompt.is_active prompt = true ->
  rendering i prompt = Normal renderedPrompt ->
  network w (List.length (requests w))
          (completionRequest i prompt renderedPrompt w) = Normal completion ->
  accepted i completion = true ->
  json completion = Normal parsed ->
  deliverable i parsed = true ->
  network w (List.length (requests w) + 1)
          (deliveryRequest i prompt renderedPrompt parsed) = Normal delivery ->
  text delivery = Normal responseText ->
  int4 (nextval w) = true ->
  int4 (status delivery) = true ->
  clean [renderedPrompt; responseText] = true ->
  jsonbInput (inputOf i) = Some storedInput ->
  jsonb parsed = Some storedResponse ->
  exists r w',
    invoke i w = (Normal r, w')
    /\ executionHistoryTable w' = (executionHistoryTable w ++ [r])%list
    /\ requests w'
       = (requests w
          ++ [completionRequest i prompt renderedPrompt w;
              deliveryRequest i prompt renderedPrompt parsed])%list
    /\ ExecutionHistory.execution_status r
       = (if ok delivery then success else failed)
    /\ ExecutionHistory.webhook_response_status r = Some (status delivery)
    /\ ExecutionHistory.webhook_response_body r = Some responseText
    /\ ExecutionHistory.error_message r
       = (if ok delivery then None
          else Some (deliveryFailureMessage i (status delivery) responseText))
    /\ ExecutionHistory.openai_response r = storedResponse.
Proof.
  intros Hsel Hact Hrender Hc Hok Hjson Hdeliverable Hd Htext Hnext Hstatus
         Hclean Hinput Hresponse.
  apply clean_2 in Hclean as [Hprompt Hbody].
  destruct (selected_cons _ _ _ _ Hsel) as (Hint4 & _ & Hstored).
  rewrite (delivered_run i w prompt others renderedPrompt completion parsed
             Hsel Hact Hrender Hc Hok Hjson Hdeliverable).
  rewrite Hd. unfold afterDelivery. rewrite Htext.
  destruct (ok delivery);
    [| destruct i; cbn [deliveryFailureMessage] ];
    insert_row storedInput storedResponse;
    do 2 eexists; repeat split; reflexivity.
Qed.

(** X13: when the completion call of the webhook-invoked entry point
    answers with a status that is not [ok] and a body other than [null], the
    record's error message is [OpenAI API error: ] followed by the message
    of the body's [error], or by [Unknown error] when there is none, or,
    when that message has no string conversion, the message of the
    conversion's TypeError; the stored response is the parsed body, or
    [{ error: message }] when the body has no key, as the [jsonb] column
    gives it back; nothing is delivered. *)
Theorem webhook_api_error_is_reported
    (input : WebhookExecutionInput.t) (w : World)
    (prompt : Prompt.t) (others : list Prompt.t) (renderedPrompt : string)
    (completion : Response) (parsed : JSValue) (empty : bool)
    (storedInput : option JSValue) (storedResponse : JSValue) :
  selected w (WebhookExecutionInput.prompt_id input) = prompt :: others ->
  Prompt.is_active prompt = true ->
  rendering (Webhook input) prompt = Normal renderedPrompt ->
  network w (List.length (requests w))
          (completionRequest (Webhook input) prompt renderedPrompt w)
  = Normal completion ->
  ok completion = false ->
  json completion = Normal parsed ->
  hasNoKeys parsed = Normal empty ->
  int4 (nextval w) = true ->
  clean [renderedPrompt; apiErrorMessage parsed] = true ->
  jsonbInput (Some (WebhookExecutionInput.payload input)) = Some storedInput ->
  jsonb (storedAfterError parsed empty (apiErrorMessage parsed))
  = Some storedResponse ->
  exists r w',
    webhookExecution input w = (Normal r, w')
    /\ executionHistoryTable w' = (executionHistoryTable w ++ [r])%list
    /\ requests w'
       = (requests w
          ++ [completionRequest (Webhook input) prompt renderedPrompt w])%list
    /\ ExecutionHistory.execution_status r = failed
    /\ ExecutionHistory.error_message r = Some (apiErrorMessage parsed)
    /\ ExecutionHistory.openai_response r = storedResponse
    /\ ExecutionHistory.webhook_response_status r = None
    /\ ExecutionHistory.webhook_response_body r = None.
Proof.
  intros Hsel Hact Hrender Hc Hok Hjson Hkeys Hnext Hclean Hinput Hresponse.
  apply clean_2 in Hclean as [Hprompt Hmessage].
  destruct (selected_cons _ _ _ _ Hsel) as (Hint4 & _ & Hstored).
  rewrite (refused_run input w prompt others renderedPrompt completion parsed
             empty Hsel Hact Hrender Hc Hok Hjson Hkeys).
  insert_row storedInput storedResponse.
  do 2 eexists. repeat split; reflexivity.
Qed.

(** X14: when the completion call of the webhook-invoked entry point is
    rejected, or its body does not parse, the record the store takes holds
    [{ error: message }] as the completion response, as the [jsonb] column
    gives it back, the message being that of the caught error, and the call
    has issued that one request. *)
Theorem webhook_transport_failure_response
    (input : WebhookExecutionInput.t) (w : World)
    (prompt : Prompt.t) (others : list Prompt.t) (renderedPrompt : string)
    (error : Exn) (storedInput : option JSValue) (storedResponse : JSValue) :
  selected w (WebhookExecutionInput.prompt_id input) = prompt :: others ->
  Prompt.is_active prompt = true ->
  rendering (Webhook input) prompt = Normal renderedPrompt ->
  (let answer :=
     network w (List.length (requests w))
             (completionRequest (Webhook input) prompt renderedPrompt w) in
   answer = Throw error
   \/ exists completion,
        answer = Normal completion /\ json completion = Throw error) ->
  int4 (nextval w) = true ->
  clean [renderedPrompt; messageOr "Unknown error occurred" error] = true ->
  jsonbInput (Some (WebhookExecutionInput.payload input)) = Some storedInput ->
  jsonb (JObj [("error", JStr (messageOr "Unknown error occurred" error))])
  = Some storedResponse ->
  exists r w',
    webhookExecution input w = (Normal r, w')
    /\ executionHistoryTable w' = (executionHistoryTable w ++ [r])%list
    /\ requests w'
       = (requests w
          ++ [completionRequest (Webhook input) prompt renderedPrompt w])%list
    /\ ExecutionHistory.openai_response r = storedResponse
    /\ ExecutionHistory.rendered_prompt r = renderedPrompt
    /\ ExecutionHistory.webhook_response_body r = None.
Proof.
  intros Hsel Hact Hrender Hc Hnext Hclean Hinput Hresponse.
  apply clean_2 in Hclean as [Hprompt Hmessage].
  destruct (selected_cons _ _ _ _ Hsel) as (Hint4 & _ & Hstored).
  rewrite (uncompleted_run input w prompt others renderedPrompt error
             Hsel Hact Hrender Hc).
  insert_row storedInput storedResponse.
  do 2 eexists. repeat split; reflexivity.
Qed.

(** What a settled call has done to the tables, for the invariants
    below. *)
Lemma invoke_resolved (i : Invocation) (w w' : World) (r : ExecutionHistory.t) :
  invoke i w = (Normal r, w') ->
  promptsTable w' = promptsTable w
  /\ executionHistoryTable w' = (executionHistoryTable w ++ [r])%list
  /\ nextval w' = (nextval w + 1)%Z
  /\ now w' = now w
  /\ ExecutionHistory.id r = nextval w
  /\ ExecutionHistory.created_at r = now w
  /\ ExecutionHistory.prompt_id r = prompt_id_of i
  /\ exists prompt others, selected w (prompt_id_of i) = prompt :: others.
Proof.
  intros H.
  apply invoke_Normal in H
    as (prompt & others & renderedPrompt & issued & response & d
        & Hsel & _ & _ & Hwritten & -> & _ & _).
  apply written_row in Hwritten as (input & stored & _ & _ & _ & ->).
  project. repeat (split; [reflexivity|]). now exists prompt, others.
Qed.

Lemma invoke_rejected (i : Invocation) (w w' : World) (e : Exn) :
  invoke i w = (Throw e, w') ->
  promptsTable w' = promptsTable w
  /\ executionHistoryTable w' = executionHistoryTable w
  /\ (nextval w <= nextval w')%Z.
Proof.
  intros H. apply invoke_Throw, Rejection_asked in H
    as (issued & next & -> & _ & Hnext).
  project. repeat split; lia || reflexivity.
Qed.

End RunFacts.

(** ** The repository *)

Section RepositoryFacts.
Context {E : Engine} {D : Database}.

Ltac unfold_repository :=
  unfold getPrompt, getPrompts, deletePrompt, getExecutionHistory, run,
         getPrompt_async, getPrompts_async, deletePrompt_async,
         getExecutionHistory_async,
         tryCatch, bind, selectPrompts, selectAllPrompts, deletePrompts,
         selectHistory, throw, ret;
  cbn [fst snd].

Lemma stored_In (w : World) (id : Z) (p : Prompt.t) :
  In p (filter (fun p => Z.eqb (Prompt.id p) id) (promptsTable w))
  <-> In p (promptsTable w) /\ Prompt.id p = id.
Proof.
  rewrite filter_In.
  split; intros [Hin Hid]; (split; [exact Hin|]); now apply Z.eqb_eq.
Qed.

Lemma stored_nil (w : World) (id : Z) :
  filter (fun p => Z.eqb (Prompt.id p) id) (promptsTable w) = []
  <-> forall p, In p (promptsTable w) -> Prompt.id p <> id.
Proof.
  split.
  - intros Hnil p Hin Hid.
    assert (H : In p (filter (fun p => Z.eqb (Prompt.id p) id)
                             (promptsTable w)))
      by (apply stored_In; now split).
    rewrite Hnil in H. exact H.
  - apply selected_none.
Qed.



(** [getPrompt], settled: the server's refusal of the identifier is
    rethrown; otherwise the first row of the select, if any. *)
Lemma getPrompt_eq (id : Z) (w : World) :
  getPrompt id w
  = (if int4 id
     then Normal match selected w id with
                 | [] => None
                 | prompt :: _ => Some (convertNumericFields prompt)
                 end
     else Throw (integer_out_of_range id), w).
Proof.
  unfold selected. unfold_repository.
  destruct (int4 id); [|reflexivity]. now destruct (filter _ _).
Qed.



Lemma filter_none {A} (f : A -> bool) (l : list A) :
  filter f l = [] -> filter (fun x => negb (f x)) l = l.
Proof.
  induction l as [|x l IH]; [reflexivity|].
  cbn [filter]. destruct (f x); [discriminate|].
  intros H. cbn [negb]. now rewrite IH.
Qed.

(** [deletePrompt], settled. *)
Lemma deletePrompt_eq (id : Z) (w : World) :
  deletePrompt id w
  = if int4 id
    then (Normal (0 <? List.length
                         (filter (fun p => Z.eqb (Prompt.id p) id)
                                 (promptsTable w)))%nat,
          mkWorld
            (filter (fun p => negb (Prompt.id p =? id)%Z) (promptsTable w))
            match filter (fun p => Z.eqb (Prompt.id p) id) (promptsTable w) with
            | [] => executionHistoryTable w
            | _ :: _ =>
                filter (fun r => negb (ExecutionHistory.prompt_id r =? id)%Z)
                       (executionHistoryTable w)
            end
            (nextval w) (now w) (OPENAI_API_KEY w) (network w) (requests w))
    else (Throw (integer_out_of_range id), w).
Proof.
  unfold_repository. now destruct (int4 id).
Qed.

(** X17: [deletePrompt] rejects with the server's error, and leaves the
    world as it was, when the server refuses the identifier (outside the
    32-bit integers of the column).  Otherwise it answers [success: true]
    exactly when a stored prompt had the identifier.  It removes the prompts
    of that identifier and no other; when it removed one, the execution
    records of that prompt go with it (the cascade of the foreign key) and
    no other; when it removed none, the world is as it was. *)
Theorem deletePrompt_removes_the_prompt (id : Z) (w : World) :
  (int4 id = false
   -> deletePrompt id w = (Throw (integer_out_of_range id), w))
  /\ (int4 id = true ->
      exists success,
        fst (deletePrompt id w) = Normal success
        /\ (success = true
            <-> exists p, In p (promptsTable w) /\ Prompt.id p = id)
        /\ (forall p, In p (promptsTable (snd (deletePrompt id w)))
                      <-> In p (promptsTable w) /\ Prompt.id p <> id)
        /\ (success = true ->
            forall r, In r (executionHistoryTable (snd (deletePrompt id w)))
                      <-> In r (executionHistoryTable w)
                          /\ ExecutionHistory.prompt_id r <> id)
        /\ (success = false -> snd (deletePrompt id w) = w)
        /\ nextval (snd (deletePrompt id w)) = nextval w
        /\ requests (snd (deletePrompt id w)) = requests w).
Proof.
  rewrite deletePrompt_eq.
  destruct (int4 id); (split; [try discriminate; reflexivity|]);
    [intros _ | discriminate].
  pose proof (stored_nil w id) as Hnil.
  pose proof (stored_In w id) as Hin.
  assert (Hkept : forall p,
             In p (filter (fun p => negb (Prompt.id p =? id)%Z) (promptsTable w))
             <-> In p (promptsTable w) /\ Prompt.id p <> id).
  { intros p. rewrite filter_In, negb_true_iff, Z.eqb_neq. reflexivity. }
  destruct (filter (fun p => (Prompt.id p =? id)%Z) (promptsTable w))
    as [|prompt others] eqn:Hsel; cbn [fst snd List.length Nat.ltb Nat.leb].
  - exists false. split; [reflexivity|]. split.
    { split; [discriminate|]. intros (p & Hp & Hid).
      exfalso. exact (proj1 Hnil eq_refl p Hp Hid). }
    split; [exact Hkept|]. split; [discriminate|]. split.
    { intros _. rewrite (filter_none _ _ Hsel). now destruct w. }
    split; reflexivity.
  - exists true. split; [reflexivity|]. split.
    { split; [|reflexivity]. intros _. exists prompt.
      apply Hin. now left. }
    split; [exact Hkept|]. split.
    { intros _ r. cbn [executionHistoryTable].
      rewrite filter_In, negb_true_iff, Z.eqb_neq. reflexivity. }
    split; [discriminate|]. split; reflexivity.
Qed.

(** X18: [deletePrompt] keeps the foreign key of the history table: if
    every execution record belonged to a stored prompt before, so it does
    after. *)
Theorem deletePrompt_keeps_foreign_keys (id : Z) (w : World) :
  foreignKeysHold w -> foreignKeysHold (snd (deletePrompt id w)).
Proof.
  unfold foreignKeysHold. intros Hfk. rewrite deletePrompt_eq.
  destruct (int4 id); [|exact Hfk].
  destruct (filter (fun p => (Prompt.id p =? id)%Z) (promptsTable w))
    as [|prompt others] eqn:Hsel; cbn [fst snd promptsTable executionHistoryTable].
  - rewrite (filter_none _ _ Hsel). exact Hfk.
  - intros r Hr. apply filter_In in Hr as [Hr Hother].
    apply negb_true_iff, Z.eqb_neq in Hother.
    destruct (Hfk r Hr) as (p & Hp & Hid).
    exists p. split; [|exact Hid].
    apply filter_In. split; [exact Hp|].
    apply negb_true_iff, Z.eqb_neq. congruence.
Qed.

Lemma insertByCreatedAtDesc_perm (r : ExecutionHistory.t)
    (rows : list ExecutionHistory.t) :
  Permutation (insertByCreatedAtDesc r rows) (r :: rows).
Proof.
  induction rows as [|x rows IH]; cbn [insertByCreatedAtDesc]; [reflexivity|].
  destruct (_ <=? _)%Z; [|reflexivity].
  rewrite IH. apply perm_swap.
Qed.

Lemma orderByCreatedAtDesc_perm (rows : list ExecutionHistory.t) :
  Permutation (orderByCreatedAtDesc rows) rows.
Proof.
  induction rows as [|r rows IH]; cbn [orderByCreatedAtDesc]; [reflexivity|].
  rewrite insertByCreatedAtDesc_perm. now apply perm_skip.
Qed.

Lemma insertByCreatedAtDesc_sorted (r : ExecutionHistory.t)
    (rows : list ExecutionHistory.t) :
  newestFirst rows -> newestFirst (insertByCreatedAtDesc r rows).
Proof.
  induction rows as [|x rows IH]; cbn [insertByCreatedAtDesc newestFirst].
  - intros _. split; [intros y []|exact I].
  - intros [Hx Hrows].
    destruct (Z.leb_spec (ExecutionHistory.created_at r)
                         (ExecutionHistory.created_at x)) as [Hle|Hlt];
      cbn [newestFirst].
    + split; [|now apply IH].
      intros y Hy.
      apply (Permutation_in _ (insertByCreatedAtDesc_perm r rows)) in Hy.
      destruct Hy as [<-|Hy]; [exact Hle | now apply Hx].
    + split; [|now split].
      intros y [<-|Hy]; [lia|]. specialize (Hx y Hy). lia.
Qed.

Lemma orderByCreatedAtDesc_sorted (rows : list ExecutionHistory.t) :
  newestFirst (orderByCreatedAtDesc rows).
Proof.
  induction rows as [|r rows IH]; cbn [orderByCreatedAtDesc]; [exact I|].
  now apply insertByCreatedAtDesc_sorted.
Qed.

(** The copy the final [map] of [getExecutionHistory] makes of a record is
    the record. *)
Lemma map_copy (rows : list ExecutionHistory.t) :
  map (fun record =>
         ExecutionHistory.mk
           (ExecutionHistory.id record)
           (ExecutionHistory.prompt_id record)
           (ExecutionHistory.trigger_type record)
           (ExecutionHistory.input_data record)
           (ExecutionHistory.rendered_prompt record)
           (ExecutionHistory.openai_response record)
           (ExecutionHistory.webhook_response_status record)
           (ExecutionHistory.webhook_response_body record)
           (ExecutionHistory.execution_status record)
           (ExecutionHistory.error_message record)
           (ExecutionHistory.created_at record)) rows
  = rows.
Proof.
  induction rows as [|r rows IH]; [reflexivity|].
  cbn [map]. rewrite IH. now destruct r.
Qed.

Lemma getExecutionHistory_eq (promptId : option Z) (w : World) :
  filterInRange promptId = true ->
  getExecutionHistory promptId w
  = (Normal (orderByCreatedAtDesc
               match promptId with
               | Some id =>
                   filter (fun r => Z.eqb (ExecutionHistory.prompt_id r) id)
                          (executionHistoryTable w)
               | None => executionHistoryTable w
               end), w).
Proof.
  unfold_repository. destruct promptId as [id|]; cbn [filterInRange].
  - intros ->. cbn [fst snd]. now rewrite map_copy.
  - intros _. now rewrite map_copy.
Qed.

(** X19: [getExecutionHistory] reads only.  It rejects, with the server's
    error, exactly when a prompt identifier is given that the server
    refuses (outside the 32-bit integers of the column).  What it lists
    otherwise is newest first; it is, up to that order, the whole history
    table, or, when a prompt identifier is given, the records of that
    prompt: no record is lost, repeated or altered. *)
Theorem getExecutionHistory_lists_newest_first (promptId : option Z)
    (w : World) :
  (forall id, promptId = Some id -> int4 id = false ->
     getExecutionHistory promptId w = (Throw (integer_out_of_range id), w))
  /\ (filterInRange promptId = true ->
      exists rows,
        getExecutionHistory promptId w = (Normal rows, w)
        /\ newestFirst rows
        /\ Permutation rows
             match promptId with
             | Some id =>
                 filter (fun r => Z.eqb (ExecutionHistory.prompt_id r) id)
                        (executionHistoryTable w)
             | None => executionHistoryTable w
             end
        /\ (forall r, In r rows
                      <-> In r (executionHistoryTable w)
                          /\ match promptId with
                             | Some id => ExecutionHistory.prompt_id r = id
                             | None => True
                             end)).
Proof.
  split.
  { intros id -> Hint4. unfold_repository. now rewrite Hint4. }
  intros Hrange.
  rewrite (getExecutionHistory_eq _ _ Hrange). eexists. split; [reflexivity|].
  split; [apply orderByCreatedAtDesc_sorted|].
  split; [apply orderByCreatedAtDesc_perm|].
  intros r. split.
  - intros Hr. apply (Permutation_in _ (orderByCreatedAtDesc_perm _)) in Hr.
    destruct promptId as [id|]; [|now split].
    apply filter_In in Hr as [Hr Hid]. split; [exact Hr | now apply Z.eqb_eq].
  - intros [Hr Hid].
    apply (Permutation_in _ (Permutation_sym (orderByCreatedAtDesc_perm _))).
    destruct promptId as [id|]; [|exact Hr].
    apply filter_In. split; [exact Hr | now apply Z.eqb_eq].
Qed.

Lemma orderByCreatedAtDesc_newest (rows : list ExecutionHistory.t)
    (r : ExecutionHistory.t) :
  (forall x, In x rows ->
             (ExecutionHistory.created_at x < ExecutionHistory.created_at r)%Z) ->
  orderByCreatedAtDesc (rows ++ [r]) = r :: orderByCreatedAtDesc rows.
Proof.
  induction rows as [|x rows IH]; intros Holder; [reflexivity|].
  cbn [List.app orderByCreatedAtDesc].
  rewrite IH by (intros y Hy; apply Holder; now right).
  cbn [insertByCreatedAtDesc].
  destruct (Z.leb_spec (ExecutionHistory.created_at x)
                       (ExecutionHistory.created_at r)) as [_|Hlt];
    [reflexivity|].
  specialize (Holder x (or_introl eq_refl)). lia.
Qed.

End RepositoryFacts.

(** ** The handlers together *)

Section Compositions.
Context {E : Engine} {D : Database}.


(** X21: both entry points keep the serial ahead of the stored records:
    after a call every record's identifier is below the next value, and the
    record a call resolves with has an identifier that no earlier record
    has. *)
Theorem invoke_keeps_identifiers_fresh (i : Invocation) (w : World) :
  serialIsFresh w ->
  serialIsFresh (snd (invoke i w))
  /\ forall r, fst (invoke i w) = Normal r ->
       forall x, In x (executionHistoryTable w) ->
                 ExecutionHistory.id x <> ExecutionHistory.id r.
Proof.
  unfold serialIsFresh. intros Hfresh.
  destruct (invoke i w) as [[r|e] w'] eqn:Hcall; cbn [fst snd].
  - destruct (invoke_resolved i w w' r Hcall)
      as (_ & Hhistory & Hnext & _ & Hid & _).
    rewrite Hhistory, Hnext. split.
    + intros x Hx. apply in_app_or in Hx as [Hx|[<-|[]]].
      * specialize (Hfresh x Hx). lia.
      * lia.
    + intros r' [= <-] x Hx. specialize (Hfresh x Hx). lia.
  - destruct (invoke_rejected i w w' e Hcall) as (_ & Hhistory & Hnext).
    rewrite Hhistory. split; [|discriminate].
    intros x Hx. specialize (Hfresh x Hx). lia.
Qed.

(** X22: the record a call resolves with is listed by
    [getExecutionHistory] afterwards, under the prompt's identifier and
    without one; when every earlier record is older than the clock, it is
    listed first. *)
Theorem recorded_execution_is_listed (i : Invocation) (w w' : World)
    (r : ExecutionHistory.t) :
  invoke i w = (Normal r, w') ->
  (exists rows, fst (getExecutionHistory (Some (prompt_id_of i)) w') = Normal rows
                /\ In r rows)
  /\ (exists rows, fst (getExecutionHistory None w') = Normal rows /\ In r rows)
  /\ ((forall x, In x (executionHistoryTable w) ->
                 (ExecutionHistory.created_at x < now w)%Z) ->
      exists rest, fst (getExecutionHistory None w') = Normal (r :: rest)).
Proof.
  intros Hcall.
  destruct (invoke_resolved i w w' r Hcall)
    as (_ & Hhistory & _ & _ & _ & Hcreated & Hid & prompt & others & Hsel).
  destruct (selected_cons _ _ _ _ Hsel) as (Hint4 & _ & _).
  rewrite (getExecutionHistory_eq (Some (prompt_id_of i)) w' Hint4).
  rewrite (getExecutionHistory_eq None w' eq_refl).
  cbn [fst]. rewrite Hhistory.
  split; [|split].
  - eexists. split; [reflexivity|].
    apply (Permutation_in _ (Permutation_sym (orderByCreatedAtDesc_perm _))).
    apply filter_In. split; [apply in_or_app; right; now left|].
    now apply Z.eqb_eq.
  - eexists. split; [reflexivity|].
    apply (Permutation_in _ (Permutation_sym (orderByCreatedAtDesc_perm _))).
    apply in_or_app. right. now left.
  - intros Holder. eexists. rewrite orderByCreatedAtDesc_newest; [reflexivity|].
    now rewrite Hcreated.
Qed.

(** X23: once [deletePrompt] has run for an identifier the server takes
    (one within the 32-bit integers of the column), [getPrompt] answers null
    for it and both entry points reject a call for it as not found, leaving
    the world as it is; and if the foreign key held before,
    [getExecutionHistory] lists nothing for it. *)
Theorem deleted_prompt_is_gone (id : Z) (w : World) :
  int4 id = true ->
  let w1 := snd (deletePrompt id w) in
  fst (getPrompt id w1) = Normal None
  /\ (forall i, prompt_id_of i = id -> invoke i w1 = (Throw (notFoundError i), w1))
  /\ (foreignKeysHold w ->
      fst (getExecutionHistory (Some id) w1) = Normal []).
Proof.
  intros Hint4 w1.
  assert (Hw1 : w1 = snd (deletePrompt id w)) by reflexivity.
  rewrite deletePrompt_eq, Hint4 in Hw1. cbn [snd] in Hw1.
  assert (Hgone : selected w1 id = []).
  { unfold selected. rewrite Hint4. apply stored_nil. intros p Hp.
    rewrite Hw1 in Hp. cbn [promptsTable] in Hp.
    apply filter_In in Hp as [_ Hp].
    now apply negb_true_iff, Z.eqb_neq in Hp. }
  clearbody w1.
  split; [|split].
  - rewrite getPrompt_eq, Hint4, Hgone. reflexivity.
  - intros i <-. now apply invoke_unselected.
  - intros Hfk. rewrite (getExecutionHistory_eq (Some id) w1 Hint4).
    cbn [fst]. f_equal.
    destruct (filter _ (executionHistoryTable w1)) as [|x xs] eqn:Hf;
      [reflexivity|].
    exfalso.
    assert (Hx : In x (filter (fun r => (ExecutionHistory.prompt_id r =? id)%Z)
                              (executionHistoryTable w1)))
      by (rewrite Hf; now left).
    clear Hf. apply filter_In in Hx as [Hx Hid]. apply Z.eqb_eq in Hid.
    rewrite Hw1 in Hx. cbn [executionHistoryTable] in Hx.
    destruct (filter (fun p => (Prompt.id p =? id)%Z) (promptsTable w))
      as [|prompt others] eqn:Hsel.
    + destruct (Hfk x Hx) as (p & Hp & Hpid).
      assert (Hin : In p (filter (fun p => (Prompt.id p =? id)%Z)
                                 (promptsTable w)))
        by (apply stored_In; split; [exact Hp | congruence]).
      rewrite Hsel in Hin. exact Hin.
    + apply filter_In in Hx as [_ Hx].
      apply negb_true_iff, Z.eqb_neq in Hx. contradiction.
Qed.

End Compositions.

(** ** The claims on the fixtures *)

Module Fixtures.
Import ReferenceEngine ReferenceDatabase Examples Scenarios.

Ltac evaluate := vm_compute; reflexivity.

(** Conjunctions of closed equations, each settled by evaluation. *)
Ltac evaluate_all :=
  repeat match goal with
  | |- _ /\ _ => split
  | |- _ = _ => evaluate
  | |- _ <> _ => vm_compute; discriminate
  end.

(** The record a call resolves with, or the error it rejects with, found
    by evaluation. *)
Ltac exists_record call :=
  let v := eval vm_compute in (fst call) in
  lazymatch v with Normal ?r => exists r end.

Ltac exists_error call :=
  let v := eval vm_compute in (fst call) in
  lazymatch v with Throw ?e => exists e end.

(** C1: evaluated where the claim fails.  The completion call answers 401
    with a JSON error body; [executePrompt] does not look at the status: it
    posts to the destination, and when that answers 200 the persisted record
    has status [success], [webhook_response_status] 200 and no error
    message. *)
Theorem executePrompt_delivers_after_failed_completion :
  exists r,
    network world401 0 (completionRequest manualJohn testPrompt
                          "Hello John, how are you?" world401)
    = Normal unauthorized
    /\ ok unauthorized = false
    /\ fst (invoke manualJohn world401) = Normal r
    /\ executionHistoryTable (snd (invoke manualJohn world401)) = [r]
    /\ List.length (requests (snd (invoke manualJohn world401))) = 2%nat
    /\ ExecutionHistory.execution_status r = success
    /\ ExecutionHistory.webhook_response_status r = Some 200%Z
    /\ ExecutionHistory.webhook_response_body r = Some "OK"
    /\ ExecutionHistory.error_message r = None.
Proof. exists_record (invoke manualJohn world401). evaluate_all. Qed.

(** C2: evaluated where the claim fails.  When the completion [fetch] is
    rejected, and when its body is not JSON, [executePrompt] rejects with
    that error: nothing is caught and no execution record is written. *)
Theorem executePrompt_rejects_on_transport_failure :
  (fst (invoke manualJohn worldOffline) = Throw fetchFailed
   /\ executionHistoryTable (snd (invoke manualJohn worldOffline)) = [])
  /\ (exists e,
      json (textResponse 502 "<html>Bad Gateway</html>") = Throw e
      /\ fst (invoke manualJohn worldMalformed) = Throw e
      /\ executionHistoryTable (snd (invoke manualJohn worldMalformed)) = []).
Proof.
  split; [evaluate_all|].
  exists_error (invoke manualJohn worldMalformed). evaluate_all.
Qed.

(** C3, the claim as stated fails: the mapping has the key [a], its value
    is [undefined], and the placeholder is not replaced by
    [String(undefined)]. *)
Lemma renderTemplate_leaves_undefined_value :
  isWord "a" = true
  /\ ownProperty undefinedValue "a" = Some JUndefined
  /\ renderTemplate ("" ++ placeholder "a" ++ "") (Some undefinedValue)
     = Normal "{{a}}"
  /\ substituted (Some undefinedValue) "" JUndefined "" = Normal "undefined"
  /\ renderTemplate ("" ++ placeholder "a" ++ "") (Some undefinedValue)
     <> substituted (Some undefinedValue) "" JUndefined "".
Proof. evaluate_all. Qed.

Lemma renderTemplate_substitutes_defined_keys_witness :
  renderTemplate ("Hello " ++ placeholder "name" ++ ", how are you?") (Some john)
  = substituted (Some john) "Hello " (JStr "John") ", how are you?"
  /\ renderTemplate ("Hello " ++ placeholder "name" ++ "!") (Some undefinedValue)
     = kept (Some undefinedValue) "Hello " "name" "!"
  /\ renderTemplate "What is the weather in {{city}}?" (Some john)
     = Normal "What is the weather in {{city}}?"
  /\ renderTemplate "What is the weather today?" None
     = Normal "What is the weather today?".
Proof.
  destruct (renderTemplate_substitutes_defined_keys (E := engine))
    as (Hdefined & Hkept & Hunresolved & Hempty).
  split; [|split; [|split]].
  - apply Hdefined; [reflexivity | reflexivity | discriminate].
  - apply Hkept; [reflexivity | left; split; reflexivity].
  - apply Hunresolved. reflexivity.
  - apply Hempty. reflexivity.
Defined.

(** C4: evaluated where the claim fails.  A value that holds the
    placeholder of a later key is substituted again by the webhook
    handler's loop and kept by [renderTemplate]'s single pass; so the two
    handlers record different rendered prompts for one template and one
    mapping.  A replacement pattern in a value ([$&]) separates them too. *)
Theorem renderers_disagree_on_nested_placeholder :
  renderTemplate "{{a}}" (Some nested) = Normal "{{b}}"
  /\ renderPayload nested "{{a}}" = Normal "X"
  /\ renderTemplate "{{a}}" (Some [("a", JStr "$&")]) = Normal "$&"
  /\ renderPayload [("a", JStr "$&")] "{{a}}" = Normal "{{a}}"
  /\ exists r1 r2,
      fst (invoke (Manual (ExecutePromptInput.mk 1 (Some nested)))
                  (worldDelivered (promptWith "{{a}}" true))) = Normal r1
      /\ fst (invoke (Webhook (WebhookExecutionInput.mk 1 nested))
                     (worldDelivered (promptWith "{{a}}" true))) = Normal r2
      /\ ExecutionHistory.execution_status r1 = success
      /\ ExecutionHistory.execution_status r2 = success
      /\ ExecutionHistory.rendered_prompt r1 = "{{b}}"
      /\ ExecutionHistory.rendered_prompt r2 = "X".
Proof.
  do 4 (split; [evaluate|]).
  exists_record (invoke (Manual (ExecutePromptInput.mk 1 (Some nested)))
                        (worldDelivered (promptWith "{{a}}" true))).
  exists_record (invoke (Webhook (WebhookExecutionInput.mk 1 nested))
                        (worldDelivered (promptWith "{{a}}" true))).
  evaluate_all.
Qed.

Lemma inactive_prompt_is_rejected_witness :
  let w := worldOf (promptWith "Hello {{name}}, how are you?" false) [] in
  (invoke manualJohn w = (Throw (notActiveError manualJohn), w)
   /\ executionHistoryTable (snd (invoke manualJohn w)) = executionHistoryTable w
   /\ requests (snd (invoke manualJohn w)) = requests w)
  /\ (invoke webhookJohn w = (Throw (notActiveError webhookJohn), w)
      /\ executionHistoryTable (snd (invoke webhookJohn w)) = executionHistoryTable w
      /\ requests (snd (invoke webhookJohn w)) = requests w).
Proof.
  split;
    apply inactive_prompt_is_rejected
      with (prompt := promptWith "Hello {{name}}, how are you?" false)
           (others := []);
    reflexivity.
Defined.

(** C6, the claim as stated fails: no stored prompt has the identifier
    2147483648, yet neither entry point rejects the call as not found: the
    server refuses the identifier, which is outside the type of the column,
    and both handlers rethrow its error.  No record is written. *)
Lemma identifier_out_of_range_is_not_reported_as_not_found :
  existsb (fun p => Z.eqb (Prompt.id p) aboveInteger)
          (promptsTable (worldOf testPrompt [])) = false
  /\ (exists e,
      fst (invoke (Manual (ExecutePromptInput.mk aboveInteger (Some john)))
                  (worldOf testPrompt [])) = Throw e
      /\ e <> notFoundError
                (Manual (ExecutePromptInput.mk aboveInteger (Some john))))
  /\ (exists e,
      fst (invoke (Webhook (WebhookExecutionInput.mk aboveInteger john))
                  (worldOf testPrompt [])) = Throw e
      /\ e <> notFoundError
                (Webhook (WebhookExecutionInput.mk aboveInteger john)))
  /\ executionHistoryTable
       (snd (invoke (Manual (ExecutePromptInput.mk aboveInteger (Some john)))
                    (worldOf testPrompt []))) = []
  /\ executionHistoryTable
       (snd (invoke (Webhook (WebhookExecutionInput.mk aboveInteger john))
                    (worldOf testPrompt []))) = [].
Proof.
  split; [evaluate|]. split; [|split].
  - exists_error (invoke (Manual (ExecutePromptInput.mk aboveInteger (Some john)))
                         (worldOf testPrompt [])).
    evaluate_all.
  - exists_error (invoke (Webhook (WebhookExecutionInput.mk aboveInteger john))
                         (worldOf testPrompt [])).
    evaluate_all.
  - evaluate_all.
Qed.

Lemma unknown_prompt_is_rejected_witness :
  let i := Manual (ExecutePromptInput.mk 999 (Some [])) in
  let j := Webhook (WebhookExecutionInput.mk aboveInteger john) in
  let w := worldOf testPrompt [] in
  (invoke i w = (Throw (notFoundError i), w)
   /\ executionHistoryTable (snd (invoke i w)) = executionHistoryTable w
   /\ requests (snd (invoke i w)) = requests w)
  /\ (invoke j w = (Throw (integer_out_of_range aboveInteger), w)
      /\ executionHistoryTable (snd (invoke j w)) = executionHistoryTable w
      /\ requests (snd (invoke j w)) = requests w).
Proof.
  intros i j w. split.
  - destruct (unknown_prompt_is_rejected i w) as (Hfound & _ & Hrest).
    { intros p [<-|[]]. simpl. discriminate. }
    split; [exact (Hfound eq_refl) | exact Hrest].
  - destruct (unknown_prompt_is_rejected j w) as (_ & Hrefused & Hrest).
    { intros p [<-|[]]. simpl. discriminate. }
    split; [exact (Hrefused eq_refl) | exact Hrest].
Defined.

(** C7, the claim as stated fails: the completion call succeeds and the
    destination answers 500, with a body that holds U+0000.  No [text]
    column takes that character: the insert is refused, both handlers
    rethrow the error, and no record is persisted.  The insert is refused as
    well when the serial has no value left, and when the input mapping or
    the generated text holds U+0000. *)
Lemma delivery_500_is_not_recorded :
  network worldDelivery500Nul 1
          (deliveryRequest manualJohn testPrompt "Hello John, how are you?"
             (JObj (generated "Hello John, I am doing well!")))
  = Normal (textResponse 500 withNul)
  /\ network worldDelivery500Nul 1
             (deliveryRequest webhookJohn testPrompt "Hello John, how are you?"
                (JObj (generated "Hello John, I am doing well!")))
     = Normal (textResponse 500 withNul)
  /\ status (textResponse 500 withNul) = 500%Z
  /\ (exists e, fst (invoke manualJohn worldDelivery500Nul) = Throw e)
  /\ (exists e, fst (invoke webhookJohn worldDelivery500Nul) = Throw e)
  /\ List.length (requests (snd (invoke manualJohn worldDelivery500Nul))) = 2%nat
  /\ List.length (requests (snd (invoke webhookJohn worldDelivery500Nul))) = 2%nat
  /\ executionHistoryTable (snd (invoke manualJohn worldDelivery500Nul)) = []
  /\ executionHistoryTable (snd (invoke webhookJohn worldDelivery500Nul)) = []
  /\ (exists e, fst (invoke manualJohn (serialSpent worldDelivery500)) = Throw e)
  /\ (exists e, fst (invoke manualNul worldDelivery500) = Throw e)
  /\ (exists e, fst (invoke manualJohn (worldGeneratedNul 500)) = Throw e)
  /\ List.length
       (requests (snd (invoke manualJohn (serialSpent worldDelivery500))))
     = 2%nat
  /\ List.length (requests (snd (invoke manualNul worldDelivery500))) = 2%nat
  /\ List.length (requests (snd (invoke manualJohn (worldGeneratedNul 500))))
     = 2%nat
  /\ executionHistoryTable
       (snd (invoke manualJohn (serialSpent worldDelivery500))) = []
  /\ executionHistoryTable (snd (invoke manualNul worldDelivery500)) = []
  /\ executionHistoryTable (snd (invoke manualJohn (worldGeneratedNul 500)))
     = [].
Proof.
  do 3 (split; [evaluate|]).
  split; [exists_error (invoke manualJohn worldDelivery500Nul); evaluate|].
  split; [exists_error (invoke webhookJohn worldDelivery500Nul); evaluate|].
  do 4 (split; [evaluate|]).
  split; [exists_error (invoke manualJohn (serialSpent worldDelivery500));
          evaluate|].
  split; [exists_error (invoke manualNul worldDelivery500); evaluate|].
  split; [exists_error (invoke manualJohn (worldGeneratedNul 500)); evaluate|].
  evaluate_all.
Qed.

Lemma delivery_500_is_recorded_witness :
  (exists r w',
      invoke manualJohn worldDelivery500 = (Normal r, w')
      /\ executionHistoryTable w'
         = (executionHistoryTable worldDelivery500 ++ [r])%list
      /\ ExecutionHistory.execution_status r = failed
      /\ ExecutionHistory.webhook_response_status r = Some 500%Z
      /\ ExecutionHistory.webhook_response_body r = Some "Internal Server Error"
      /\ ExecutionHistory.error_message r
         = Some (deliveryFailureMessage manualJohn 500 "Internal Server Error"))
  /\ (exists r w',
      invoke webhookJohn worldDelivery500 = (Normal r, w')
      /\ executionHistoryTable w'
         = (executionHistoryTable worldDelivery500 ++ [r])%list
      /\ ExecutionHistory.execution_status r = failed
      /\ ExecutionHistory.webhook_response_status r = Some 500%Z
      /\ ExecutionHistory.webhook_response_body r = Some "Internal Server Error"
      /\ ExecutionHistory.error_message r
         = Some (deliveryFailureMessage webhookJohn 500 "Internal Server Error")).
Proof.
  split;
    apply delivery_500_is_recorded
      with (prompt := testPrompt) (others := [])
           (renderedPrompt := "Hello John, how are you?")
           (completion := jsonResponse 200 (generated "Hello John, I am doing well!"))
           (parsed := JObj (generated "Hello John, I am doing well!"))
           (delivery := textResponse 500 "Internal Server Error")
           (storedInput := Some (JObj john))
           (storedResponse := JObj (generated "Hello John, I am doing well!"));
    evaluate.
Defined.



Lemma error_message_iff_failed_witness :
  exists r,
    fst (invoke webhookJohn world401) = Normal r
    /\ ((ExecutionHistory.error_message r <> None
         <-> ExecutionHistory.execution_status r = failed)
        /\ executionHistoryTable (snd (invoke webhookJohn world401))
           = (executionHistoryTable world401 ++ [r])%list).
Proof.
  exists_record (invoke webhookJohn world401).
  match goal with |- fst _ = Normal ?r /\ _ =>
    assert (Hfst : fst (invoke webhookJohn world401) = Normal r) by evaluate
  end.
  destruct (invoke webhookJohn world401) as [c w'] eqn:H.
  cbn [fst snd] in *. subst c.
  split; [reflexivity|].
  exact (error_message_iff_failed webhookJohn world401 w' _ H).
Defined.

Lemma webhook_delivery_payload_witness :
  exists rq prompt others renderedPrompt completion parsed,
    nth_error
      (requests (snd (webhookExecution (WebhookExecutionInput.mk 1 john)
                                       (worldDelivered testPrompt))))
      (List.length (requests (worldDelivered testPrompt)) + 1)
    = Some rq
    /\ selected (worldDelivered testPrompt) 1 = prompt :: others
    /\ rendering webhookJohn prompt = Normal renderedPrompt
    /\ network (worldDelivered testPrompt)
               (List.length (requests (worldDelivered testPrompt)))
               (completionRequest webhookJohn prompt renderedPrompt
                                  (worldDelivered testPrompt))
       = Normal completion
    /\ json completion = Normal parsed
    /\ truthy (member (member (first (member parsed "choices")) "message")
                      "content") = true
    /\ url rq = Prompt.destination_webhook_url prompt
    /\ headers rq = [("Content-Type", "application/json")]
    /\ body rq
       = WebhookDelivery 1 john
           (member (member (first (member parsed "choices")) "message")
                   "content")
           None.
Proof.
  pose (input := WebhookExecutionInput.mk 1 john).
  pose (w := worldDelivered testPrompt).
  destruct (nth_error (requests (snd (webhookExecution input w)))
                      (List.length (requests w) + 1)) as [rq|] eqn:H.
  - destruct (webhook_delivery_payload input w rq H)
      as (prompt & others & renderedPrompt & completion & parsed & Hrest).
    exists rq, prompt, others, renderedPrompt, completion, parsed.
    subst input w. rewrite H. split; [reflexivity | exact Hrest].
  - vm_compute in H. discriminate H.
Defined.

End Fixtures.

(** ** The properties above on the fixtures *)

Module Runs.
Import ReferenceEngine ReferenceDatabase Examples Scenarios.

Ltac evaluate := vm_compute; reflexivity.

Ltac exists_record call :=
  let v := eval vm_compute in (fst call) in
  lazymatch v with Normal ?r => exists r end.

Ltac exists_error call :=
  let v := eval vm_compute in (fst call) in
  lazymatch v with Throw ?e => exists e end.

Lemma renderPayload_unmentioned_witness :
  renderPayload [("order_id", JStr "12345")] "Hello {{name}}, how are you?"
  = Normal "Hello {{name}}, how are you?".
Proof.
  apply renderPayload_unmentioned. evaluate.
Defined.

Lemma renderers_agree_on_one_key_witness :
  renderPayload john "Hello {{name}}, how are you?"
  = renderTemplate "Hello {{name}}, how are you?" (Some john).
Proof.
  apply (renderers_agree_on_one_key "name" (JStr "John") "John").
  - evaluate.
  - discriminate.
  - reflexivity.
  - evaluate.
  - evaluate.
Defined.

Lemma renderTemplate_throws_only_TypeError_witness :
  allConvert (dataOf (Some john)) = true
  /\ exists out, renderTemplate "Hello {{name}}, how are you?" (Some john)
                 = Normal out.
Proof.
  assert (H : allConvert (dataOf (Some john)) = true) by evaluate.
  split; [exact H|].
  exact (proj2 (renderTemplate_throws_only_TypeError
                  "Hello {{name}}, how are you?" (Some john)) H).
Defined.

Lemma renderPayload_converts_every_value_witness :
  allConvert shadowed = false
  /\ renderPayload shadowed "Hello {{name}}, how are you?"
     = Throw TypeError_cannot_convert.
Proof.
  assert (H : allConvert shadowed = false) by evaluate.
  split; [exact H|].
  apply (proj2 (renderPayload_converts_every_value
                  shadowed "Hello {{name}}, how are you?" eq_refl) H).
Defined.

(** A completion body that is [null] makes [webhookExecution] reject:
    nothing is recorded. *)
Lemma rejection_causes_witness :
  exists e,
    fst (invoke webhookJohn worldNullBody) = Throw e
    /\ e = TypeError_null_to_object
    /\ executionHistoryTable (snd (invoke webhookJohn worldNullBody))
       = executionHistoryTable worldNullBody
    /\ (nextval worldNullBody
        <= nextval (snd (invoke webhookJohn worldNullBody))
        <= nextval worldNullBody + 1)%Z.
Proof.
  exists_error (invoke webhookJohn worldNullBody).
  match goal with |- fst _ = Throw ?e /\ _ =>
    assert (Hfst : fst (invoke webhookJohn worldNullBody) = Throw e) by evaluate
  end.
  destruct (invoke webhookJohn worldNullBody) as [c w'] eqn:H.
  cbn [fst snd] in *. subst c.
  split; [reflexivity|]. split; [evaluate|].
  destruct (rejection_causes webhookJohn worldNullBody w' _ H)
    as (Hhistory & Hnext & _).
  split; assumption.
Defined.

Lemma record_provenance_witness :
  exists r,
    fst (invoke webhookJohn worldStored) = Normal r
    /\ ExecutionHistory.id r = 4%Z
    /\ ExecutionHistory.created_at r = 1000%Z
    /\ ExecutionHistory.prompt_id r = 1%Z
    /\ ExecutionHistory.trigger_type r = webhook
    /\ jsonbInput (Some john) = Some (ExecutionHistory.input_data r).
Proof.
  exists_record (invoke webhookJohn worldStored).
  match goal with |- fst _ = Normal ?r /\ _ =>
    assert (Hfst : fst (invoke webhookJohn worldStored) = Normal r) by evaluate
  end.
  destruct (invoke webhookJohn worldStored) as [c w'] eqn:H.
  cbn [fst snd] in *. subst c.
  split; [reflexivity|].
  destruct (record_provenance webhookJohn worldStored w' _ H)
    as (Hid & _ & Hcreated & Hprompt & Htrigger & Hinput & _).
  repeat split; assumption.
Defined.

Lemma manual_delivery_payload_witness :
  exists rq prompt others renderedPrompt completion parsed,
    nth_error
      (requests (snd (executePrompt (ExecutePromptInput.mk 1 (Some john))
                                    world401)))
      (List.length (requests world401) + 1)
    = Some rq
    /\ selected world401 1 = prompt :: others
    /\ Prompt.is_active prompt = true
    /\ rendering manualJohn prompt = Normal renderedPrompt
    /\ network world401 (List.length (requests world401))
               (completionRequest manualJohn prompt renderedPrompt world401)
       = Normal completion
    /\ json completion = Normal parsed
    /\ url rq = Prompt.destination_webhook_url prompt
    /\ headers rq = [("Content-Type", "application/json")]
    /\ body rq = ManualDelivery 1 renderedPrompt parsed (Some john).
Proof.
  pose (input := ExecutePromptInput.mk 1 (Some john)).
  pose (w := world401).
  destruct (nth_error (requests (snd (executePrompt input w)))
                      (List.length (requests w) + 1)) as [rq|] eqn:H.
  - destruct (manual_delivery_payload input w rq H)
      as (prompt & others & renderedPrompt & completion & parsed & Hrest).
    exists rq, prompt, others, renderedPrompt, completion, parsed.
    subst input w. rewrite H. split; [reflexivity | exact Hrest].
  - vm_compute in H. discriminate H.
Defined.

Lemma webhook_without_content_is_failed_witness :
  exists r w',
    webhookExecution (WebhookExecutionInput.mk 1 john) worldNoContent
    = (Normal r, w')
    /\ executionHistoryTable w'
       = (executionHistoryTable worldNoContent ++ [r])%list
    /\ requests w'
       = (requests worldNoContent
          ++ [completionRequest webhookJohn testPrompt
                "Hello John, how are you?" worldNoContent])%list
    /\ ExecutionHistory.execution_status r = failed
    /\ ExecutionHistory.error_message r
       = Some "No content received from OpenAI API"
    /\ ExecutionHistory.webhook_response_status r = None
    /\ ExecutionHistory.webhook_response_body r = None
    /\ ExecutionHistory.openai_response r = JObj [("choices", JArr [])].
Proof.
  apply (webhook_without_content_is_failed
           (WebhookExecutionInput.mk 1 john) worldNoContent testPrompt []
           "Hello John, how are you?"
           (jsonResponse 200 [("choices", JArr [])])
           (JObj [("choices", JArr [])]) false
           (Some (JObj john)) (JObj [("choices", JArr [])]));
    evaluate.
Defined.

Lemma delivery_rejection_is_recorded_witness :
  (exists r w',
      invoke manualJohn worldUnreachable = (Normal r, w')
      /\ executionHistoryTable w'
         = (executionHistoryTable worldUnreachable ++ [r])%list
      /\ ExecutionHistory.execution_status r = failed
      /\ ExecutionHistory.webhook_response_status r = None
      /\ ExecutionHistory.webhook_response_body r = None
      /\ ExecutionHistory.error_message r
         = Some (caughtDeliveryMessage manualJohn fetchFailed)
      /\ ExecutionHistory.openai_response r
         = JObj (generated "Hello John, I am doing well!"))
  /\ (exists r w',
      invoke webhookJohn worldUnreachable = (Normal r, w')
      /\ executionHistoryTable w'
         = (executionHistoryTable worldUnreachable ++ [r])%list
      /\ ExecutionHistory.execution_status r = failed
      /\ ExecutionHistory.webhook_response_status r = None
      /\ ExecutionHistory.webhook_response_body r = None
      /\ ExecutionHistory.error_message r
         = Some (caughtDeliveryMessage webhookJohn fetchFailed)
      /\ ExecutionHistory.openai_response r
         = JObj (generated "Hello John, I am doing well!")).
Proof.
  split;
    apply delivery_rejection_is_recorded
      with (prompt := testPrompt) (others := [])
           (renderedPrompt := "Hello John, how are you?")
           (completion := jsonResponse 200 (generated "Hello John, I am doing well!"))
           (parsed := JObj (generated "Hello John, I am doing well!"))
           (storedInput := Some (JObj john));
    evaluate.
Defined.

Lemma delivery_body_failure_keeps_status_witness :
  (exists r w',
      invoke manualJohn worldUnreadable = (Normal r, w')
      /\ executionHistoryTable w'
         = (executionHistoryTable worldUnreadable ++ [r])%list
      /\ ExecutionHistory.execution_status r = failed
      /\ ExecutionHistory.webhook_response_status r = Some (status unreadable)
      /\ ExecutionHistory.webhook_response_body r = None
      /\ ExecutionHistory.error_message r
         = Some (caughtDeliveryMessage manualJohn bodyLost))
  /\ (exists r w',
      invoke webhookJohn worldUnreadable = (Normal r, w')
      /\ executionHistoryTable w'
         = (executionHistoryTable worldUnreadable ++ [r])%list
      /\ ExecutionHistory.execution_status r = failed
      /\ ExecutionHistory.webhook_response_status r = Some (status unreadable)
      /\ ExecutionHistory.webhook_response_body r = None
      /\ ExecutionHistory.error_message r
         = Some (caughtDeliveryMessage webhookJohn bodyLost)).
Proof.
  split;
    apply delivery_body_failure_keeps_status
      with (prompt := testPrompt) (others := [])
           (renderedPrompt := "Hello John, how are you?")
           (completion := jsonResponse 200 (generated "Hello John, I am doing well!"))
           (parsed := JObj (generated "Hello John, I am doing well!"))
           (storedInput := Some (JObj john))
           (storedResponse := JObj (generated "Hello John, I am doing well!"));
    evaluate.
Defined.

Lemma delivery_answer_decides_status_witness :
  exists r w',
    invoke webhookJohn worldDelivery204 = (Normal r, w')
    /\ executionHistoryTable w'
       = (executionHistoryTable worldDelivery204 ++ [r])%list
    /\ requests w'
       = (requests worldDelivery204
          ++ [completionRequest webhookJohn testPrompt
                "Hello John, how are you?" worldDelivery204;
              deliveryRequest webhookJohn testPrompt
                "Hello John, how are you?"
                (JObj (generated "Hello John, I am doing well!"))])%list
    /\ ExecutionHistory.execution_status r
       = (if ok (textResponse 204 "") then success else failed)
    /\ ExecutionHistory.webhook_response_status r
       = Some (status (textResponse 204 ""))
    /\ ExecutionHistory.webhook_response_body r = Some ""
    /\ ExecutionHistory.error_message r
       = (if ok (textResponse 204 "") then None
          else Some (deliveryFailureMessage webhookJohn
                       (status (textResponse 204 "")) ""))
    /\ ExecutionHistory.openai_response r
       = JObj (generated "Hello John, I am doing well!").
Proof.
  apply (delivery_answer_decides_status webhookJohn worldDelivery204
           testPrompt [] "Hello John, how are you?"
           (jsonResponse 200 (generated "Hello John, I am doing well!"))
           (JObj (generated "Hello John, I am doing well!"))
           (textResponse 204 "") ""
           (Some (JObj john))
           (JObj (generated "Hello John, I am doing well!")));
    evaluate.
Defined.

Lemma webhook_api_error_is_reported_witness :
  exists r w',
    webhookExecution (WebhookExecutionInput.mk 1 john) world401 = (Normal r, w')
    /\ executionHistoryTable w' = (executionHistoryTable world401 ++ [r])%list
    /\ requests w'
       = (requests world401
          ++ [completionRequest webhookJohn testPrompt
                "Hello John, how are you?" world401])%list
    /\ ExecutionHistory.execution_status r = failed
    /\ ExecutionHistory.error_message r
       = Some (apiErrorMessage
                 (JObj [("error", JObj [("message", JStr "Invalid API key")])]))
    /\ ExecutionHistory.openai_response r
       = JObj [("error", JObj [("message", JStr "Invalid API key")])]
    /\ ExecutionHistory.webhook_response_status r = None
    /\ ExecutionHistory.webhook_response_body r = None.
Proof.
  apply (webhook_api_error_is_reported
           (WebhookExecutionInput.mk 1 john) world401 testPrompt []
           "Hello John, how are you?" unauthorized
           (JObj [("error", JObj [("message", JStr "Invalid API key")])])
           false (Some (JObj john))
           (JObj [("error", JObj [("message", JStr "Invalid API key")])]));
    evaluate.
Defined.

Lemma webhook_transport_failure_response_witness :
  exists r w',
    webhookExecution (WebhookExecutionInput.mk 1 john) worldOffline
    = (Normal r, w')
    /\ executionHistoryTable w' = (executionHistoryTable worldOffline ++ [r])%list
    /\ requests w'
       = (requests worldOffline
          ++ [completionRequest webhookJohn testPrompt
                "Hello John, how are you?" worldOffline])%list
    /\ ExecutionHistory.openai_response r
       = JObj [("error", JStr (messageOr "Unknown error occurred" fetchFailed))]
    /\ ExecutionHistory.rendered_prompt r = "Hello John, how are you?"
    /\ ExecutionHistory.webhook_response_body r = None.
Proof.
  apply (webhook_transport_failure_response
           (WebhookExecutionInput.mk 1 john) worldOffline testPrompt []
           "Hello John, how are you?" fetchFailed (Some (JObj john))
           (JObj [("error",
                   JStr (messageOr "Unknown error occurred" fetchFailed))])).
  - evaluate.
  - evaluate.
  - evaluate.
  - left. evaluate.
  - evaluate.
  - evaluate.
  - evaluate.
  - evaluate.
Defined.

Lemma worldStored_foreign_keys : foreignKeysHold worldStored.
Proof.
  intros r [<-|[<-|[<-|[]]]].
  - exists testPrompt. split; [now left | reflexivity].
  - exists secondPrompt. split; [right; now left | reflexivity].
  - exists testPrompt. split; [now left | reflexivity].
Defined.

Lemma worldStored_serial : serialIsFresh worldStored.
Proof.
  intros r [<-|[<-|[<-|[]]]]; reflexivity.
Defined.


Lemma deletePrompt_removes_the_prompt_witness :
  deletePrompt aboveInteger worldStored
  = (Throw (integer_out_of_range aboveInteger), worldStored)
  /\ exists success,
       fst (deletePrompt 1 worldStored) = Normal success
       /\ (success = true
           <-> exists p, In p (promptsTable worldStored) /\ Prompt.id p = 1%Z).
Proof.
  split.
  - exact (proj1 (deletePrompt_removes_the_prompt aboveInteger worldStored)
                 eq_refl).
  - destruct (proj2 (deletePrompt_removes_the_prompt 1 worldStored) eq_refl)
      as (success & Hanswer & Hsuccess & _).
    exists success. split; assumption.
Defined.

Lemma getExecutionHistory_lists_newest_first_witness :
  getExecutionHistory (Some aboveInteger) worldStored
  = (Throw (integer_out_of_range aboveInteger), worldStored)
  /\ exists rows,
       getExecutionHistory (Some 1%Z) worldStored = (Normal rows, worldStored)
       /\ newestFirst rows.
Proof.
  split.
  - exact (proj1 (getExecutionHistory_lists_newest_first
                    (Some aboveInteger) worldStored)
                 aboveInteger eq_refl eq_refl).
  - destruct (proj2 (getExecutionHistory_lists_newest_first
                       (Some 1%Z) worldStored) eq_refl)
      as (rows & Hrows & Hsorted & _).
    exists rows. split; assumption.
Defined.

Lemma deletePrompt_keeps_foreign_keys_witness :
  foreignKeysHold worldStored
  /\ foreignKeysHold (snd (deletePrompt 1 worldStored)).
Proof.
  split; [exact worldStored_foreign_keys|].
  exact (deletePrompt_keeps_foreign_keys 1 worldStored worldStored_foreign_keys).
Defined.


Lemma invoke_keeps_identifiers_fresh_witness :
  serialIsFresh worldStored
  /\ serialIsFresh (snd (invoke webhookJohn worldStored))
  /\ forall r, fst (invoke webhookJohn worldStored) = Normal r ->
       forall x, In x (executionHistoryTable worldStored) ->
                 ExecutionHistory.id x <> ExecutionHistory.id r.
Proof.
  split; [exact worldStored_serial|].
  exact (invoke_keeps_identifiers_fresh webhookJohn worldStored
           worldStored_serial).
Defined.

Lemma recorded_execution_is_listed_witness :
  exists r rest,
    fst (invoke manualJohn worldStored) = Normal r
    /\ fst (getExecutionHistory None (snd (invoke manualJohn worldStored)))
       = Normal (r :: rest).
Proof.
  exists_record (invoke manualJohn worldStored).
  match goal with |- exists rest, fst _ = Normal ?r /\ _ =>
    assert (Hfst : fst (invoke manualJohn worldStored) = Normal r) by evaluate
  end.
  destruct (invoke manualJohn worldStored) as [c w'] eqn:H.
  cbn [fst snd] in *. subst c.
  destruct (recorded_execution_is_listed manualJohn worldStored w' _ H)
    as (_ & _ & Hfirst).
  destruct Hfirst as [rest Hrest].
  - intros x [<-|[<-|[<-|[]]]]; reflexivity.
  - exists rest. split; [reflexivity | exact Hrest].
Defined.

Lemma deleted_prompt_is_gone_witness :
  int4 1 = true
  /\ fst (getPrompt 1 (snd (deletePrompt 1 worldStored))) = Normal None
  /\ fst (getExecutionHistory (Some 1%Z) (snd (deletePrompt 1 worldStored)))
     = Normal [].
Proof.
  split; [reflexivity|].
  destruct (deleted_prompt_is_gone 1 worldStored eq_refl)
    as (Hprompt & _ & Hhistory).
  split; [exact Hprompt | exact (Hhistory worldStored_foreign_keys)].
Defined.

End Runs.
